(** * Derived analytics of the gold-price dashboard

    A shallow embedding of the client-side analytics of the React
    dashboard: the trailing moving average ([calculateMovingAverage]), the
    day-over-day deltas ([fetchChangeData] of DailyChangeBarChart), the
    spread series ([fetchSpreadData] of SpreadTrendChart) and the
    cumulative return between an entry and an exit date ([fetchData] and
    the recomputation effect of CumulativeReturnChart).

    JavaScript numbers are modelled as exact rationals extended with
    [Infinity], [-Infinity] and [NaN]: the tests the code makes
    ([Number.isFinite], [<=], [||], [??]) and the arithmetic on the
    non-finite values follow ECMAScript, while binary64 rounding,
    overflow and the sign of zero are outside the model.  What is stated
    as an equation between two arithmetic expressions reads the same way
    in binary64; what compares an average with its inputs, or a sum of
    differences with a net difference, is stated for whole-number prices
    within 2^53, where the sums of the code are exact. *)

From Stdlib Require Import String Ascii.
From Stdlib Require Import ZArith QArith Qcanon Qround.
From Stdlib Require Import List Bool Arith Lia.
From Stdlib Require Import Permutation Sorted.
Import ListNotations.

Local Open Scope Z_scope.

(** ** Numbers *)

Inductive num : Type :=
| Fin (q : Qc)
| PInf
| NInf
| NaN.

Definition ofZ (z : Z) : num := Fin (Q2Qc (inject_Z z)).
Definition ofNat (n : nat) : num := ofZ (Z.of_nat n).

Definition zero : num := ofZ 0.

(** [Number.isFinite]. *)
Definition isFinite (x : num) : bool :=
  match x with
  | Fin _ => true
  | _ => false
  end.

(** Sign of a rational, as a comparison with zero. *)
Definition sgn (q : Qc) : comparison := (q ?= Q2Qc 0)%Qc.

Definition nneg (x : num) : num :=
  match x with
  | Fin q => Fin (- q)%Qc
  | PInf => NInf
  | NInf => PInf
  | NaN => NaN
  end.

Definition nadd (x y : num) : num :=
  match x, y with
  | NaN, _ | _, NaN => NaN
  | Fin a, Fin b => Fin (a + b)%Qc
  | PInf, NInf | NInf, PInf => NaN
  | PInf, _ | _, PInf => PInf
  | NInf, _ | _, NInf => NInf
  end.

Definition nsub (x y : num) : num := nadd x (nneg y).

(** An infinity scaled by the sign of a finite factor. *)
Definition scaleInf (pos : bool) (s : comparison) : num :=
  match s with
  | Eq => NaN
  | Gt => if pos then PInf else NInf
  | Lt => if pos then NInf else PInf
  end.

Definition nmul (x y : num) : num :=
  match x, y with
  | NaN, _ | _, NaN => NaN
  | Fin a, Fin b => Fin (a * b)%Qc
  | Fin a, PInf | PInf, Fin a => scaleInf true (sgn a)
  | Fin a, NInf | NInf, Fin a => scaleInf false (sgn a)
  | PInf, PInf | NInf, NInf => PInf
  | PInf, NInf | NInf, PInf => NInf
  end.

(** Division; a zero divisor is the positive zero. *)
Definition ndiv (x y : num) : num :=
  match x, y with
  | NaN, _ | _, NaN => NaN
  | Fin a, Fin b =>
      match sgn b with
      | Eq => scaleInf true (sgn a)
      | _ => Fin (a / b)%Qc
      end
  | Fin _, _ => zero
  | PInf, Fin b => match sgn b with Lt => NInf | _ => PInf end
  | NInf, Fin b => match sgn b with Lt => PInf | _ => NInf end
  | _, _ => NaN
  end.

(** The relational operators; every comparison with [NaN] is false. *)
Definition nleb (x y : num) : bool :=
  match x, y with
  | NaN, _ | _, NaN => false
  | NInf, _ | _, PInf => true
  | Fin a, Fin b => match (a ?= b)%Qc with Gt => false | _ => true end
  | _, _ => false
  end.

Definition nltb (x y : num) : bool :=
  match x, y with
  | NaN, _ | _, NaN => false
  | Fin a, Fin b => match (a ?= b)%Qc with Lt => true | _ => false end
  | PInf, _ | _, NInf => false
  | _, _ => true
  end.

Definition ngtb (x y : num) : bool := nltb y x.
Definition ngeb (x y : num) : bool := nleb y x.

(** [Math.max] and [Math.min] of two arguments, and of a spread array. *)
Definition max2 (x y : num) : num :=
  match x, y with
  | NaN, _ | _, NaN => NaN
  | _, _ => if nltb x y then y else x
  end.

Definition min2 (x y : num) : num :=
  match x, y with
  | NaN, _ | _, NaN => NaN
  | _, _ => if nltb y x then y else x
  end.

Definition mathMax (l : list num) : num := fold_left max2 l NInf.
Definition mathMin (l : list num) : num := fold_left min2 l PInf.

(** [Math.round]: the integer nearest to the argument, ties upwards. *)
Definition mathRound (x : num) : num :=
  match x with
  | Fin q => ofZ (Qfloor (q + Q2Qc (1 # 2))%Qc)
  | _ => x
  end.

(** Truthiness of a number, as [||] and the conditional test it. *)
Definition truthy (x : num) : bool :=
  match x with
  | NaN => false
  | Fin q => match sgn q with Eq => false | _ => true end
  | _ => true
  end.

(** Decidable equality of numbers. *)
Definition num_eqb (x y : num) : bool :=
  match x, y with
  | Fin a, Fin b => Qeq_bool a b
  | PInf, PInf | NInf, NInf | NaN, NaN => true
  | _, _ => false
  end.

(** ** Arrays *)

Section Arrays.
Context {A B : Type}.

(** [Array.prototype.slice] at integer arguments. *)
Definition slice (l : list A) (start stop : Z) : list A :=
  let len := Z.of_nat (length l) in
  let k := if start <? 0 then Z.max (len + start) 0 else Z.min start len in
  let final := if stop <? 0 then Z.max (len + stop) 0 else Z.min stop len in
  firstn (Z.to_nat (final - k)) (skipn (Z.to_nat k) l).

(** [Array.prototype.map] with the index passed to the callback. *)
Fixpoint mapi_from (f : A -> nat -> B) (i : nat) (l : list A) : list B :=
  match l with
  | [] => []
  | x :: r => f x i :: mapi_from f (S i) r
  end.

Definition mapi (f : A -> nat -> B) (l : list A) : list B := mapi_from f 0 l.

(** [Array.prototype.findIndex]; [None] stands for [-1]. *)
Fixpoint findIndex (p : A -> bool) (l : list A) : option nat :=
  match l with
  | [] => None
  | x :: r => if p x then Some 0%nat else option_map S (findIndex p r)
  end.

(** [.filter(Boolean)] on the result of a callback that returns an object
    or [null]. *)
Fixpoint filterBoolean (l : list (option A)) : list A :=
  match l with
  | [] => []
  | Some x :: r => x :: filterBoolean r
  | None :: r => filterBoolean r
  end.

(** [arr[arr.length - 1]]; [None] stands for [undefined]. *)
Definition lastElement (l : list A) : option A := nth_error l (length l - 1).

(** [Array.prototype.sort] with a comparator, which ECMAScript requires to
    be stable: the element [x] goes before the first [y] that the
    comparator does not put strictly before it (a [NaN] result counts as
    zero).  For a comparator that is not a consistent order, as the date
    comparator is when a date is invalid, the result is
    implementation-defined in JavaScript and the model fixes this one:
    what is proved of the order of sorted entries is proved for valid
    dates only, and otherwise only that sorting permutes the entries. *)
Fixpoint insertBy (cmp : A -> A -> num) (x : A) (l : list A) : list A :=
  match l with
  | [] => [x]
  | y :: r => if ngtb (cmp x y) zero then y :: insertBy cmp x r else x :: y :: r
  end.

Definition sortBy (cmp : A -> A -> num) (l : list A) : list A :=
  fold_right (insertBy cmp) [] l.

End Arrays.

(** ** Host environment and the API payload *)

(** What the code takes from the JavaScript host: the numeric value of a
    string ([Number] on a string), the time value of [new Date(s)] in
    milliseconds ([NaN] for an invalid date), and the local-time label
    [formatDateLabel] builds with [getDate], [getMonth] and
    [getFullYear]. *)
Class Host : Type := {
  stringToNumber : string -> num;
  dateTime : string -> num;
  formatDateLabel : string -> string
}.

(** A cell of a JSON array, or [undefined] for an index past its end. *)
Inductive jsval : Type :=
| JUndefined
| JNull
| JBool (b : bool)
| JNum (x : num)
| JStr (s : string)
| JObj.

(** [Number(v)]. *)
Definition toNumber `{Host} (v : jsval) : num :=
  match v with
  | JUndefined => NaN
  | JNull => zero
  | JBool true => ofZ 1
  | JBool false => zero
  | JNum x => x
  | JStr s => stringToNumber s
  | JObj => NaN
  end.

(** [arr[idx]]. *)
Definition at_index (arr : list jsval) (idx : nat) : jsval := nth idx arr JUndefined.

(** The [trends] object of the response; a missing property is [None]. *)
Record trends : Type := {
  dates : option (list string);
  buy_prices : option (list jsval);
  sell_prices : option (list jsval)
}.

(** The outcome of [axios.get]: a rejected request, or a response whose
    [data?.trends] may be missing. *)
Inductive response : Type :=
| Rejected
| Resolved (t : option trends).

(** A computation inside [try]: it throws or it completes. *)
Inductive attempt (A : Type) : Type :=
| Threw
| Done (a : A).

Arguments Threw {A}.
Arguments Done {A} a.

Declare Scope pipe_scope.
Notation "s |> f" := (f s) (at level 45, left associativity, only parsing) : pipe_scope.
Local Open Scope pipe_scope.
Local Open Scope string_scope.
Local Open Scope list_scope.
Local Open Scope Z_scope.

(** ** MovingAverageEngine *)

(** [calculateMovingAverage]; the callers pass an array and a window from
    [WINDOW_OPTIONS], so [values] is a list and [window] an integer. *)
Definition calculateMovingAverage (values : list num) (window : Z) : list num :=
  match values with
  | [] => []
  | _ =>
      mapi
        (fun _ index =>
           let start := Z.max 0 (Z.of_nat index - window + 1) in
           let sl := slice values start (Z.of_nat index + 1) in
           let total := fold_left nadd sl zero in
           ndiv total (ofNat (length sl)))
        values
  end.

(** ** DeltaEngine: [fetchChangeData] of DailyChangeBarChart *)

Module DailyChange.

Record entry : Type := { date : string; buy : num }.

Record summary : Type := {
  latestChange : option num;
  maxGain : num;
  maxDrop : num;
  averageChange : num
}.

Record chart : Type := {
  labels : list string;
  data : list num;
  backgroundColor : list string;
  borderColor : list string
}.

(** The component state the function writes. *)
Record state : Type := {
  chartData : option chart;
  loading : bool;
  stats : option summary;
  error : option string
}.

Definition setChartData (v : option chart) (s : state) : state :=
  {| chartData := v; loading := loading s; stats := stats s; error := error s |}.
Definition setLoading (v : bool) (s : state) : state :=
  {| chartData := chartData s; loading := v; stats := stats s; error := error s |}.
Definition setStats (v : option summary) (s : state) : state :=
  {| chartData := chartData s; loading := loading s; stats := v; error := error s |}.
Definition setError (v : option string) (s : state) : state :=
  {| chartData := chartData s; loading := loading s; stats := stats s; error := v |}.

(** The state after the [useState] calls. *)
Definition initial : state :=
  {| chartData := None; loading := false; stats := None; error := None |}.

Definition loadFailed : string := "Unable to load daily change data right now.".

(** Filler for [entries[idx]] outside the array, which the loop bounds
    exclude. *)
Definition noEntry : entry := {| date := ""; buy := NaN |}.

Section WithHost.
Context `{Host}.

(** [trends.dates.map(...).filter(Boolean)]. *)
Definition entriesOf (ds : list string) (buys : list jsval) : list entry :=
  filterBoolean
    (mapi
       (fun date idx =>
          let buy := toNumber (at_index buys idx) in
          if negb (isFinite buy) then None else Some {| date := date; buy := buy |})
       ds).

(** The [for] loop: [idx] runs from [1] to [entries.length - 1], and each
    round pushes one change and one label. *)
Definition changesLoop (entries : list entry) : list num * list string :=
  fold_left
    (fun '(changes, changeLabels) idx =>
       let current := nth idx entries noEntry in
       let previous := nth (idx - 1) entries noEntry in
       (changes ++ [nsub (buy current) (buy previous)],
        changeLabels ++ [formatDateLabel (date current)]))
    (seq 1 (length entries - 1))
    ([], []).

(** [changes[changes.length - 1] || null]. *)
Definition latestOrNull (changes : list num) : option num :=
  match lastElement changes with
  | Some x => if truthy x then Some x else None
  | None => None
  end.

Definition summarize (changes : list num) : summary :=
  {| latestChange := latestOrNull changes;
     maxGain := mathMax changes;
     maxDrop := mathMin changes;
     averageChange := ndiv (fold_left nadd changes zero) (ofNat (length changes)) |}.

Definition chartOf (changes : list num) (changeLabels : list string) : chart :=
  {| labels := changeLabels;
     data := map (fun value => ndiv value (ofZ 1000000)) changes;
     backgroundColor :=
       map (fun value =>
              if ngeb value zero then "rgba(34, 197, 94, 0.75)" else "rgba(239, 68, 68, 0.75)")
           changes;
     borderColor :=
       map (fun value =>
              if ngeb value zero then "rgba(22, 163, 74, 1)" else "rgba(220, 38, 38, 1)")
           changes |}.

(** The body of [try], after the request has settled. *)
Definition tryBody (r : response) (s : state) : attempt state :=
  match r with
  | Rejected => Threw
  | Resolved None => Done (s |> setChartData None |> setStats None)
  | Resolved (Some t) =>
      match dates t with
      | None => Done (s |> setChartData None |> setStats None)
      | Some ds =>
          if (length ds <? 2)%nat then Done (s |> setChartData None |> setStats None)
          else
            match buy_prices t with
            | None => Threw
            | Some buys =>
                let entries := entriesOf ds buys in
                if (length entries <? 2)%nat
                then Done (s |> setChartData None |> setStats None)
                else
                  let '(changes, changeLabels) := changesLoop entries in
                  Done (s |> setStats (Some (summarize changes))
                          |> setChartData (Some (chartOf changes changeLabels)))
            end
      end
  end.

Definition fetchChangeData (r : response) (s : state) : state :=
  let s := s |> setLoading true |> setError None in
  match tryBody r s with
  | Done s' => s' |> setLoading false
  | Threw =>
      s |> setError (Some loadFailed) |> setChartData None |> setStats None
        |> setLoading false
  end.

End WithHost.
End DailyChange.

(** ** SpreadEngine: [fetchSpreadData] of SpreadTrendChart *)

Module SpreadTrend.

Record entry : Type := { date : string; spread : num }.

Record summary : Type := {
  currentSpread : option num;
  maxSpread : num;
  minSpread : num;
  averageSpread : num;
  latestDate : string
}.

Record chart : Type := { labels : list string; data : list num }.

Record state : Type := {
  chartData : option chart;
  loading : bool;
  stats : option summary;
  error : option string
}.

Definition setChartData (v : option chart) (s : state) : state :=
  {| chartData := v; loading := loading s; stats := stats s; error := error s |}.
Definition setLoading (v : bool) (s : state) : state :=
  {| chartData := chartData s; loading := v; stats := stats s; error := error s |}.
Definition setStats (v : option summary) (s : state) : state :=
  {| chartData := chartData s; loading := loading s; stats := v; error := error s |}.
Definition setError (v : option string) (s : state) : state :=
  {| chartData := chartData s; loading := loading s; stats := stats s; error := v |}.

(** The state after the [useState] calls. *)
Definition initial : state :=
  {| chartData := None; loading := false; stats := None; error := None |}.

Definition loadFailed : string := "Unable to load spread trend data right now.".

(** Filler for [combined[combined.length - 1]] of an empty array, which the
    guard before it excludes. *)
Definition noEntry : entry := {| date := ""; spread := NaN |}.

Section WithHost.
Context `{Host}.

(** [trends.dates.map(...).filter(Boolean)]. *)
Definition combinedOf (ds : list string) (buys sells : list jsval) : list entry :=
  filterBoolean
    (mapi
       (fun date idx =>
          let buy := toNumber (at_index buys idx) in
          let sell := toNumber (at_index sells idx) in
          if negb (isFinite buy) || negb (isFinite sell) then None
          else Some {| date := date; spread := nsub sell buy |})
       ds).

Definition spreadsOf (combined : list entry) : list num := map spread combined.

Definition summarize (combined : list entry) (spreads : list num) : summary :=
  {| currentSpread := lastElement spreads;
     maxSpread := mathMax spreads;
     minSpread := mathMin spreads;
     averageSpread := ndiv (fold_left nadd spreads zero) (ofNat (length spreads));
     latestDate := date (nth (length combined - 1) combined noEntry) |}.

Definition chartOf (combined : list entry) (spreads : list num) : chart :=
  {| labels := map (fun entry => formatDateLabel (date entry)) combined;
     data := map (fun value => ndiv value (ofZ 1000000)) spreads |}.

(** The body of [try], after the request has settled. *)
Definition tryBody (r : response) (s : state) : attempt state :=
  match r with
  | Rejected => Threw
  | Resolved None => Done (s |> setChartData None |> setStats None)
  | Resolved (Some t) =>
      match dates t with
      | None | Some [] => Done (s |> setChartData None |> setStats None)
      | Some ds =>
          match buy_prices t, sell_prices t with
          | Some buys, Some sells =>
              let combined := combinedOf ds buys sells in
              if (length combined =? 0)%nat
              then Done (s |> setChartData None |> setStats None)
              else
                let spreads := spreadsOf combined in
                Done (s |> setStats (Some (summarize combined spreads))
                        |> setChartData (Some (chartOf combined spreads)))
          | _, _ => Threw
          end
      end
  end.

Definition fetchSpreadData (r : response) (s : state) : state :=
  let s := s |> setLoading true |> setError None in
  match tryBody r s with
  | Done s' => s' |> setLoading false
  | Threw =>
      s |> setError (Some loadFailed) |> setChartData None |> setStats None
        |> setLoading false
  end.

End WithHost.
End SpreadTrend.

(** ** ReturnEngine: CumulativeReturnChart *)

Module CumulativeReturn.

Record entry : Type := { date : string; buy : num; sell : num }.

Record summary : Type := {
  latestReturn : num;
  entryCost : num;
  exitProceeds : num;
  absoluteChange : num;
  holdingDays : num
}.

Record chart : Type := {
  labels : list string;
  data : list num;
  absoluteData : list num
}.

(** The component state that [fetchData] and the recomputation effect read
    and write. *)
Record state : Type := {
  entries : list entry;
  activePresetDays : option Z;
  buyDate : string;
  sellDate : string;
  chartData : option chart;
  loading : bool;
  error : option string;
  stats : option summary
}.

Definition setEntries (v : list entry) (s : state) : state :=
  {| entries := v; activePresetDays := activePresetDays s; buyDate := buyDate s;
     sellDate := sellDate s; chartData := chartData s; loading := loading s;
     error := error s; stats := stats s |}.
Definition setActivePresetDays (v : option Z) (s : state) : state :=
  {| entries := entries s; activePresetDays := v; buyDate := buyDate s;
     sellDate := sellDate s; chartData := chartData s; loading := loading s;
     error := error s; stats := stats s |}.
Definition setBuyDate (f : string -> string) (s : state) : state :=
  {| entries := entries s; activePresetDays := activePresetDays s;
     buyDate := f (buyDate s); sellDate := sellDate s; chartData := chartData s;
     loading := loading s; error := error s; stats := stats s |}.
Definition setSellDate (f : string -> string) (s : state) : state :=
  {| entries := entries s; activePresetDays := activePresetDays s;
     buyDate := buyDate s; sellDate := f (sellDate s); chartData := chartData s;
     loading := loading s; error := error s; stats := stats s |}.
Definition setChartData (v : option chart) (s : state) : state :=
  {| entries := entries s; activePresetDays := activePresetDays s;
     buyDate := buyDate s; sellDate := sellDate s; chartData := v;
     loading := loading s; error := error s; stats := stats s |}.
Definition setLoading (v : bool) (s : state) : state :=
  {| entries := entries s; activePresetDays := activePresetDays s;
     buyDate := buyDate s; sellDate := sellDate s; chartData := chartData s;
     loading := v; error := error s; stats := stats s |}.
Definition setError (v : option string) (s : state) : state :=
  {| entries := entries s; activePresetDays := activePresetDays s;
     buyDate := buyDate s; sellDate := sellDate s; chartData := chartData s;
     loading := loading s; error := v; stats := stats s |}.
Definition setStats (v : option summary) (s : state) : state :=
  {| entries := entries s; activePresetDays := activePresetDays s;
     buyDate := buyDate s; sellDate := sellDate s; chartData := chartData s;
     loading := loading s; error := error s; stats := v |}.

(** The state after the [useState] calls. *)
Definition initial : state :=
  {| entries := []; activePresetDays := None; buyDate := ""; sellDate := "";
     chartData := None; loading := false; error := None; stats := None |}.

Definition noDataForType : string := "No data available for the selected gold type.".
Definition loadFailed : string := "Unable to load return data right now.".
Definition rangeOrder : string := "Sell date must be the same as or after the buy date.".
Definition emptyWindow : string := "No data in the selected window.".
Definition sellUnavailable : string := "Sell price unavailable for the selected start date.".

(** Filler for an index outside an array, at places where the guards
    before them exclude it. *)
Definition noEntry : entry := {| date := ""; buy := NaN; sell := NaN |}.

(** [!str] for a string. *)
Definition isEmpty (s : string) : bool := String.eqb s "".

Section WithHost.
Context `{Host}.

(** The comparator [(a, b) => new Date(a.date) - new Date(b.date)]. *)
Definition dateCompare (a b : entry) : num :=
  nsub (dateTime (date a)) (dateTime (date b)).

(** [trends?.dates?.map(...).filter(Boolean)]: [undefined] when [dates] is
    missing; the callback throws on a missing [buy_prices]. *)
Definition processedEntries (t : trends) : attempt (option (list entry)) :=
  match dates t with
  | None => Done None
  | Some [] => Done (Some [])
  | Some ds =>
      match buy_prices t with
      | None => Threw
      | Some buys =>
          Done
            (Some
               (filterBoolean
                  (mapi
                     (fun date idx =>
                        let buy := toNumber (at_index buys idx) in
                        let sell :=
                          toNumber
                            match sell_prices t with
                            | Some sells => at_index sells idx
                            | None => JUndefined
                            end in
                        if negb (isFinite buy) || negb (isFinite sell) then None
                        else Some {| date := date; buy := buy; sell := sell |})
                     ds)))
      end
  end.

(** [previous && sortedEntries.some(...) ? previous : fallback]. *)
Definition keepIfPresent (sortedEntries : list entry) (fallback previous : string) : string :=
  if negb (isEmpty previous)
     && existsb (fun entry => String.eqb (date entry) previous) sortedEntries
  then previous
  else fallback.

(** The body of [try] in [fetchData], after the request has settled. *)
Definition tryBody (r : response) (s : state) : attempt state :=
  match r with
  | Rejected => Threw
  | Resolved trends =>
      match
        match trends with
        | None => Done None
        | Some t => processedEntries t
        end
      with
      | Threw => Threw
      | Done None | Done (Some []) => Done (s |> setError (Some noDataForType))
      | Done (Some processed) =>
          let sortedEntries := sortBy dateCompare processed in
          let defaultBuyDate := date (nth 0 sortedEntries noEntry) in
          let defaultSellDate :=
            date (nth (length sortedEntries - 1) sortedEntries noEntry) in
          Done (s |> setEntries sortedEntries
                  |> setBuyDate (keepIfPresent sortedEntries defaultBuyDate)
                  |> setSellDate (keepIfPresent sortedEntries defaultSellDate))
      end
  end.

Definition fetchData (r : response) (s : state) : state :=
  let s :=
    s |> setLoading true |> setError None |> setEntries [] |> setChartData None
      |> setStats None |> setActivePresetDays None in
  match tryBody r s with
  | Done s' => s' |> setLoading false
  | Threw => s |> setError (Some loadFailed) |> setLoading false
  end.

(** The effect on [entries], [buyDate] and [sellDate]: it recomputes the
    return curve and the summary. *)
Definition returnEffect (s : state) : state :=
  if (length (entries s) =? 0)%nat || isEmpty (buyDate s) || isEmpty (sellDate s)
  then s
  else
    let sorted := sortBy dateCompare (entries s) in
    match
      findIndex (fun entry => String.eqb (date entry) (buyDate s)) sorted,
      findIndex (fun entry => String.eqb (date entry) (sellDate s)) sorted
    with
    | Some buyIndex, Some sellIndex =>
        if (sellIndex <? buyIndex)%nat
        then s |> setChartData None |> setStats None |> setError (Some rangeOrder)
        else
          let windowEntries :=
            slice sorted (Z.of_nat buyIndex) (Z.of_nat sellIndex + 1) in
          match windowEntries with
          | [] => s |> setChartData None |> setStats None |> setError (Some emptyWindow)
          | first :: _ =>
              let entryCost := sell first in
              if negb (isFinite entryCost) || nleb entryCost zero
              then
                s |> setChartData None |> setStats None
                  |> setError (Some sellUnavailable)
              else
                let labels :=
                  map (fun entry => formatDateLabel (date entry)) windowEntries in
                let returns :=
                  map (fun entry =>
                         nmul (ndiv (nsub (buy entry) entryCost) entryCost) (ofZ 100))
                      windowEntries in
                let absoluteReturns :=
                  map (fun entry => nsub (buy entry) entryCost) windowEntries in
                let exitProceeds :=
                  buy (nth (length windowEntries - 1) windowEntries noEntry) in
                let absoluteChange := nsub exitProceeds entryCost in
                let holdingDays :=
                  max2 zero
                    (mathRound
                       (ndiv (nsub (dateTime (sellDate s)) (dateTime (buyDate s)))
                             (ofZ (1000 * 60 * 60 * 24)))) in
                s |> setError None
                  |> setStats
                       (Some
                          {| latestReturn := nth (length returns - 1) returns NaN;
                             entryCost := entryCost;
                             exitProceeds := exitProceeds;
                             absoluteChange := absoluteChange;
                             holdingDays := holdingDays |})
                  |> setChartData
                       (Some
                          {| labels := labels;
                             data := returns;
                             absoluteData := absoluteReturns |})
          end
    | _, _ => s
    end.

End WithHost.
End CumulativeReturn.

(** ** The specification's vocabulary *)

(** The arithmetic mean of the values at the indices [max(0, i-w+1) .. i]. *)
Fixpoint total (l : list num) : num :=
  match l with
  | [] => zero
  | x :: r => nadd x (total r)
  end.

Definition mean (l : list num) : num := ndiv (total l) (ofNat (length l)).

Definition windowStart (w : Z) (i : nat) : nat :=
  Z.to_nat (Z.max 0 (Z.of_nat i - w + 1)).

Definition trailing (v : list num) (w : Z) (i : nat) : list num :=
  map (fun k => nth k v NaN) (seq (windowStart w i) (S i - windowStart w i)).

(** A price point of the data model, and the payload that carries a
    sequence of them. *)
Record PricePoint : Type := { pdate : string; pbuy : num; psell : num }.

Definition finitePoint (p : PricePoint) : bool := isFinite (pbuy p) && isFinite (psell p).

Definition payloadOf (points : list PricePoint) : trends :=
  {| dates := Some (map pdate points);
     buy_prices := Some (map (fun p => JNum (pbuy p)) points);
     sell_prices := Some (map (fun p => JNum (psell p)) points) |}.

(** The numbers [Number.isFinite] accepts. *)
Definition finite (x : num) : Prop := isFinite x = true.

(** The order on numbers that [<=] decides. *)
Definition nle (x y : num) : Prop := nleb x y = true.

(** The entry of the return chart that the cells at index [idx] make, when
    both prices are finite. *)
Definition pointAt `{Host} (t : trends) (ds : list string) (idx : nat)
  : option CumulativeReturn.entry :=
  let cell (arr : option (list jsval)) :=
    match arr with
    | Some a => nth idx a JUndefined
    | None => JUndefined
    end in
  let b := toNumber (cell (buy_prices t)) in
  let s := toNumber (cell (sell_prices t)) in
  if isFinite b && isFinite s
  then Some {| CumulativeReturn.date := nth idx ds "";
               CumulativeReturn.buy := b;
               CumulativeReturn.sell := s |}
  else None.

(** The surviving points in the index order of the payload. *)
Definition survivors `{Host} (t : trends) : list CumulativeReturn.entry :=
  match dates t with
  | Some ds => filterBoolean (map (pointAt t ds) (seq 0 (length ds)))
  | None => []
  end.

(** Two neighbours the comparator leaves in place. *)
Definition inDateOrder `{Host} (a b : CumulativeReturn.entry) : Prop :=
  ngtb (CumulativeReturn.dateCompare a b) zero = false.

(** Sorting by a numeric key: the comparator [(a, b) => key(a) - key(b)],
    the order it aims at, and the elements of one key. *)
Definition keyCompare {A : Type} (key : A -> num) (a b : A) : num :=
  nsub (key a) (key b).

Definition ascendingBy {A : Type} (key : A -> num) (a b : A) : Prop :=
  nle (key a) (key b).

Definition hasKey {A : Type} (key : A -> num) (d : num) (a : A) : bool :=
  num_eqb (key a) d.

(** The return of a point against a cost basis, in the words of the
    specification, and the cost bases the percentage is defined for. *)
Definition returnPercent (costBasis : num) (p : CumulativeReturn.entry) : num :=
  nmul (ndiv (nsub (CumulativeReturn.buy p) costBasis) costBasis) (ofZ 100).

Definition usableCost (c : num) : bool := isFinite c && negb (nleb c zero).

(** The points of the sorted series at the indices [bi .. si]. *)
Definition closedSlice (sorted : list CumulativeReturn.entry) (bi si : nat)
  : list CumulativeReturn.entry :=
  map (fun k => nth k sorted CumulativeReturn.noEntry) (seq bi (S si - bi)).

(** The index of a date in the series, as [findIndex] gives it. *)
Definition indexOfDate (d : string) (sorted : list CumulativeReturn.entry) : option nat :=
  findIndex (fun entry => String.eqb (CumulativeReturn.date entry) d) sorted.

Section Outcomes.
Context `{Host}.
Import CumulativeReturn.

(** The state the effect leaves when it aborts with a message. *)
Definition aborted (msg : string) (s : state) : state :=
  s |> setChartData None |> setStats None |> setError (Some msg).

(** The state the effect leaves when it succeeds on the window [w] with
    first point [first] and last point [last]. *)
Definition succeeded (w : list entry) (first last : entry) (s : state) : state :=
  s |> setError None
    |> setStats
         (Some
            {| latestReturn := returnPercent (sell first) last;
               entryCost := sell first;
               exitProceeds := buy last;
               absoluteChange := nsub (buy last) (sell first);
               holdingDays :=
                 max2 zero
                   (mathRound
                      (ndiv (nsub (dateTime (sellDate s)) (dateTime (buyDate s)))
                            (ofZ (1000 * 60 * 60 * 24)))) |})
    |> setChartData
         (Some
            {| labels := map (fun entry => formatDateLabel (date entry)) w;
               data := map (returnPercent (sell first)) w;
               absoluteData := map (fun entry => nsub (buy entry) (sell first)) w |}).

End Outcomes.

(** ** A host for date-only ISO strings *)

Definition digit (c : ascii) : option Z :=
  let n := Z.of_N (N_of_ascii c) - 48 in
  if (0 <=? n) && (n <=? 9) then Some n else None.

Fixpoint digits (acc : Z) (s : string) : option Z :=
  match s with
  | EmptyString => Some acc
  | String c r =>
      match digit c with
      | Some d => digits (10 * acc + d) r
      | None => None
      end
  end.

Definition isLeap (y : Z) : bool :=
  ((y mod 4 =? 0) && negb (y mod 100 =? 0)) || (y mod 400 =? 0).

Definition daysInMonth (y m : Z) : Z :=
  if m =? 2 then (if isLeap y then 29 else 28)
  else if (m =? 4) || (m =? 6) || (m =? 9) || (m =? 11) then 30
  else 31.

(** Days from 1970-01-01 to the given civil date. *)
Definition daysFromCivil (y m d : Z) : Z :=
  let y := if m <=? 2 then y - 1 else y in
  let era := y / 400 in
  let yoe := y - era * 400 in
  let doy := (153 * (if m >? 2 then m - 3 else m + 9) + 2) / 5 + d - 1 in
  let doe := yoe * 365 + yoe / 4 - yoe / 100 + doy in
  era * 146097 + doe - 719468.

(** The fields of a string of the form [YYYY-MM-DD] that names a day of
    the calendar. *)
Definition isoFields (s : string) : option (Z * Z * Z) :=
  if (String.length s =? 10)%nat
     && String.eqb (substring 4 1 s) "-" && String.eqb (substring 7 1 s) "-"
  then
    match digits 0 (substring 0 4 s), digits 0 (substring 5 2 s),
          digits 0 (substring 8 2 s) with
    | Some y, Some m, Some d =>
        if (1 <=? m) && (m <=? 12) && (1 <=? d) && (d <=? daysInMonth y m)
        then Some (y, m, d)
        else None
    | _, _, _ => None
    end
  else None.

(** The time value of a date-only ISO string is its UTC midnight; every
    other string is an invalid date in this host. *)
Definition isoDateTime (s : string) : num :=
  match isoFields s with
  | Some (y, m, d) => ofZ (daysFromCivil y m d * 86400000)
  | None => NaN
  end.

Definition isoLabel (s : string) : string :=
  match isoFields s with
  | Some _ => substring 8 2 s ++ "/" ++ substring 5 2 s ++ "/" ++ substring 0 4 s
  | None => "NaN/NaN/NaN"
  end.

(** Strings of decimal digits are numbers; every other string is [NaN] in
    this host. *)
Definition isoNumber (s : string) : num :=
  match digits 0 s with
  | Some z => ofZ z
  | None => NaN
  end.

#[local] Instance isoHost : Host :=
  {| stringToNumber := isoNumber; dateTime := isoDateTime; formatDateLabel := isoLabel |}.

(** ** The three-point scenario *)

Definition scenarioPoint (d : string) (b s : Z) : CumulativeReturn.entry :=
  {| CumulativeReturn.date := d;
     CumulativeReturn.buy := ofZ b;
     CumulativeReturn.sell := ofZ s |}.

Definition scenarioSeries : list CumulativeReturn.entry :=
  [ scenarioPoint "2025-01-01" 100 110;
    scenarioPoint "2025-01-02" 105 115;
    scenarioPoint "2025-01-03" 120 130 ].

Definition scenarioState (entryDate exitDate : string) : CumulativeReturn.state :=
  {| CumulativeReturn.entries := scenarioSeries;
     CumulativeReturn.activePresetDays := None;
     CumulativeReturn.buyDate := entryDate;
     CumulativeReturn.sellDate := exitDate;
     CumulativeReturn.chartData := None;
     CumulativeReturn.loading := false;
     CumulativeReturn.error := None;
     CumulativeReturn.stats := None |}.

(** A series whose only point has a sell price of zero. *)
Definition freeGold : CumulativeReturn.state :=
  {| CumulativeReturn.entries := [scenarioPoint "2025-01-01" 100 0];
     CumulativeReturn.activePresetDays := None;
     CumulativeReturn.buyDate := "2025-01-01";
     CumulativeReturn.sellDate := "2025-01-01";
     CumulativeReturn.chartData := None;
     CumulativeReturn.loading := false;
     CumulativeReturn.error := None;
     CumulativeReturn.stats := None |}.

(** Two days of which the first has an inverted market. *)
Definition invertedMarket : list PricePoint :=
  [ {| pdate := "2025-01-01"; pbuy := ofZ 110; psell := ofZ 100 |};
    {| pdate := "2025-01-02"; pbuy := ofZ 100; psell := ofZ 110 |} ].

(** A payload whose two dates descend, and one whose dates ascend. *)
Definition descendingPayload : trends :=
  {| dates := Some ["2025-01-02"; "2025-01-01"];
     buy_prices := Some [JNum (ofZ 105); JNum (ofZ 100)];
     sell_prices := Some [JNum (ofZ 115); JNum (ofZ 110)] |}.

Definition ascendingPayload : trends :=
  {| dates := Some ["2025-01-01"; "2025-01-02"; "2025-01-03"];
     buy_prices := Some [JNum (ofZ 100); JNull; JNum (ofZ 120)];
     sell_prices := Some [JNum (ofZ 110); JNum (ofZ 115); JStr "n/a"] |}.

(** ** The controls of CumulativeReturnChart *)

Module ReturnControls.
Import CumulativeReturn.

Record preset : Type := { label : string; shortLabel : string; days : Z }.

Definition QUICK_RANGE_PRESETS : list preset :=
  [ {| label := "Last 7 days"; shortLabel := "7d"; days := 7 |};
    {| label := "1 Month"; shortLabel := "1M"; days := 30 |};
    {| label := "3 Months"; shortLabel := "3M"; days := 90 |};
    {| label := "1 Year"; shortLabel := "1Y"; days := 365 |} ].

Definition MS_PER_DAY : num := ofZ (1000 * 60 * 60 * 24).

(** What [displayChartData] hands to the chart: the labels and the data of
    the only dataset. *)
Record display : Type := { shownLabels : list string; shownData : list num }.

(** [displayChartData], for the chart type [chartType]. *)
Definition displayChartData (chartType : string) (chartData : option chart)
  : option display :=
  match chartData with
  | None => None
  | Some c =>
      let isMoneyView := String.eqb chartType "money" in
      Some {| shownLabels := labels c;
              shownData := if isMoneyView then absoluteData c else data c |}
  end.

(** The tolerance of a preset when a range is matched back to it. *)
Definition tolerance (p : preset) : Z :=
  if 365 <=? days p then 15
  else if 90 <=? days p then 7
  else if 30 <=? days p then 4
  else 2.

Definition matchesRange (activeRange : option num) (p : preset) : bool :=
  match activeRange with
  | None => false
  | Some r =>
      ngeb r (max2 zero (nsub (ofZ (days p)) (ofZ (tolerance p))))
      && nleb r (nadd (ofZ (days p)) (ofZ (tolerance p)))
  end.

(** [activePresetDays === preset.days || (!activePresetDays && matchesRange)]. *)
Definition isActive (activePresetDays : option Z) (activeRange : option num) (p : preset)
  : bool :=
  match activePresetDays with
  | Some d => (d =? days p) || ((d =? 0) && matchesRange activeRange p)
  | None => matchesRange activeRange p
  end.

Section WithHost.
Context `{Host}.

(** [buyOptions] and [sellOptions]. *)
Definition buyOptions (s : state) : list entry :=
  if (length (entries s) =? 0)%nat then []
  else
    filter
      (fun entry =>
         isEmpty (sellDate s)
         || nleb (dateTime (date entry)) (dateTime (sellDate s)))
      (entries s).

Definition sellOptions (s : state) : list entry :=
  if (length (entries s) =? 0)%nat then []
  else
    filter
      (fun entry =>
         isEmpty (buyDate s)
         || ngeb (dateTime (date entry)) (dateTime (buyDate s)))
      (entries s).

(** [handleBuyDateChange] and [handleSellDateChange], at the value of the
    event's target. *)
Definition handleBuyDateChange (value : string) (s : state) : state :=
  let s' := s |> setBuyDate (fun _ => value) |> setActivePresetDays None in
  if negb (isEmpty (sellDate s)) && ngtb (dateTime value) (dateTime (sellDate s))
  then s' |> setSellDate (fun _ => value)
  else s'.

Definition handleSellDateChange (value : string) (s : state) : state :=
  let s' := s |> setSellDate (fun _ => value) |> setActivePresetDays None in
  if negb (isEmpty (buyDate s)) && nltb (dateTime value) (dateTime (buyDate s))
  then s' |> setBuyDate (fun _ => value)
  else s'.

(** The loop of [handleQuickRange]: [index] runs from [n - 1] down to [0]
    and stops at the first entry whose time is at most [targetTime]. *)
Fixpoint scanBack (sorted : list entry) (targetTime : num) (n : nat)
         (candidate : string) : string :=
  match n with
  | O => candidate
  | S index =>
      let entry := nth index sorted noEntry in
      let entryTime := dateTime (date entry) in
      if nleb entryTime targetTime then date entry
      else scanBack sorted targetTime index candidate
  end.

Definition handleQuickRange (days : Z) (s : state) : state :=
  if (length (entries s) =? 0)%nat then s
  else
    let sorted := sortBy dateCompare (entries s) in
    match lastElement sorted with
    | None => s
    | Some latest =>
        let latestDate := dateTime (date latest) in
        let targetTime := nsub latestDate (nmul (ofZ days) MS_PER_DAY) in
        let candidate :=
          scanBack sorted targetTime (length sorted) (date (nth 0 sorted noEntry)) in
        s |> setSellDate (fun _ => date latest)
          |> setBuyDate (fun _ => candidate)
          |> setActivePresetDays (Some days)
    end.

Definition handleResetRange (s : state) : state :=
  if (length (entries s) =? 0)%nat then s
  else
    s |> setBuyDate (fun _ => date (nth 0 (entries s) noEntry))
      |> setSellDate
           (fun _ => date (nth (length (entries s) - 1) (entries s) noEntry))
      |> setActivePresetDays None.

(** [activeRange]; [None] stands for [null]. *)
Definition activeRange (s : state) : option num :=
  if isEmpty (buyDate s) || isEmpty (sellDate s) then None
  else
    Some
      (max2 zero
         (mathRound
            (ndiv (nsub (dateTime (sellDate s)) (dateTime (buyDate s))) MS_PER_DAY))).

(** The [onClick] handler of the chart; [elements] is the index of the
    first clicked element, if there is one. *)
Definition onClick (elements : option nat) (s : state) : state :=
  match elements with
  | None => s
  | Some elementIndex =>
      let sorted := sortBy dateCompare (entries s) in
      let buyIndex :=
        match findIndex (fun entry => String.eqb (date entry) (buyDate s)) sorted with
        | Some i => Z.of_nat i
        | None => -1
        end in
      let windowEntries := slice sorted buyIndex (Z.of_nat (length sorted)) in
      match nth_error windowEntries elementIndex with
      | Some picked =>
          s |> setSellDate (fun _ => date picked) |> setActivePresetDays None
      | None => s
      end
  end.

End WithHost.
End ReturnControls.

(** ** MovingAverageChart: [fetchData] *)

Module MovingAverageView.

Record entry : Type := { date : string; buy : num }.

Record summary : Type := {
  latestPrice : num;
  latestMovingAverage : num;
  deviation : num;
  deviationPercent : option num;
  windowComparison : option num;
  totalPoints : nat
}.

(** The labels and the data of the two datasets. *)
Record chart : Type := {
  labels : list string;
  buyPrices : list num;
  movingAverageValues : list num
}.

Record state : Type := {
  chartData : option chart;
  stats : option summary;
  loading : bool;
  error : option string
}.

Definition setChartData (v : option chart) (s : state) : state :=
  {| chartData := v; stats := stats s; loading := loading s; error := error s |}.
Definition setStats (v : option summary) (s : state) : state :=
  {| chartData := chartData s; stats := v; loading := loading s; error := error s |}.
Definition setLoading (v : bool) (s : state) : state :=
  {| chartData := chartData s; stats := stats s; loading := v; error := error s |}.
Definition setError (v : option string) (s : state) : state :=
  {| chartData := chartData s; stats := stats s; loading := loading s; error := v |}.

(** The state after the [useState] calls. *)
Definition initial : state :=
  {| chartData := None; stats := None; loading := false; error := None |}.

Definition noDataForType : string := "No data available for the selected gold type.".
Definition loadFailed : string := "Unable to load moving average data right now.".

(** Filler for [entries[entries.length - 1]] of an empty array, which the
    guard before it excludes. *)
Definition noEntry : entry := {| date := ""; buy := NaN |}.

Section WithHost.
Context `{Host}.

(** [trends?.dates?.map(...).filter(Boolean)]: [undefined] when [dates] is
    missing; the callback throws on a missing [buy_prices]. *)
Definition entriesOf (t : trends) : attempt (option (list entry)) :=
  match dates t with
  | None => Done None
  | Some [] => Done (Some [])
  | Some ds =>
      match buy_prices t with
      | None => Threw
      | Some buys =>
          Done
            (Some
               (filterBoolean
                  (mapi
                     (fun date idx =>
                        let buy := toNumber (at_index buys idx) in
                        if negb (isFinite buy) then None
                        else Some {| date := date; buy := buy |})
                     ds)))
      end
  end.

(** The part of [try] after the guard, for a non-empty [entries]. *)
Definition present (windowSize : Z) (entries : list entry) (s : state) : attempt state :=
  let labels := map (fun entry => formatDateLabel (date entry)) entries in
  let buyPrices := map (fun entry => ndiv (buy entry) (ofZ 1000000)) entries in
  let movingAverageValues :=
    map (fun value => ndiv value (ofZ 1000000))
        (calculateMovingAverage (map (fun entry => buy entry) entries) windowSize) in
  let latestEntry := nth (length entries - 1) entries noEntry in
  let latestMovingAverage :=
    nmul (nth (length movingAverageValues - 1) movingAverageValues NaN) (ofZ 1000000) in
  let latestPrice := buy latestEntry in
  let deviation := nsub latestPrice latestMovingAverage in
  let deviationPercent :=
    if truthy latestMovingAverage
    then Some (nmul (ndiv deviation latestMovingAverage) (ofZ 100))
    else None in
  let finish (windowComparison : option num) :=
    Done (s |> setStats
                 (Some {| latestPrice := latestPrice;
                          latestMovingAverage := latestMovingAverage;
                          deviation := deviation;
                          deviationPercent := deviationPercent;
                          windowComparison := windowComparison;
                          totalPoints := length entries |})
            |> setChartData
                 (Some {| labels := labels;
                          buyPrices := buyPrices;
                          movingAverageValues := movingAverageValues |})) in
  if Z.of_nat (length entries) >? windowSize
  then
    match nth_error entries (Z.to_nat (Z.of_nat (length entries) - 1 - windowSize)) with
    | Some compareEntry => finish (Some (nsub latestPrice (buy compareEntry)))
    | None => Threw
    end
  else finish None.

(** The body of [try], after the request has settled. *)
Definition tryBody (windowSize : Z) (r : response) (s : state) : attempt state :=
  match r with
  | Rejected => Threw
  | Resolved trends =>
      match
        match trends with
        | None => Done None
        | Some t => entriesOf t
        end
      with
      | Threw => Threw
      | Done None | Done (Some []) =>
          Done (s |> setChartData None |> setStats None |> setError (Some noDataForType))
      | Done (Some entries) => present windowSize entries s
      end
  end.

Definition fetchData (windowSize : Z) (r : response) (s : state) : state :=
  let s := s |> setLoading true |> setError None in
  match tryBody windowSize r s with
  | Done s' => s' |> setLoading false
  | Threw =>
      s |> setError (Some loadFailed) |> setChartData None |> setStats None
        |> setLoading false
  end.

End WithHost.
End MovingAverageView.

(** ** Sums and counts of rationals *)

Fixpoint qsum (l : list Qc) : Qc :=
  match l with
  | [] => Q2Qc 0
  | x :: r => (x + qsum r)%Qc
  end.

(** The rational a length is turned into before a division. *)
Definition countQ (n : nat) : Qc := Q2Qc (inject_Z (Z.of_nat n)).

(** ** The states a fetch can leave *)

Module DailyChangeOutcomes.
Import DailyChange.

(** The request failed or the body threw. *)
Definition failed (s : state) : state :=
  s |> setLoading true |> setError None |> setError (Some loadFailed)
    |> setChartData None |> setStats None |> setLoading false.

(** Fewer than two points. *)
Definition cleared (s : state) : state :=
  s |> setLoading true |> setError None |> setChartData None |> setStats None
    |> setLoading false.

(** A summary and a chart of the changes. *)
Definition charted `{Host} (changes : list num) (changeLabels : list string) (s : state)
  : state :=
  s |> setLoading true |> setError None |> setStats (Some (summarize changes))
    |> setChartData (Some (chartOf changes changeLabels)) |> setLoading false.

End DailyChangeOutcomes.

Module SpreadTrendOutcomes.
Import SpreadTrend.

Definition failed (s : state) : state :=
  s |> setLoading true |> setError None |> setError (Some loadFailed)
    |> setChartData None |> setStats None |> setLoading false.

Definition cleared (s : state) : state :=
  s |> setLoading true |> setError None |> setChartData None |> setStats None
    |> setLoading false.

Definition charted `{Host} (combined : list entry) (s : state) : state :=
  s |> setLoading true |> setError None
    |> setStats (Some (summarize combined (spreadsOf combined)))
    |> setChartData (Some (chartOf combined (spreadsOf combined)))
    |> setLoading false.

End SpreadTrendOutcomes.

(** ** The values of the DeltaEngine *)

(** The dated buy prices of a payload that are finite numbers, in index
    order: the cell of each date is converted with [Number], and the
    dates whose cell is no finite number are left out. *)
Definition datedValues `{Host} (ds : list string) (buys : list jsval)
  : list (string * num) :=
  filter (fun p => isFinite (snd p))
         (combine ds
                  (map (fun idx => toNumber (nth idx buys JUndefined))
                       (seq 0 (length ds)))).

(** ** Whole-number prices *)

(** The prices of the dashboard are amounts in VND, which are whole
    numbers.  Binary64 holds every whole number up to [exactLimit] = 2^53
    exactly, so sums and differences of whole numbers that stay within it
    are formed without rounding, as they are in the number model. *)
Definition exactLimit : Z := 2 ^ 53.

Definition wholeWithin (bound : Z) (x : num) : Prop :=
  exists z : Z, x = ofZ z /\ Z.abs z <= bound.

(** ** More scenarios *)

(** The payload of the three-point scenario. *)
Definition scenarioTrends : trends :=
  {| dates := Some ["2025-01-01"; "2025-01-02"; "2025-01-03"];
     buy_prices := Some [JNum (ofZ 100); JNum (ofZ 105); JNum (ofZ 120)];
     sell_prices := Some [JNum (ofZ 110); JNum (ofZ 115); JNum (ofZ 130)] |}.

(** Two days on which the sell price is above the buy price. *)
Definition normalMarket : list PricePoint :=
  [ {| pdate := "2025-01-01"; pbuy := ofZ 100; psell := ofZ 110 |};
    {| pdate := "2025-01-02"; pbuy := ofZ 105; psell := ofZ 115 |} ].

Definition sevenDays : ReturnControls.preset :=
  {| ReturnControls.label := "Last 7 days";
     ReturnControls.shortLabel := "7d";
     ReturnControls.days := 7 |}.

(** * Properties *)

(** ** Numbers and arrays *)

Lemma num_eqb_eq (x y : num) : num_eqb x y = true <-> x = y.
Proof.
  destruct x as [a| | |], y as [b| | |]; simpl;
    try (split; [discriminate | discriminate]); try tauto.
  rewrite Qeq_bool_iff. split.
  - intros H. f_equal. now apply Qc_is_canon.
  - intros H. injection H as ->. reflexivity.
Qed.

Lemma Fin_inj (a b : Qc) : Fin a = Fin b -> a = b.
Proof.
  intros E.
  exact (f_equal (fun x => match x with Fin q => q | _ => a end) E).
Qed.

Lemma nadd_zero_l (x : num) : nadd zero x = x.
Proof.
  destruct x as [q| | |]; simpl; try reflexivity.
  f_equal. apply Qcplus_0_l.
Qed.

Lemma nadd_zero_r (x : num) : nadd x zero = x.
Proof.
  destruct x as [q| | |]; simpl; try reflexivity.
  f_equal. apply Qcplus_0_r.
Qed.

Lemma nadd_assoc (x y z : num) : nadd (nadd x y) z = nadd x (nadd y z).
Proof.
  destruct x, y, z; simpl; try reflexivity.
  f_equal. symmetry. apply Qcplus_assoc.
Qed.

Lemma nadd_comm (x y : num) : nadd x y = nadd y x.
Proof.
  destruct x, y; simpl; try reflexivity.
  f_equal. apply Qcplus_comm.
Qed.

Lemma ndiv_one (x : num) : ndiv x (ofNat 1) = x.
Proof.
  destruct x as [q| | |]; try reflexivity.
  unfold ndiv, ofNat, ofZ. simpl Z.of_nat.
  change (sgn (Q2Qc (inject_Z 1))) with Gt. cbv iota.
  apply f_equal. unfold Qcdiv.
  replace (/ Q2Qc (inject_Z 1))%Qc with (Q2Qc 1) by (apply Qc_is_canon; reflexivity).
  apply Qcmult_1_r.
Qed.

Section ArrayFacts.
Context {A B : Type}.

Lemma mapi_from_length (f : A -> nat -> B) (l : list A) (i : nat) :
  length (mapi_from f i l) = length l.
Proof.
  revert i. induction l as [|x r IH]; intros i; simpl; [reflexivity|].
  now rewrite IH.
Qed.

Lemma mapi_from_nth (f : A -> nat -> B) (l : list A) (i k : nat) (d : B) (a : A) :
  (k < length l)%nat ->
  nth k (mapi_from f i l) d = f (nth k l a) (i + k)%nat.
Proof.
  revert i k. induction l as [|x r IH]; intros i k Hk; simpl in *; [lia|].
  destruct k as [|k].
  - now rewrite Nat.add_0_r.
  - rewrite IH by lia. f_equal. lia.
Qed.

Lemma firstn_skipn_seq (d : A) (n : nat) :
  forall (lo : nat) (l : list A),
    (lo + n <= length l)%nat ->
    firstn n (skipn lo l) = map (fun k => nth k l d) (seq lo n).
Proof.
  induction n as [|n IH]; intros lo l Hlen; [reflexivity|].
  simpl seq. simpl map. rewrite <- IH by lia.
  clear IH. revert l Hlen. induction lo as [|lo IHlo]; intros l Hlen.
  - destruct l as [|x r]; simpl in *; [lia | reflexivity].
  - destruct l as [|x r]; simpl in Hlen; [lia|].
    change (skipn (S lo) (x :: r)) with (skipn lo r).
    change (nth (S lo) (x :: r) d) with (nth lo r d).
    change (skipn (S (S lo)) (x :: r)) with (skipn (S lo) r).
    apply IHlo. lia.
Qed.

Lemma findIndex_bound (p : A -> bool) (l : list A) (i : nat) :
  findIndex p l = Some i -> (i < length l)%nat.
Proof.
  revert i. induction l as [|x r IH]; intros i; simpl; [discriminate|].
  destruct (p x).
  - intros [= <-]. lia.
  - destruct (findIndex p r) as [j|]; simpl; [|discriminate].
    intros [= <-]. specialize (IH j eq_refl). lia.
Qed.

Lemma findIndex_nth (p : A -> bool) (l : list A) (i : nat) :
  findIndex p l = Some i -> exists x, nth_error l i = Some x /\ p x = true.
Proof.
  revert i. induction l as [|x r IH]; intros i; simpl; [discriminate|].
  destruct (p x) eqn:Hp.
  - intros [= <-]. now exists x.
  - destruct (findIndex p r) as [j|]; simpl; [|discriminate].
    intros [= <-]. now apply IH.
Qed.

Lemma findIndex_none (p : A -> bool) (l : list A) :
  findIndex p l = None <-> forall x, In x l -> p x = false.
Proof.
  induction l as [|x r IH]; simpl.
  - split; [intros _ y [] | reflexivity].
  - destruct (p x) eqn:Hp.
    + split; [discriminate|]. intros H. rewrite (H x) in Hp by now left. discriminate.
    + destruct (findIndex p r) as [j|]; simpl.
    * split; [discriminate|]. intros H.
      assert (Hn : Some j = None) by (apply IH; intros y Hy; apply H; now right).
      discriminate.
      * split; [|reflexivity]. intros _ y [<-|Hy]; [assumption|].
        now apply IH.
Qed.
End ArrayFacts.

(** [slice] between two positions inside the array is the run of
    elements at the indices [lo .. hi - 1]. *)
Lemma slice_seq {A : Type} (d : A) (l : list A) (lo hi : nat) :
  (lo <= hi <= length l)%nat ->
  slice l (Z.of_nat lo) (Z.of_nat hi) = map (fun k => nth k l d) (seq lo (hi - lo)).
Proof.
  intros H. unfold slice.
  replace (Z.of_nat lo <? 0) with false by (symmetry; apply Z.ltb_ge; lia).
  replace (Z.of_nat hi <? 0) with false by (symmetry; apply Z.ltb_ge; lia).
  rewrite !Z.min_l by lia.
  rewrite <- Nat2Z.inj_sub by lia. rewrite !Nat2Z.id.
  apply firstn_skipn_seq. lia.
Qed.

Lemma fold_left_nadd (l : list num) (a : num) :
  fold_left nadd l a = nadd a (total l).
Proof.
  revert a. induction l as [|x r IH]; intros a; simpl.
  - now rewrite nadd_zero_r.
  - now rewrite IH, nadd_assoc.
Qed.

Lemma reduce_total (l : list num) : fold_left nadd l zero = total l.
Proof. now rewrite fold_left_nadd, nadd_zero_l. Qed.

Lemma windowStart_le (w : Z) (i : nat) : 1 <= w -> (windowStart w i <= i)%nat.
Proof. unfold windowStart. lia. Qed.

Lemma movingAverage_mapi (v : list num) (w : Z) :
  calculateMovingAverage v w =
  mapi
    (fun _ index =>
       ndiv
         (fold_left nadd
            (slice v (Z.max 0 (Z.of_nat index - w + 1)) (Z.of_nat index + 1)) zero)
         (ofNat
            (length (slice v (Z.max 0 (Z.of_nat index - w + 1)) (Z.of_nat index + 1)))))
    v.
Proof. destruct v; reflexivity. Qed.

Lemma movingAverage_length (v : list num) (w : Z) :
  length (calculateMovingAverage v w) = length v.
Proof. rewrite movingAverage_mapi. apply mapi_from_length. Qed.

Lemma movingAverage_nth (v : list num) (w : Z) (i : nat) :
  1 <= w -> (i < length v)%nat ->
  nth i (calculateMovingAverage v w) NaN = mean (trailing v w i).
Proof.
  intros Hw Hi. rewrite movingAverage_mapi.
  unfold mapi. rewrite (mapi_from_nth _ _ _ _ _ NaN) by assumption.
  simpl Nat.add.
  pose proof (windowStart_le w i Hw) as Hlo.
  replace (Z.max 0 (Z.of_nat i - w + 1)) with (Z.of_nat (windowStart w i))
    by (unfold windowStart; lia).
  replace (Z.of_nat i + 1) with (Z.of_nat (S i)) by lia.
  rewrite (slice_seq NaN) by lia.
  fold (trailing v w i). now rewrite reduce_total.
Qed.

Lemma trailing_prefix (v v' : list num) (w : Z) (i : nat) :
  firstn (S i) v' = firstn (S i) v -> trailing v' w i = trailing v w i.
Proof.
  intros Hpre. unfold trailing. apply map_ext_in. intros k Hk.
  apply in_seq in Hk.
  assert (Hki : (k < S i)%nat) by lia.
  rewrite <- (firstn_skipn (S i) v') at 1. rewrite <- (firstn_skipn (S i) v).
  rewrite Hpre.
  destruct (Nat.lt_ge_cases k (length (firstn (S i) v))) as [Hlt|Hge].
  - now rewrite !app_nth1.
  - (* both arrays end before index k *)
    assert (Hv : (length v <= k)%nat).
    { rewrite length_firstn in Hge. lia. }
    assert (Hv' : (length v' <= k)%nat).
    { assert (Hl : length (firstn (S i) v') = length (firstn (S i) v)) by now rewrite Hpre.
      rewrite !length_firstn in Hl. lia. }
    rewrite <- Hpre at 1. rewrite !firstn_skipn.
    now rewrite !nth_overflow.
Qed.

(** C5. For a window [w >= 1], [calculateMovingAverage v w] is as long as
    [v]; its value at index [i] is the arithmetic mean of
    [v[max(0, i-w+1) .. i]]; for a non-empty [v] the first value is [v[0]];
    and the value at [i] is the same for two inputs that agree on the
    indices [0 .. i], so it depends on no later input. *)
Theorem movingAverage_trailing_mean (v : list num) (w : Z) :
  1 <= w ->
  length (calculateMovingAverage v w) = length v /\
  (forall i, (i < length v)%nat ->
     nth i (calculateMovingAverage v w) NaN = mean (trailing v w i)) /\
  (v <> [] -> nth 0 (calculateMovingAverage v w) NaN = nth 0 v NaN) /\
  (forall v' i, (i < length v)%nat -> (i < length v')%nat ->
     firstn (S i) v' = firstn (S i) v ->
     nth i (calculateMovingAverage v' w) NaN = nth i (calculateMovingAverage v w) NaN).
Proof.
  intros Hw. split; [apply movingAverage_length|]. split; [|split].
  - intros i Hi. now apply movingAverage_nth.
  - intros Hne.
    assert (H0 : (0 < length v)%nat) by (destruct v; [contradiction | simpl; lia]).
    rewrite movingAverage_nth by assumption.
    unfold trailing, windowStart.
    replace (Z.to_nat (Z.max 0 (Z.of_nat 0 - w + 1))) with 0%nat by lia.
    simpl. unfold mean. simpl. now rewrite nadd_zero_r, ndiv_one.
  - intros v' i Hi Hi' Hpre.
    rewrite !movingAverage_nth by assumption.
    now rewrite (trailing_prefix v v').
Qed.

(** Closes a goal [x = y] between two closed numbers. *)
Ltac num_decide := apply num_eqb_eq; vm_compute; reflexivity.

(** Closes a goal [x <> y] between two closed terms with distinct normal
    forms. *)
Ltac closed_neq := let E := fresh "E" in intros E; vm_compute in E; discriminate E.

(** The scenario of the specification: a window of two over
    [10, 20, 30, 40]. *)
Lemma movingAverage_scenario :
  1 <= 2 /\
  calculateMovingAverage [ofZ 10; ofZ 20; ofZ 30; ofZ 40] 2
  = [ofZ 10; ofZ 15; ofZ 25; ofZ 35].
Proof.
  assert (Hw : 1 <= 2) by (intros E; discriminate E).
  split; [exact Hw|].
  destruct (movingAverage_trailing_mean [ofZ 10; ofZ 20; ofZ 30; ofZ 40] 2 Hw)
    as (Hlen & Hnth & _).
  apply (nth_ext _ _ NaN NaN); [exact Hlen|].
  intros n Hn. rewrite Hlen in Hn. rewrite (Hnth n Hn).
  do 4 (destruct n as [|n]; [num_decide|]).
  simpl in Hn. exfalso. lia.
Defined.

(** ** The stable sort *)

Arguments nadd : simpl never.
Arguments nsub : simpl never.
Arguments nmul : simpl never.
Arguments ndiv : simpl never.
Arguments nleb : simpl never.
Arguments nltb : simpl never.
Arguments ngtb : simpl never.
Arguments ngeb : simpl never.
Arguments max2 : simpl never.
Arguments min2 : simpl never.
Arguments mathRound : simpl never.
Arguments ofZ : simpl never.

Section SortFacts.
Context {A : Type} (cmp : A -> A -> num).

Lemma insertBy_perm (x : A) (l : list A) : Permutation (insertBy cmp x l) (x :: l).
Proof.
  induction l as [|y r IH]; simpl; [reflexivity|].
  destruct (ngtb (cmp x y) zero); [|reflexivity].
  rewrite IH. apply perm_swap.
Qed.

Lemma sortBy_perm (l : list A) : Permutation (sortBy cmp l) l.
Proof.
  induction l as [|x r IH]; simpl; [reflexivity|].
  rewrite insertBy_perm. now apply perm_skip.
Qed.

Lemma sortBy_length (l : list A) : length (sortBy cmp l) = length l.
Proof. apply Permutation_length, sortBy_perm. Qed.

(** A list whose neighbours the comparator leaves in place is a fixed
    point of the sort. *)
Lemma sortBy_fixed (l : list A) :
  (forall i a b, nth_error l i = Some a -> nth_error l (S i) = Some b ->
                 ngtb (cmp a b) zero = false) ->
  sortBy cmp l = l.
Proof.
  induction l as [|x r IH]; intros Hadj; [reflexivity|].
  simpl. rewrite IH.
  - destruct r as [|y r']; [reflexivity|]. simpl.
    now rewrite (Hadj 0%nat x y eq_refl eq_refl).
  - intros i a b Ha Hb. apply (Hadj (S i) a b); assumption.
Qed.

End SortFacts.

(** ** ReturnEngine *)

Section ReturnFacts.
Context `{Host}.
Import CumulativeReturn.

Lemma isEmpty_false (d : string) : d <> "" -> isEmpty d = false.
Proof. intros Hd. unfold isEmpty. now apply String.eqb_neq. Qed.

Lemma closedSlice_cons (sorted : list entry) (bi si : nat) :
  (bi <= si)%nat ->
  closedSlice sorted bi si =
  nth bi sorted noEntry
  :: map (fun k => nth k sorted noEntry) (seq (S bi) (si - bi)).
Proof.
  intros Hle. unfold closedSlice.
  replace (S si - bi)%nat with (S (si - bi)) by lia. reflexivity.
Qed.

Lemma closedSlice_length (sorted : list entry) (bi si : nat) :
  length (closedSlice sorted bi si) = (S si - bi)%nat.
Proof. unfold closedSlice. now rewrite length_map, length_seq. Qed.

Lemma closedSlice_nth (sorted : list entry) (bi si k : nat) :
  (bi + k <= si)%nat ->
  nth k (closedSlice sorted bi si) noEntry = nth (bi + k) sorted noEntry.
Proof.
  intros Hk. unfold closedSlice.
  rewrite (nth_indep _ noEntry (nth 0 sorted noEntry))
    by (rewrite length_map, length_seq; lia).
  rewrite (map_nth (fun k => nth k sorted noEntry)).
  now rewrite seq_nth by lia.
Qed.

Lemma closedSlice_last (sorted : list entry) (bi si : nat) :
  (bi <= si)%nat ->
  nth (length (closedSlice sorted bi si) - 1) (closedSlice sorted bi si) noEntry
  = nth si sorted noEntry.
Proof.
  intros Hle. rewrite closedSlice_length, closedSlice_nth by lia.
  f_equal. lia.
Qed.

(** The window the effect cuts is the closed slice between the two
    indices. *)
Lemma window_closedSlice (sorted : list entry) (bi si : nat) :
  (bi <= si)%nat -> (si < length sorted)%nat ->
  slice sorted (Z.of_nat bi) (Z.of_nat si + 1) = closedSlice sorted bi si.
Proof.
  intros Hle Hsi.
  replace (Z.of_nat si + 1) with (Z.of_nat (S si)) by lia.
  now rewrite (slice_seq noEntry) by lia.
Qed.

Lemma returnEffect_in_range (s : state) (bi si : nat) :
  buyDate s <> "" -> sellDate s <> "" ->
  indexOfDate (buyDate s) (sortBy dateCompare (entries s)) = Some bi ->
  indexOfDate (sellDate s) (sortBy dateCompare (entries s)) = Some si ->
  (bi <= si)%nat ->
  let sorted := sortBy dateCompare (entries s) in
  let first := nth bi sorted noEntry in
  let last := nth si sorted noEntry in
  returnEffect s =
  if usableCost (sell first)
  then succeeded (closedSlice sorted bi si) first last s
  else aborted sellUnavailable s.
Proof.
  intros Hb Hs Hbi Hsi Hle sorted first last.
  unfold indexOfDate in Hbi, Hsi.
  pose proof (findIndex_bound _ _ _ Hsi) as Hlt. fold sorted in Hbi, Hsi, Hlt.
  assert (Hne : (length (entries s) =? 0)%nat = false).
  { apply Nat.eqb_neq. unfold sorted in Hlt. rewrite sortBy_length in Hlt. lia. }
  unfold returnEffect. rewrite Hne, (isEmpty_false _ Hb), (isEmpty_false _ Hs).
  cbn [orb]. fold sorted. rewrite Hbi, Hsi.
  replace (si <? bi)%nat with false by (symmetry; apply Nat.ltb_ge; lia).
  rewrite window_closedSlice by assumption.
  pose proof (closedSlice_last sorted bi si Hle) as Hlast.
  rewrite (closedSlice_cons sorted bi si Hle) in Hlast |- *.
  fold first in Hlast |- *. fold last in Hlast. unfold usableCost.
  destruct (isFinite (sell first)); cbn [negb orb andb]; [|reflexivity].
  destruct (nleb (sell first) zero); cbn [negb]; [reflexivity|].
  set (w := first :: _) in *.
  unfold succeeded. rewrite Hlast. do 3 f_equal.
  rewrite length_map.
  rewrite (nth_indep _ NaN (returnPercent (sell first) noEntry))
    by (rewrite length_map; unfold w; simpl; lia).
  change (fun entry0 : entry =>
            nmul (ndiv (nsub (buy entry0) (sell first)) (sell first)) (ofZ 100))
    with (returnPercent (sell first)).
  rewrite (map_nth (returnPercent (sell first))).
  now rewrite Hlast.
Qed.

Lemma closedSlice_head (sorted : list entry) (bi si : nat) :
  (bi <= si)%nat -> head (closedSlice sorted bi si) = Some (nth bi sorted noEntry).
Proof. intros Hle. now rewrite closedSlice_cons. Qed.

Lemma closedSlice_lastElement (sorted : list entry) (bi si : nat) :
  (bi <= si)%nat ->
  lastElement (closedSlice sorted bi si) = Some (nth si sorted noEntry).
Proof.
  intros Hle. unfold lastElement.
  rewrite (nth_error_nth' _ noEntry) by (rewrite closedSlice_length; lia).
  now rewrite closedSlice_last.
Qed.

(** A date that no point of the series carries has no index in the sorted
    series. *)
Lemma indexOfDate_absent (d : string) (l : list entry) :
  (forall e, In e l -> date e <> d) ->
  indexOfDate d (sortBy dateCompare l) = None.
Proof.
  intros Habs. apply findIndex_none. intros e He.
  apply String.eqb_neq, Habs.
  now apply (Permutation_in _ (sortBy_perm dateCompare l)).
Qed.

Lemma indexOfDate_present (d : string) (l : list entry) :
  (exists e, In e l /\ date e = d) ->
  exists i, indexOfDate d (sortBy dateCompare l) = Some i.
Proof.
  intros (e & He & Hd).
  destruct (indexOfDate d (sortBy dateCompare l)) as [i|] eqn:E; [now exists i|].
  exfalso. unfold indexOfDate in E.
  rewrite findIndex_none in E.
  assert (Hin : In e (sortBy dateCompare l)).
  { apply (Permutation_in _ (Permutation_sym (sortBy_perm dateCompare l))), He. }
  specialize (E e Hin). apply String.eqb_neq in E. contradiction.
Qed.

Lemma returnEffect_reversed (s : state) (bi si : nat) :
  buyDate s <> "" -> sellDate s <> "" ->
  indexOfDate (buyDate s) (sortBy dateCompare (entries s)) = Some bi ->
  indexOfDate (sellDate s) (sortBy dateCompare (entries s)) = Some si ->
  (si < bi)%nat ->
  returnEffect s = aborted rangeOrder s.
Proof.
  intros Hb Hs Hbi Hsi Hlt.
  unfold indexOfDate in Hbi, Hsi.
  pose proof (findIndex_bound _ _ _ Hsi) as Hlen.
  assert (Hne : (length (entries s) =? 0)%nat = false).
  { apply Nat.eqb_neq. rewrite sortBy_length in Hlen. lia. }
  unfold returnEffect. rewrite Hne, (isEmpty_false _ Hb), (isEmpty_false _ Hs).
  cbn [orb]. rewrite Hbi, Hsi.
  replace (si <? bi)%nat with true by (symmetry; apply Nat.ltb_lt; lia).
  reflexivity.
Qed.

Lemma returnEffect_skips (s : state) :
  entries s = [] \/ buyDate s = "" \/ sellDate s = "" \/
  indexOfDate (buyDate s) (sortBy dateCompare (entries s)) = None \/
  indexOfDate (sellDate s) (sortBy dateCompare (entries s)) = None ->
  returnEffect s = s.
Proof.
  intros Hskip. unfold returnEffect.
  destruct (((length (entries s) =? 0)%nat || isEmpty (buyDate s)
             || isEmpty (sellDate s))%bool) eqn:Eg; [reflexivity|].
  apply orb_false_elim in Eg. destruct Eg as [Eg Es].
  apply orb_false_elim in Eg. destruct Eg as [El Eb].
  unfold isEmpty in Eb, Es. apply String.eqb_neq in Eb, Es. apply Nat.eqb_neq in El.
  fold (indexOfDate (buyDate s) (sortBy dateCompare (entries s))).
  fold (indexOfDate (sellDate s) (sortBy dateCompare (entries s))).
  destruct Hskip as [He|[Hb|[Hs|[Hb|Hs]]]].
  - rewrite He in El. simpl in El. contradiction.
  - contradiction.
  - contradiction.
  - now rewrite Hb.
  - rewrite Hs. now destruct (indexOfDate (buyDate s) _).
Qed.

Lemma usableCost_positive (c : num) :
  usableCost c = true -> exists q, c = Fin q /\ sgn q = Gt.
Proof.
  unfold usableCost. destruct c as [q| | |]; cbn [isFinite andb]; try discriminate.
  intros Hle. exists q. split; [reflexivity|].
  unfold nleb, zero, ofZ in Hle. unfold sgn.
  change (Q2Qc (inject_Z 0)) with (Q2Qc 0) in Hle.
  now destruct (q ?= Q2Qc 0)%Qc.
Qed.

Lemma usableCost_unusable (c : num) :
  isFinite c = false \/ c = zero -> usableCost c = false.
Proof.
  intros [Hf| ->]; unfold usableCost; [now rewrite Hf|reflexivity].
Qed.

(** With a usable cost basis the percentage is zero only at a point whose
    buy price is the cost basis. *)
Lemma returnPercent_nonzero (c : num) (p : entry) :
  usableCost c = true -> buy p <> c -> returnPercent c p <> zero.
Proof.
  intros Hc Hne. destruct (usableCost_positive c Hc) as (q & -> & Hq).
  unfold returnPercent, nsub.
  destruct (buy p) as [b| | |] eqn:Eb; unfold nneg, nadd, ndiv; rewrite ?Hq;
    try (vm_compute; discriminate).
  unfold nmul, ofZ, zero, ofZ. intros E. apply Fin_inj in E.
  apply Qcmult_integral in E. destruct E as [E|E].
  - unfold Qcdiv in E. apply Qcmult_integral in E. destruct E as [E|E].
    + apply Hne. f_equal.
      replace b with ((b + - q) + q)%Qc by ring. rewrite E. apply Qcplus_0_l.
    + assert (Hq0 : q <> Q2Qc 0).
      { intros ->. unfold sgn in Hq. rewrite (proj1 (Qceq_alt _ _) eq_refl) in Hq.
        discriminate. }
      apply (Qcmult_inv_r q) in Hq0. rewrite E, Qcmult_0_r in Hq0.
      now apply Q_apart_0_1.
  - apply (f_equal this) in E. vm_compute in E. discriminate.
Qed.

(** C1. With both dates in the series and the entry index not after the
    exit index, every summary the effect writes has the sell price of the
    first point of the closed slice as [entryCost], the buy price of its
    last point as [exitProceeds], their difference as [absoluteChange] and
    [(exitProceeds - entryCost) / entryCost * 100] as [latestReturn]; and
    the effect writes a summary, with no error, whenever that sell price
    is finite and positive. *)
Theorem return_summary (s : state) (bi si : nat) :
  buyDate s <> "" -> sellDate s <> "" ->
  indexOfDate (buyDate s) (sortBy dateCompare (entries s)) = Some bi ->
  indexOfDate (sellDate s) (sortBy dateCompare (entries s)) = Some si ->
  (bi <= si)%nat ->
  exists first last,
    head (closedSlice (sortBy dateCompare (entries s)) bi si) = Some first /\
    lastElement (closedSlice (sortBy dateCompare (entries s)) bi si) = Some last /\
    (usableCost (sell first) = true ->
     exists st, stats (returnEffect s) = Some st /\ error (returnEffect s) = None) /\
    (forall st, stats (returnEffect s) = Some st ->
       entryCost st = sell first /\
       exitProceeds st = buy last /\
       absoluteChange st = nsub (exitProceeds st) (entryCost st) /\
       latestReturn st =
       nmul (ndiv (nsub (exitProceeds st) (entryCost st)) (entryCost st)) (ofZ 100)).
Proof.
  intros Hb Hs Hbi Hsi Hle.
  pose proof (returnEffect_in_range s bi si Hb Hs Hbi Hsi Hle) as Heff.
  cbv zeta in Heff.
  exists (nth bi (sortBy dateCompare (entries s)) noEntry),
         (nth si (sortBy dateCompare (entries s)) noEntry).
  split; [now apply closedSlice_head|]. split; [now apply closedSlice_lastElement|].
  rewrite Heff.
  destruct (usableCost (sell (nth bi (sortBy dateCompare (entries s)) noEntry))).
  - split.
    + intros _. eexists. split; reflexivity.
    + intros st [= <-]. repeat split.
  - split; [discriminate|]. intros st Hst. discriminate Hst.
Qed.

(** C2. Under the same conditions, every curve the effect writes has one
    value per point of the closed slice, the value at a point [p] being
    [(p.buy - costBasis) / costBasis * 100] with the sell price of the
    first point as cost basis; so the first value is
    [(first.buy - first.sell) / first.sell * 100], which is not zero when
    the buy price of the first point differs from its sell price; and the
    effect writes a curve whenever the cost basis is finite and positive. *)
Theorem return_curve (s : state) (bi si : nat) :
  buyDate s <> "" -> sellDate s <> "" ->
  indexOfDate (buyDate s) (sortBy dateCompare (entries s)) = Some bi ->
  indexOfDate (sellDate s) (sortBy dateCompare (entries s)) = Some si ->
  (bi <= si)%nat ->
  let w := closedSlice (sortBy dateCompare (entries s)) bi si in
  exists first,
    head w = Some first /\
    (usableCost (sell first) = true ->
     exists c, chartData (returnEffect s) = Some c) /\
    (forall c, chartData (returnEffect s) = Some c ->
       length (data c) = length w /\
       (forall k, (k < length w)%nat ->
          nth k (data c) NaN =
          nmul (ndiv (nsub (buy (nth k w noEntry)) (sell first)) (sell first)) (ofZ 100)) /\
       nth 0 (data c) NaN =
       nmul (ndiv (nsub (buy first) (sell first)) (sell first)) (ofZ 100) /\
       (buy first <> sell first -> nth 0 (data c) NaN <> zero)).
Proof.
  intros Hb Hs Hbi Hsi Hle w.
  pose proof (returnEffect_in_range s bi si Hb Hs Hbi Hsi Hle) as Heff.
  cbv zeta in Heff. fold w in Heff.
  set (first := nth bi (sortBy dateCompare (entries s)) noEntry) in *.
  exists first. split; [now apply closedSlice_head|].
  rewrite Heff. destruct (usableCost (sell first)) eqn:Hc.
  - split; [intros _; eexists; reflexivity|].
    intros c [= <-]. cbn [data].
    assert (Hnth : forall k, (k < length w)%nat ->
              nth k (map (returnPercent (sell first)) w) NaN
              = returnPercent (sell first) (nth k w noEntry)).
    { intros k Hk.
      rewrite (nth_indep _ NaN (returnPercent (sell first) noEntry))
        by now rewrite length_map.
      apply (map_nth (returnPercent (sell first))). }
    assert (H0 : nth 0 (map (returnPercent (sell first)) w) NaN
                 = returnPercent (sell first) first).
    { unfold w. now rewrite closedSlice_cons. }
    split; [apply length_map|]. split; [exact Hnth|]. split; [exact H0|].
    intros Hne. rewrite H0. now apply returnPercent_nonzero.
  - split; [discriminate|]. intros c Hcd. discriminate Hcd.
Qed.

(** C3. With both dates in the series and the exit index before the entry
    index, the effect clears the curve and the summary and reports the
    range-order message, which is none of the other messages of the
    component: not the one for a series without data, not the one for an
    empty window. *)
Theorem range_order_error (s : state) (bi si : nat) :
  buyDate s <> "" -> sellDate s <> "" ->
  indexOfDate (buyDate s) (sortBy dateCompare (entries s)) = Some bi ->
  indexOfDate (sellDate s) (sortBy dateCompare (entries s)) = Some si ->
  (si < bi)%nat ->
  chartData (returnEffect s) = None /\
  stats (returnEffect s) = None /\
  error (returnEffect s) = Some rangeOrder /\
  rangeOrder <> noDataForType /\ rangeOrder <> emptyWindow /\
  rangeOrder <> loadFailed /\ rangeOrder <> sellUnavailable.
Proof.
  intros Hb Hs Hbi Hsi Hlt.
  rewrite (returnEffect_reversed s bi si Hb Hs Hbi Hsi Hlt).
  repeat split; intros E; discriminate E.
Qed.

(** C4. With both dates in the series and the entry index not after the
    exit index, a first point whose sell price is zero or not finite makes
    the effect clear the curve and the summary and report that the sell
    price is unavailable: no percentage is computed on that divisor. *)
Theorem unusable_cost_aborts (s : state) (bi si : nat) (first : entry) :
  buyDate s <> "" -> sellDate s <> "" ->
  indexOfDate (buyDate s) (sortBy dateCompare (entries s)) = Some bi ->
  indexOfDate (sellDate s) (sortBy dateCompare (entries s)) = Some si ->
  (bi <= si)%nat ->
  head (closedSlice (sortBy dateCompare (entries s)) bi si) = Some first ->
  isFinite (sell first) = false \/ sell first = zero ->
  chartData (returnEffect s) = None /\
  stats (returnEffect s) = None /\
  error (returnEffect s) = Some sellUnavailable.
Proof.
  intros Hb Hs Hbi Hsi Hle Hfirst Hcost.
  rewrite closedSlice_head in Hfirst by assumption. injection Hfirst as <-.
  rewrite (returnEffect_in_range s bi si Hb Hs Hbi Hsi Hle). cbv zeta.
  rewrite (usableCost_unusable _ Hcost). repeat split.
Qed.

(** C10, as the code has it.  The effect leaves the state as it was, with
    neither a result nor an error of its own, when the series is empty,
    when a date is the empty string or when a date is carried by no point
    of the series; in every other case it either clears the curve and the
    summary and sets an error message, or clears the error and writes a
    summary and a curve. *)
Theorem returnEffect_outcomes (s : state) :
  (entries s = [] \/ buyDate s = "" \/ sellDate s = "" \/
   (forall e, In e (entries s) -> date e <> buyDate s) \/
   (forall e, In e (entries s) -> date e <> sellDate s) ->
   returnEffect s = s) /\
  (buyDate s <> "" -> sellDate s <> "" ->
   (exists e, In e (entries s) /\ date e = buyDate s) ->
   (exists e, In e (entries s) /\ date e = sellDate s) ->
   (exists msg, returnEffect s = aborted msg s) \/
   (exists w first last, returnEffect s = succeeded w first last s)).
Proof.
  split.
  - intros [He|[Hb|[Hs|[Hb|Hs]]]]; apply returnEffect_skips; auto.
    + right; right; right; left. now apply indexOfDate_absent.
    + right; right; right; right. now apply indexOfDate_absent.
  - intros Hb Hs Hbin Hsin.
    destruct (indexOfDate_present _ _ Hbin) as [bi Hbi].
    destruct (indexOfDate_present _ _ Hsin) as [si Hsi].
    destruct (Nat.le_gt_cases bi si) as [Hle|Hlt].
    + rewrite (returnEffect_in_range s bi si Hb Hs Hbi Hsi Hle). cbv zeta.
      destruct (usableCost _).
      * right. eexists _, _, _. reflexivity.
      * left. now exists sellUnavailable.
    + left. exists rangeOrder. now apply (returnEffect_reversed s bi si).
Qed.

End ReturnFacts.

(** ** The ReturnEngine on the scenarios of the specification *)

Section ReturnScenarios.
Import CumulativeReturn.

(** Entry 2025-01-01, exit 2025-01-03: cost basis 110, proceeds 120,
    absolute change 10, net return [(120 - 110) / 110 * 100]. *)
Lemma return_summary_scenario :
  let s := scenarioState "2025-01-01" "2025-01-03" in
  (buyDate s <> "" /\ sellDate s <> "" /\
   indexOfDate (buyDate s) (sortBy dateCompare (entries s)) = Some 0%nat /\
   indexOfDate (sellDate s) (sortBy dateCompare (entries s)) = Some 2%nat /\
   (0 <= 2)%nat) /\
  exists st,
    stats (returnEffect s) = Some st /\
    entryCost st = ofZ 110 /\
    exitProceeds st = ofZ 120 /\
    absoluteChange st = ofZ 10 /\
    latestReturn st = nmul (ndiv (nsub (ofZ 120) (ofZ 110)) (ofZ 110)) (ofZ 100).
Proof.
  intros s.
  assert (Hb : buyDate s <> "") by closed_neq.
  assert (Hs : sellDate s <> "") by closed_neq.
  assert (Hbi : indexOfDate (buyDate s) (sortBy dateCompare (entries s)) = Some 0%nat)
    by (vm_compute; reflexivity).
  assert (Hsi : indexOfDate (sellDate s) (sortBy dateCompare (entries s)) = Some 2%nat)
    by (vm_compute; reflexivity).
  assert (Hle : (0 <= 2)%nat) by lia.
  split; [repeat split; assumption|].
  destruct (return_summary s 0 2 Hb Hs Hbi Hsi Hle)
    as (first & last & Hfirst & Hlast & Hex & Heq).
  vm_compute in Hfirst. injection Hfirst as <-.
  vm_compute in Hlast. injection Hlast as <-.
  destruct (Hex eq_refl) as (st & Hst & _).
  destruct (Heq st Hst) as (Hc & Hp & Ha & Hr).
  exists st. split; [exact Hst|].
  rewrite Hr, Ha, Hp, Hc. repeat split; num_decide.
Defined.

(** On the same request the first value of the curve is
    [(100 - 110) / 110 * 100], not zero. *)
Lemma return_curve_scenario :
  let s := scenarioState "2025-01-01" "2025-01-03" in
  (buyDate s <> "" /\ sellDate s <> "" /\
   indexOfDate (buyDate s) (sortBy dateCompare (entries s)) = Some 0%nat /\
   indexOfDate (sellDate s) (sortBy dateCompare (entries s)) = Some 2%nat /\
   (0 <= 2)%nat) /\
  exists c,
    chartData (returnEffect s) = Some c /\
    length (data c) = 3%nat /\
    nth 0 (data c) NaN = nmul (ndiv (nsub (ofZ 100) (ofZ 110)) (ofZ 110)) (ofZ 100) /\
    nth 0 (data c) NaN <> zero.
Proof.
  intros s.
  assert (Hb : buyDate s <> "") by closed_neq.
  assert (Hs : sellDate s <> "") by closed_neq.
  assert (Hbi : indexOfDate (buyDate s) (sortBy dateCompare (entries s)) = Some 0%nat)
    by (vm_compute; reflexivity).
  assert (Hsi : indexOfDate (sellDate s) (sortBy dateCompare (entries s)) = Some 2%nat)
    by (vm_compute; reflexivity).
  assert (Hle : (0 <= 2)%nat) by lia.
  split; [repeat split; assumption|].
  destruct (return_curve s 0 2 Hb Hs Hbi Hsi Hle) as (first & Hfirst & Hex & Heq).
  vm_compute in Hfirst. injection Hfirst as <-.
  destruct (Hex eq_refl) as (c & Hc).
  destruct (Heq c Hc) as (Hlen & _ & H0 & Hnz).
  exists c. split; [exact Hc|]. split; [exact Hlen|]. split.
  - rewrite H0. num_decide.
  - apply Hnz. intros E. apply num_eqb_eq in E. vm_compute in E. discriminate E.
Defined.

(** Entry 2025-01-03, exit 2025-01-01: the range-order error. *)
Lemma range_order_scenario :
  let s := scenarioState "2025-01-03" "2025-01-01" in
  (buyDate s <> "" /\ sellDate s <> "" /\
   indexOfDate (buyDate s) (sortBy dateCompare (entries s)) = Some 2%nat /\
   indexOfDate (sellDate s) (sortBy dateCompare (entries s)) = Some 0%nat /\
   (0 < 2)%nat) /\
  chartData (returnEffect s) = None /\
  stats (returnEffect s) = None /\
  error (returnEffect s) = Some rangeOrder.
Proof.
  intros s.
  assert (Hb : buyDate s <> "") by closed_neq.
  assert (Hs : sellDate s <> "") by closed_neq.
  assert (Hbi : indexOfDate (buyDate s) (sortBy dateCompare (entries s)) = Some 2%nat)
    by (vm_compute; reflexivity).
  assert (Hsi : indexOfDate (sellDate s) (sortBy dateCompare (entries s)) = Some 0%nat)
    by (vm_compute; reflexivity).
  assert (Hlt : (0 < 2)%nat) by lia.
  split; [repeat split; assumption|].
  destruct (range_order_error s 2 0 Hb Hs Hbi Hsi Hlt) as (Hc & Hst & He & _).
  repeat split; assumption.
Defined.

Lemma unusable_cost_scenario :
  (buyDate freeGold <> "" /\ sellDate freeGold <> "" /\
   indexOfDate (buyDate freeGold) (sortBy dateCompare (entries freeGold)) = Some 0%nat /\
   indexOfDate (sellDate freeGold) (sortBy dateCompare (entries freeGold)) = Some 0%nat /\
   (0 <= 0)%nat /\
   head (closedSlice (sortBy dateCompare (entries freeGold)) 0 0)
   = Some (scenarioPoint "2025-01-01" 100 0) /\
   sell (scenarioPoint "2025-01-01" 100 0) = zero) /\
  chartData (returnEffect freeGold) = None /\
  stats (returnEffect freeGold) = None /\
  error (returnEffect freeGold) = Some sellUnavailable.
Proof.
  assert (Hb : buyDate freeGold <> "") by closed_neq.
  assert (Hs : sellDate freeGold <> "") by closed_neq.
  assert (Hbi : indexOfDate (buyDate freeGold) (sortBy dateCompare (entries freeGold))
                = Some 0%nat) by reflexivity.
  assert (Hsi : indexOfDate (sellDate freeGold) (sortBy dateCompare (entries freeGold))
                = Some 0%nat) by reflexivity.
  assert (Hle : (0 <= 0)%nat) by lia.
  assert (Hh : head (closedSlice (sortBy dateCompare (entries freeGold)) 0 0)
               = Some (scenarioPoint "2025-01-01" 100 0)) by reflexivity.
  assert (Hz : sell (scenarioPoint "2025-01-01" 100 0) = zero) by reflexivity.
  split; [repeat split; assumption|].
  exact (unusable_cost_aborts freeGold 0 0 _ Hb Hs Hbi Hsi Hle Hh (or_intror Hz)).
Defined.

(** C10, as the specification states it, fails: on the three-point
    series, with an entry date that no point carries, the effect leaves
    the state as it was, so that a state without result and without error
    stays without both. *)
Lemma unknown_date_is_silent :
  let s := scenarioState "2024-12-31" "2025-01-03" in
  entries s <> [] /\
  (forall e, In e (entries s) -> date e <> buyDate s) /\
  returnEffect s = s /\
  chartData (returnEffect s) = None /\
  stats (returnEffect s) = None /\
  error (returnEffect s) = None.
Proof.
  intros s. split; [closed_neq|]. split.
  - intros e [<-|[<-|[<-|[]]]]; closed_neq.
  - repeat split; reflexivity.
Qed.

Lemma returnEffect_outcomes_scenario :
  let s := scenarioState "2024-12-31" "2025-01-03" in
  let s' := scenarioState "2025-01-01" "2025-01-03" in
  ((forall e, In e (entries s) -> date e <> buyDate s) /\ returnEffect s = s) /\
  ((buyDate s' <> "" /\ sellDate s' <> "" /\
    (exists e, In e (entries s') /\ date e = buyDate s') /\
    (exists e, In e (entries s') /\ date e = sellDate s')) /\
   ((exists msg, returnEffect s' = aborted msg s') \/
    (exists w first last, returnEffect s' = succeeded w first last s'))).
Proof.
  intros s s'. split.
  - assert (Habs : forall e, In e (entries s) -> date e <> buyDate s).
    { intros e [<-|[<-|[<-|[]]]]; closed_neq. }
    split; [exact Habs|].
    apply (proj1 (returnEffect_outcomes s)). right; right; right; left. exact Habs.
  - assert (Hb : buyDate s' <> "") by closed_neq.
    assert (Hs : sellDate s' <> "") by closed_neq.
    assert (Hbin : exists e, In e (entries s') /\ date e = buyDate s').
    { exists (scenarioPoint "2025-01-01" 100 110). split; [left|]; reflexivity. }
    assert (Hsin : exists e, In e (entries s') /\ date e = sellDate s').
    { exists (scenarioPoint "2025-01-03" 120 130).
      split; [right; right; left|]; reflexivity. }
    split; [repeat split; assumption|].
    exact (proj2 (returnEffect_outcomes s') Hb Hs Hbin Hsin).
Defined.

End ReturnScenarios.

(** ** The order on finite numbers, [Math.max] and [Math.min] *)

Lemma nle_Fin (a b : Qc) : nle (Fin a) (Fin b) <-> (a <= b)%Qc.
Proof.
  unfold nle, nleb. rewrite Qcle_alt.
  destruct (a ?= b)%Qc; split; intros E; try reflexivity; try discriminate;
    try (intros E'; discriminate E'); now contradiction E.
Qed.

Lemma nltb_Fin (a b : Qc) : nltb (Fin a) (Fin b) = true <-> (a < b)%Qc.
Proof.
  unfold nltb. rewrite Qclt_alt.
  destruct (a ?= b)%Qc; split; intros E; try reflexivity; discriminate E.
Qed.

Lemma nltb_false_Fin (a b : Qc) : nltb (Fin a) (Fin b) = false -> (b <= a)%Qc.
Proof.
  intros E. apply Qcnot_lt_le. intros Hlt.
  apply nltb_Fin in Hlt. rewrite Hlt in E. discriminate E.
Qed.

Lemma nsub_Fin (a b : Qc) : nsub (Fin a) (Fin b) = Fin (a + - b)%Qc.
Proof. reflexivity. Qed.

(** A spread is negative exactly as the market is inverted. *)
Lemma nsub_negative (a b : Qc) :
  nltb (Fin a) (Fin b) = true -> nltb (nsub (Fin a) (Fin b)) zero = true.
Proof.
  rewrite nsub_Fin. unfold zero, ofZ. rewrite !nltb_Fin.
  change (Q2Qc (inject_Z 0)) with (Q2Qc 0).
  intros Hlt. apply Qclt_minus_iff in Hlt. apply Qclt_minus_iff.
  replace (0 + - (a + - b))%Qc with (b + - a)%Qc by ring. exact Hlt.
Qed.

Lemma max2_Fin (a b : Qc) :
  max2 (Fin a) (Fin b) = if nltb (Fin a) (Fin b) then Fin b else Fin a.
Proof. reflexivity. Qed.

Lemma min2_Fin (a b : Qc) :
  min2 (Fin a) (Fin b) = if nltb (Fin b) (Fin a) then Fin b else Fin a.
Proof. reflexivity. Qed.

Lemma fold_max2_spec (l : list num) :
  forall acc, finite acc -> Forall finite l ->
    finite (fold_left max2 l acc) /\
    (fold_left max2 l acc = acc \/ In (fold_left max2 l acc) l) /\
    nle acc (fold_left max2 l acc) /\
    (forall x, In x l -> nle x (fold_left max2 l acc)).
Proof.
  induction l as [|y r IH]; intros acc Hacc Hl.
  - destruct acc as [a| | |]; try discriminate Hacc. simpl.
    repeat split; try (now left). + apply nle_Fin, Qcle_refl. + intros x [].
  - inversion Hl as [|y' r' Hy Hr]; subst.
    destruct acc as [a| | |]; try discriminate Hacc.
    destruct y as [b| | |]; try discriminate Hy.
    cbn [fold_left]. rewrite max2_Fin.
    destruct (nltb (Fin a) (Fin b)) eqn:Hab.
    + destruct (IH (Fin b) eq_refl Hr) as (Hf & Hin & Hle & Hub).
      destruct (fold_left max2 r (Fin b)) as [m| | |] eqn:Em; try discriminate Hf.
      repeat split.
      * destruct Hin as [E|Hin]; right; [left; now symmetry|now right].
      * apply nle_Fin. apply nle_Fin in Hle. apply nltb_Fin in Hab.
        apply Qcle_trans with b; [now apply Qclt_le_weak|assumption].
      * intros x [<-|Hx]; [assumption|now apply Hub].
    + destruct (IH (Fin a) eq_refl Hr) as (Hf & Hin & Hle & Hub).
      destruct (fold_left max2 r (Fin a)) as [m| | |] eqn:Em; try discriminate Hf.
      repeat split.
      * destruct Hin as [E|Hin]; [now left|right; now right].
      * assumption.
      * intros x [<-|Hx]; [|now apply Hub].
        apply nle_Fin. apply nle_Fin in Hle. apply nltb_false_Fin in Hab.
        now apply Qcle_trans with a.
Qed.

Lemma fold_min2_spec (l : list num) :
  forall acc, finite acc -> Forall finite l ->
    finite (fold_left min2 l acc) /\
    (fold_left min2 l acc = acc \/ In (fold_left min2 l acc) l) /\
    nle (fold_left min2 l acc) acc /\
    (forall x, In x l -> nle (fold_left min2 l acc) x).
Proof.
  induction l as [|y r IH]; intros acc Hacc Hl.
  - destruct acc as [a| | |]; try discriminate Hacc. simpl.
    repeat split; try (now left). + apply nle_Fin, Qcle_refl. + intros x [].
  - inversion Hl as [|y' r' Hy Hr]; subst.
    destruct acc as [a| | |]; try discriminate Hacc.
    destruct y as [b| | |]; try discriminate Hy.
    cbn [fold_left]. rewrite min2_Fin.
    destruct (nltb (Fin b) (Fin a)) eqn:Hab.
    + destruct (IH (Fin b) eq_refl Hr) as (Hf & Hin & Hle & Hub).
      destruct (fold_left min2 r (Fin b)) as [m| | |] eqn:Em; try discriminate Hf.
      repeat split.
      * destruct Hin as [E|Hin]; right; [left; now symmetry|now right].
      * apply nle_Fin. apply nle_Fin in Hle. apply nltb_Fin in Hab.
        apply Qcle_trans with b; [assumption|now apply Qclt_le_weak].
      * intros x [<-|Hx]; [assumption|now apply Hub].
    + destruct (IH (Fin a) eq_refl Hr) as (Hf & Hin & Hle & Hub).
      destruct (fold_left min2 r (Fin a)) as [m| | |] eqn:Em; try discriminate Hf.
      repeat split.
      * destruct Hin as [E|Hin]; [now left|right; now right].
      * assumption.
      * intros x [<-|Hx]; [|now apply Hub].
        apply nle_Fin. apply nle_Fin in Hle. apply nltb_false_Fin in Hab.
        now apply Qcle_trans with a.
Qed.

(** [Math.max] of a non-empty array of finite numbers is one of them and
    bounds them all from above; [Math.min] likewise from below. *)
Lemma mathMax_spec (l : list num) :
  l <> [] -> Forall finite l ->
  In (mathMax l) l /\ forall x, In x l -> nle x (mathMax l).
Proof.
  intros Hne Hl. destruct l as [|y r]; [contradiction|].
  inversion Hl as [|y' r' Hy Hr]; subst.
  destruct y as [b| | |]; try discriminate Hy.
  unfold mathMax. cbn [fold_left].
  change (max2 NInf (Fin b)) with (Fin b).
  destruct (fold_max2_spec r (Fin b) eq_refl Hr) as (_ & Hin & Hle & Hub).
  split.
  - destruct Hin as [->|Hin]; [now left|now right].
  - intros x [<-|Hx]; [assumption|now apply Hub].
Qed.

Lemma mathMin_spec (l : list num) :
  l <> [] -> Forall finite l ->
  In (mathMin l) l /\ forall x, In x l -> nle (mathMin l) x.
Proof.
  intros Hne Hl. destruct l as [|y r]; [contradiction|].
  inversion Hl as [|y' r' Hy Hr]; subst.
  destruct y as [b| | |]; try discriminate Hy.
  unfold mathMin. cbn [fold_left].
  change (min2 PInf (Fin b)) with (Fin b).
  destruct (fold_min2_spec r (Fin b) eq_refl Hr) as (_ & Hin & Hle & Hub).
  split.
  - destruct Hin as [->|Hin]; [now left|now right].
  - intros x [<-|Hx]; [assumption|now apply Hub].
Qed.

(** ** Callbacks that read a parallel array at their index *)

Section MapiFacts.
Context {A B : Type}.

Lemma mapi_from_ext (f g : A -> nat -> B) (l : list A) :
  forall i, (forall x k, f x k = g x k) -> mapi_from f i l = mapi_from g i l.
Proof.
  induction l as [|x r IH]; intros i Hfg; simpl; [reflexivity|].
  now rewrite Hfg, (IH (S i) Hfg).
Qed.

Lemma mapi_from_shift (f : A -> nat -> B) (l : list A) :
  forall i, mapi_from f (S i) l = mapi_from (fun x k => f x (S k)) i l.
Proof.
  induction l as [|x r IH]; intros i; simpl; [reflexivity|].
  now rewrite IH.
Qed.

Lemma mapi_cons (f : A -> nat -> B) (x : A) (l : list A) :
  mapi f (x :: l) = f x 0%nat :: mapi (fun y k => f y (S k)) l.
Proof. unfold mapi. simpl. now rewrite mapi_from_shift. Qed.

End MapiFacts.

Lemma seq_from_one {B : Type} (g : nat -> B) (n : nat) :
  map g (seq 1 n) = map (fun k => g (S k)) (seq 0 n).
Proof. now rewrite <- seq_shift, map_map. Qed.

(** ** DeltaEngine *)

Section DeltaFacts.
Context `{Host}.
Import DailyChange.

Lemma entriesOf_nil (buys : list jsval) : entriesOf [] buys = [].
Proof. reflexivity. Qed.

Lemma entriesOf_cons (d : string) (ds : list string) (b : jsval) (buys : list jsval) :
  entriesOf (d :: ds) (b :: buys) =
  (if isFinite (toNumber b) then [{| date := d; buy := toNumber b |}] else [])
  ++ entriesOf ds buys.
Proof.
  unfold entriesOf. rewrite mapi_cons. cbn [at_index nth].
  destruct (isFinite (toNumber b)); reflexivity.
Qed.

(** Finite numbers all survive, in the order of the payload. *)
Lemma entriesOf_finite (v : list num) :
  forall ds, length ds = length v -> Forall finite v ->
    map buy (entriesOf ds (map JNum v)) = v /\
    map date (entriesOf ds (map JNum v)) = ds.
Proof.
  induction v as [|x v IH]; intros ds Hlen Hv.
  - destruct ds; [now split | discriminate Hlen].
  - destruct ds as [|d ds]; [discriminate Hlen|].
    inversion Hv as [|x' v' Hx Hv']; subst.
    injection Hlen as Hlen. destruct (IH ds Hlen Hv') as [Hb Hd].
    cbn [map]. rewrite entriesOf_cons. cbn [toNumber].
    unfold finite in Hx. rewrite Hx. cbn [app map buy date].
    now rewrite Hb, Hd.
Qed.

Lemma changesLoop_fold (entries : list entry) (n : nat) :
  forall a changes changeLabels,
    fold_left
      (fun '(changes, changeLabels) idx =>
         let current := nth idx entries noEntry in
         let previous := nth (idx - 1) entries noEntry in
         (changes ++ [nsub (buy current) (buy previous)],
          changeLabels ++ [formatDateLabel (date current)]))
      (seq a n) (changes, changeLabels)
    = (changes
       ++ map (fun idx => nsub (buy (nth idx entries noEntry))
                               (buy (nth (idx - 1) entries noEntry))) (seq a n),
       changeLabels
       ++ map (fun idx => formatDateLabel (date (nth idx entries noEntry))) (seq a n)).
Proof.
  induction n as [|n IH]; intros a changes changeLabels.
  - simpl. now rewrite !app_nil_r.
  - cbn [seq fold_left map]. rewrite IH. now rewrite <- !app_assoc.
Qed.

(** The changes the loop pushes, in terms of the buy values alone. *)
Lemma changesLoop_changes (entries : list entry) :
  fst (changesLoop entries) =
  map (fun k => nsub (nth (S k) (map buy entries) NaN) (nth k (map buy entries) NaN))
      (seq 0 (length entries - 1)).
Proof.
  unfold changesLoop. rewrite changesLoop_fold. cbn [fst app].
  rewrite seq_from_one. apply map_ext. intros k.
  replace (S k - 1)%nat with k by lia.
  change NaN with (buy noEntry). now rewrite !map_nth.
Qed.

(** [changes[changes.length - 1] || null] is the last change unless that
    change is zero or [NaN]. *)
Lemma latestOrNull_spec (changes : list num) (x : num) :
  latestOrNull changes = Some x <-> lastElement changes = Some x /\ truthy x = true.
Proof.
  unfold latestOrNull. destruct (lastElement changes) as [y|].
  - destruct (truthy y) eqn:Ey; split.
    + intros [= <-]. now split.
    + now intros [E _].
    + discriminate.
    + intros [[= <-] Et]. rewrite Et in Ey. discriminate Ey.
  - split; [discriminate|]. now intros [E _].
Qed.

Lemma map_nth_seq {A : Type} (d : A) (l : list A) :
  map (fun k => nth k l d) (seq 0 (length l)) = l.
Proof.
  induction l as [|x r IH]; [reflexivity|].
  cbn [length seq map nth]. f_equal.
  rewrite <- seq_shift, map_map. exact IH.
Qed.

(** The labels the loop pushes: one for every entry but the first. *)
Lemma changesLoop_changeLabels (entries : list entry) :
  snd (changesLoop entries) = map (fun e => formatDateLabel (date e)) (tl entries).
Proof.
  unfold changesLoop. rewrite changesLoop_fold. cbn [snd app].
  destruct entries as [|e r]; [reflexivity|].
  cbn [length tl]. replace (S (length r) - 1)%nat with (length r) by lia.
  rewrite seq_from_one. cbn [nth].
  rewrite <- (map_nth_seq noEntry r) at 2. now rewrite map_map.
Qed.

(** The entries the callback keeps are the dated values of the payload. *)
Lemma entriesOf_datedValues (ds : list string) (buys : list jsval) :
  map (fun e => (date e, buy e)) (entriesOf ds buys) = datedValues ds buys.
Proof.
  unfold entriesOf, datedValues, mapi. generalize 0%nat.
  induction ds as [|d ds IH]; intros i; [reflexivity|].
  cbn [mapi_from length seq map combine filter snd]. unfold at_index at 1.
  destruct (isFinite (toNumber (nth i buys JUndefined)));
    cbn [negb filterBoolean map date buy]; now rewrite IH.
Qed.

Lemma datedValues_finite (ds : list string) (buys : list jsval) :
  Forall finite (map snd (datedValues ds buys)).
Proof.
  apply Forall_forall. intros x Hx. apply in_map_iff in Hx.
  destruct Hx as (p & <- & Hp). unfold datedValues in Hp.
  apply filter_In in Hp. exact (proj2 Hp).
Qed.

Lemma datedValues_length (ds : list string) (buys : list jsval) :
  (length (datedValues ds buys) <= length ds)%nat.
Proof.
  unfold datedValues. etransitivity; [apply filter_length_le|].
  rewrite length_combine, length_map, length_seq. lia.
Qed.

(** A finite number that [||] replaces is zero. *)
Lemma falsy_finite (x : num) : finite x -> truthy x = false -> x = zero.
Proof.
  destruct x as [q| | |]; try discriminate. intros _ Ht. unfold truthy in Ht.
  destruct (sgn q) eqn:Es; try discriminate Ht.
  unfold sgn in Es. apply Qceq_alt in Es. now subst q.
Qed.

Lemma nsub_finite (x y : num) : finite x -> finite y -> finite (nsub x y).
Proof. destruct x, y; try discriminate. reflexivity. Qed.

(** C6. The values of the DeltaEngine are the buy prices of the payload
    that are finite numbers, [n] of them, in index order.  With at least
    two values the function writes a chart with [n - 1] bars, bar [k]
    being [v[k+1] - v[k]] in millions and labelled with the date of value
    [k + 1], and a summary whose maximum, minimum and average are those
    of the sequence of the differences and whose latest change, when it
    is reported, is the last difference (it is not reported when that
    difference is zero).  With fewer than two values, also when the
    payload has two dates or more, it clears the summary and the chart
    and sets no error, which is the no-data state; and so it does with
    fewer than two dates, whether the payload has buy prices or not. *)
Theorem daily_deltas (ds : list string) (buys : list jsval)
        (sells : option (list jsval)) (s : state) :
  let points := datedValues ds buys in
  let v := map snd points in
  let n := length v in
  let deltas :=
    map (fun k => nsub (nth (S k) v NaN) (nth k v NaN)) (seq 0 (n - 1)) in
  let s' :=
    fetchChangeData
      (Resolved
         (Some {| dates := Some ds; buy_prices := Some buys; sell_prices := sells |}))
      s in
  ((2 <= n)%nat ->
   exists st c,
     stats s' = Some st /\ chartData s' = Some c /\ error s' = None /\
     length (data c) = (n - 1)%nat /\
     (forall k, (k < n - 1)%nat ->
        nth k (data c) NaN
        = ndiv (nsub (nth (S k) v NaN) (nth k v NaN)) (ofZ 1000000)) /\
     labels c = map (fun p => formatDateLabel (fst p)) (tl points) /\
     maxGain st = mathMax deltas /\
     maxDrop st = mathMin deltas /\
     averageChange st = ndiv (fold_left nadd deltas zero) (ofNat (n - 1)) /\
     (forall x, latestChange st = Some x -> lastElement deltas = Some x) /\
     (latestChange st = None -> lastElement deltas = Some zero)) /\
  ((n < 2)%nat ->
   stats s' = None /\ chartData s' = None /\ error s' = None /\ loading s' = false) /\
  ((length ds < 2)%nat ->
   forall prices : option (list jsval),
     let s0 :=
       fetchChangeData
         (Resolved
            (Some {| dates := Some ds; buy_prices := prices; sell_prices := sells |}))
         s in
     stats s0 = None /\ chartData s0 = None /\ error s0 = None /\ loading s0 = false).
Proof.
  intros points v n deltas s'.
  pose proof (entriesOf_datedValues ds buys) as Hp. fold points in Hp.
  assert (Hbuy : map buy (entriesOf ds buys) = v).
  { unfold v. rewrite <- Hp, map_map. reflexivity. }
  assert (Hn : length (entriesOf ds buys) = n).
  { unfold n. rewrite <- Hbuy. now rewrite length_map. }
  assert (Hds : (n <= length ds)%nat).
  { unfold n, v. rewrite length_map. apply datedValues_length. }
  assert (Hch : fst (changesLoop (entriesOf ds buys)) = deltas).
  { rewrite changesLoop_changes, Hbuy, Hn. reflexivity. }
  assert (Hdl : length deltas = (n - 1)%nat).
  { unfold deltas. now rewrite length_map, length_seq. }
  split; [|split].
  - intros H2.
    exists (summarize (fst (changesLoop (entriesOf ds buys)))),
           (chartOf (fst (changesLoop (entriesOf ds buys)))
                    (snd (changesLoop (entriesOf ds buys)))).
    assert (Hs' : s' =
                  s |> setLoading true |> setError None
                    |> setStats (Some (summarize (fst (changesLoop (entriesOf ds buys)))))
                    |> setChartData
                         (Some (chartOf (fst (changesLoop (entriesOf ds buys)))
                                        (snd (changesLoop (entriesOf ds buys)))))
                    |> setLoading false).
    { unfold s', fetchChangeData, tryBody. cbn [dates buy_prices].
      replace (length ds <? 2)%nat with false by (symmetry; apply Nat.ltb_ge; lia).
      replace (length (entriesOf ds buys) <? 2)%nat with false
        by (symmetry; apply Nat.ltb_ge; lia).
      now destruct (changesLoop (entriesOf ds buys)). }
    rewrite Hs'. split; [reflexivity|]. split; [reflexivity|]. split; [reflexivity|].
    rewrite changesLoop_changeLabels, Hch.
    cbn [data labels chartOf summarize maxGain maxDrop averageChange latestChange].
    split; [now rewrite length_map|].
    split.
    { intros k Hk.
      rewrite (nth_indep _ NaN (ndiv NaN (ofZ 1000000))) by now rewrite length_map, Hdl.
      rewrite (map_nth (fun value => ndiv value (ofZ 1000000))). f_equal.
      unfold deltas.
      rewrite (nth_indep _ NaN (nsub (nth (S 0) v NaN) (nth 0 v NaN)))
        by now rewrite length_map, length_seq.
      rewrite (map_nth (fun k => nsub (nth (S k) v NaN) (nth k v NaN))).
      now rewrite seq_nth. }
    split.
    { rewrite <- Hp. destruct (entriesOf ds buys); [reflexivity|].
      cbn [map tl]. now rewrite map_map. }
    split; [reflexivity|]. split; [reflexivity|].
    split; [now rewrite Hdl|].
    split.
    { intros x Hx. now apply latestOrNull_spec in Hx. }
    intros Hnone. unfold latestOrNull in Hnone.
    destruct (lastElement deltas) as [x|] eqn:El.
    + destruct (truthy x) eqn:Et; [discriminate Hnone|].
      f_equal. apply falsy_finite; [|exact Et].
      unfold lastElement in El. apply nth_error_In in El. unfold deltas in El.
      apply in_map_iff in El. destruct El as (k & <- & Hk). apply in_seq in Hk.
      pose proof (datedValues_finite ds buys) as Hfin. fold points in Hfin. fold v in Hfin.
      rewrite Forall_forall in Hfin.
      apply nsub_finite; apply Hfin, nth_In; unfold n in Hk; lia.
    + exfalso. unfold lastElement in El. apply nth_error_None in El. lia.
  - intros H2. unfold s', fetchChangeData, tryBody. cbn [dates buy_prices].
    destruct (length ds <? 2)%nat; [now repeat split|].
    replace (length (entriesOf ds buys) <? 2)%nat with true
      by (symmetry; apply Nat.ltb_lt; lia).
    now repeat split.
  - intros H2 prices s0. unfold s0, fetchChangeData, tryBody. cbn [dates].
    replace (length ds <? 2)%nat with true by (symmetry; apply Nat.ltb_lt; lia).
    now repeat split.
Qed.

End DeltaFacts.

Section DeltaScenarios.
Import DailyChange.

(** Four dates, one of them without a price, give the three values 100,
    105 and 120 and the two changes 5 and 15; three dates with one price
    give one value and the no-data state. *)
Lemma daily_deltas_scenario :
  let ds := ["2025-01-01"; "2025-01-02"; "2025-01-03"; "2025-01-04"] in
  let buys := [JNum (ofZ 100); JUndefined; JNum (ofZ 105); JNum (ofZ 120)] in
  let s' :=
    fetchChangeData
      (Resolved (Some {| dates := Some ds; buy_prices := Some buys; sell_prices := None |}))
      initial in
  let ds1 := ["2025-01-01"; "2025-01-02"; "2025-01-03"] in
  let buys1 := [JNum (ofZ 100); JUndefined; JNum NaN] in
  let s1 :=
    fetchChangeData
      (Resolved (Some {| dates := Some ds1; buy_prices := Some buys1; sell_prices := None |}))
      initial in
  (map snd (datedValues ds buys) = [ofZ 100; ofZ 105; ofZ 120] /\
   exists st c,
     stats s' = Some st /\ chartData s' = Some c /\
     data c = [ndiv (ofZ 5) (ofZ 1000000); ndiv (ofZ 15) (ofZ 1000000)] /\
     labels c = [formatDateLabel "2025-01-03"; formatDateLabel "2025-01-04"] /\
     maxGain st = ofZ 15 /\ maxDrop st = ofZ 5 /\ averageChange st = ofZ 10) /\
  (map snd (datedValues ds1 buys1) = [ofZ 100] /\
   stats s1 = None /\ chartData s1 = None /\ error s1 = None).
Proof.
  intros ds buys s' ds1 buys1 s1.
  assert (Hv : map snd (datedValues ds buys) = [ofZ 100; ofZ 105; ofZ 120])
    by reflexivity.
  assert (Hv1 : map snd (datedValues ds1 buys1) = [ofZ 100]) by reflexivity.
  split.
  - split; [exact Hv|].
    assert (H2 : (2 <= length (map snd (datedValues ds buys)))%nat)
      by (rewrite Hv; simpl; lia).
    destruct (proj1 (daily_deltas ds buys None initial) H2)
      as (st & c & Hst & Hc & _ & Hl & Hnth & Hlab & Hmax & Hmin & Havg & _).
    exists st, c. split; [exact Hst|]. split; [exact Hc|].
    split.
    { apply (nth_ext _ _ NaN NaN); [exact Hl|].
      intros k Hk. rewrite Hl in Hk. rewrite (Hnth k Hk).
      do 2 (destruct k as [|k]; [num_decide|]).
      simpl in Hk. exfalso. lia. }
    split; [exact Hlab|].
    split; [rewrite Hmax; num_decide|].
    split; [rewrite Hmin; num_decide|].
    rewrite Havg. num_decide.
  - split; [exact Hv1|].
    assert (H1 : (length (map snd (datedValues ds1 buys1)) < 2)%nat)
      by (rewrite Hv1; simpl; lia).
    destruct (proj1 (proj2 (daily_deltas ds1 buys1 None initial)) H1)
      as (Hst & Hc & He & _).
    split; [exact Hst|]. split; [exact Hc|exact He].
Defined.

(** C7 at its failing input: two equal buy prices give the single change
    0, and the summary reports [null] as the latest change. *)
Lemma latest_change_zero_dropped :
  let ds := ["2025-01-01"; "2025-01-02"] in
  let buys := [JNum (ofZ 100); JNum (ofZ 100)] in
  let s' :=
    fetchChangeData
      (Resolved (Some {| dates := Some ds; buy_prices := Some buys; sell_prices := None |}))
      initial in
  fst (changesLoop (entriesOf ds buys)) = [zero] /\
  lastElement (fst (changesLoop (entriesOf ds buys))) = Some zero /\
  stats s' = Some (summarize (fst (changesLoop (entriesOf ds buys)))) /\
  latestChange (summarize (fst (changesLoop (entriesOf ds buys)))) = None.
Proof.
  intros ds buys s'.
  assert (Hc : fst (changesLoop (entriesOf ds buys)) = [zero]).
  { apply (nth_ext _ _ NaN NaN); [reflexivity|].
    intros k Hk. destruct k as [|k]; [num_decide|].
    simpl in Hk. exfalso. lia. }
  split; [exact Hc|]. split; [now rewrite Hc|]. split; [reflexivity|].
  now rewrite Hc.
Qed.

End DeltaScenarios.

(** ** SpreadEngine *)

Section SpreadFacts.
Context `{Host}.
Import SpreadTrend.

Lemma combinedOf_cons (d : string) (ds : list string) (b s : jsval)
      (buys sells : list jsval) :
  combinedOf (d :: ds) (b :: buys) (s :: sells) =
  (if isFinite (toNumber b) && isFinite (toNumber s)
   then [{| date := d; spread := nsub (toNumber s) (toNumber b) |}]
   else [])
  ++ combinedOf ds buys sells.
Proof.
  unfold combinedOf. rewrite mapi_cons. cbn [at_index nth].
  destruct (isFinite (toNumber b)), (isFinite (toNumber s)); reflexivity.
Qed.

(** Price points with finite prices all survive, in the order of the
    payload. *)
Lemma combinedOf_points (points : list PricePoint) :
  Forall (fun p => finitePoint p = true) points ->
  combinedOf (map pdate points)
             (map (fun p => JNum (pbuy p)) points)
             (map (fun p => JNum (psell p)) points)
  = map (fun p => {| date := pdate p; spread := nsub (psell p) (pbuy p) |}) points.
Proof.
  induction 1 as [|p r Hp Hr IH]; [reflexivity|].
  cbn [map]. rewrite combinedOf_cons, IH. cbn [toNumber].
  unfold finitePoint in Hp. now rewrite Hp.
Qed.

Lemma spread_finite (p : PricePoint) :
  finitePoint p = true -> finite (nsub (psell p) (pbuy p)).
Proof.
  unfold finitePoint. destruct (pbuy p), (psell p); try discriminate. reflexivity.
Qed.

Lemma spread_negative (p : PricePoint) :
  finitePoint p = true -> nltb (psell p) (pbuy p) = true ->
  nltb (nsub (psell p) (pbuy p)) zero = true.
Proof.
  unfold finitePoint. destruct (pbuy p), (psell p); try discriminate.
  intros _. apply nsub_negative.
Qed.

(** C8. For price points with finite prices the spread series is as long
    as the input and its entry [k] is [points[k].sell - points[k].buy],
    negative where the market is inverted; and for a non-empty input the
    function writes the series, scaled to millions, to the chart, and a
    summary whose current spread is the last entry, whose maximum and
    minimum are entries of the series that bound it, and whose average is
    its arithmetic mean. *)
Theorem spread_series (points : list PricePoint) (s : state) :
  Forall (fun p => finitePoint p = true) points ->
  let spreads :=
    spreadsOf
      (combinedOf (map pdate points)
                  (map (fun p => JNum (pbuy p)) points)
                  (map (fun p => JNum (psell p)) points)) in
  length spreads = length points /\
  (forall k p, nth_error points k = Some p ->
     nth_error spreads k = Some (nsub (psell p) (pbuy p)) /\
     (nltb (psell p) (pbuy p) = true -> nltb (nsub (psell p) (pbuy p)) zero = true)) /\
  (points <> [] ->
   let s' := fetchSpreadData (Resolved (Some (payloadOf points))) s in
   exists st c,
     stats s' = Some st /\ chartData s' = Some c /\ error s' = None /\
     data c = map (fun value => ndiv value (ofZ 1000000)) spreads /\
     currentSpread st = lastElement spreads /\
     (exists x, lastElement spreads = Some x) /\
     In (maxSpread st) spreads /\ (forall x, In x spreads -> nle x (maxSpread st)) /\
     In (minSpread st) spreads /\ (forall x, In x spreads -> nle (minSpread st) x) /\
     averageSpread st = mean spreads).
Proof.
  intros Hfin spreads.
  assert (Hsp : spreads = map (fun p => nsub (psell p) (pbuy p)) points).
  { unfold spreads, spreadsOf. rewrite combinedOf_points by assumption.
    now rewrite map_map. }
  assert (Hlen : length spreads = length points) by (rewrite Hsp; apply length_map).
  split; [exact Hlen|]. split.
  - intros k p Hk. split.
    + rewrite Hsp.
      exact (map_nth_error (fun p => nsub (psell p) (pbuy p)) k points Hk).
    + apply spread_negative.
      rewrite Forall_forall in Hfin. apply Hfin. now apply nth_error_In with k.
  - intros Hne s'.
    assert (Hfs : Forall finite spreads).
    { rewrite Hsp. apply Forall_forall. intros x Hx.
      apply in_map_iff in Hx. destruct Hx as (p & <- & Hp).
      apply spread_finite. rewrite Forall_forall in Hfin. now apply Hfin. }
    assert (Hsne : spreads <> []).
    { intros E. rewrite E in Hlen. destruct points; [contradiction|discriminate]. }
    set (combined := combinedOf (map pdate points)
                                (map (fun p => JNum (pbuy p)) points)
                                (map (fun p => JNum (psell p)) points)) in *.
    assert (Hs' : s' =
                  s |> setLoading true |> setError None
                    |> setStats (Some (summarize combined spreads))
                    |> setChartData (Some (chartOf combined spreads))
                    |> setLoading false).
    { unfold s', fetchSpreadData, tryBody, payloadOf. cbn [dates buy_prices sell_prices].
      destruct points as [|p r]; [contradiction|]. cbn [map].
      fold (map pdate r) (map (fun p => JNum (pbuy p)) r) (map (fun p => JNum (psell p)) r).
      change (combinedOf (pdate p :: map pdate r)
                (JNum (pbuy p) :: map (fun p => JNum (pbuy p)) r)
                (JNum (psell p) :: map (fun p => JNum (psell p)) r)) with combined.
      replace (length combined =? 0)%nat with false; [reflexivity|].
      symmetry. apply Nat.eqb_neq. unfold spreads, spreadsOf in Hlen.
      rewrite length_map in Hlen. rewrite Hlen. discriminate. }
    exists (summarize combined spreads), (chartOf combined spreads).
    rewrite Hs'. split; [reflexivity|]. split; [reflexivity|]. split; [reflexivity|].
    split; [reflexivity|]. split; [reflexivity|].
    destruct (mathMax_spec spreads Hsne Hfs) as [Hmi Hmu].
    destruct (mathMin_spec spreads Hsne Hfs) as [Hni Hnl].
    split.
    { unfold lastElement.
      destruct (nth_error spreads (length spreads - 1)) as [x|] eqn:E; [now exists x|].
      apply nth_error_None in E. destruct spreads; [contradiction|simpl in E; lia]. }
    cbn [maxSpread minSpread averageSpread summarize].
    repeat split; try assumption.
    unfold mean. now rewrite reduce_total.
Qed.

End SpreadFacts.

Section SpreadScenarios.
Import SpreadTrend.

(** An inverted first day gives the spreads -10 and 10, and -10 is the
    minimum of the summary. *)
Lemma spread_series_scenario :
  let spreads :=
    spreadsOf
      (combinedOf (map pdate invertedMarket)
                  (map (fun p => JNum (pbuy p)) invertedMarket)
                  (map (fun p => JNum (psell p)) invertedMarket)) in
  let s' := fetchSpreadData (Resolved (Some (payloadOf invertedMarket))) initial in
  (Forall (fun p => finitePoint p = true) invertedMarket /\ invertedMarket <> []) /\
  length spreads = 2%nat /\
  nth_error spreads 0 = Some (ofZ (-10)) /\
  nltb (ofZ (-10)) zero = true /\
  exists st, stats s' = Some st /\ minSpread st = ofZ (-10).
Proof.
  intros spreads s'.
  assert (Hfin : Forall (fun p => finitePoint p = true) invertedMarket)
    by (repeat constructor).
  assert (Hne : invertedMarket <> []) by closed_neq.
  split; [split; assumption|].
  destruct (spread_series invertedMarket initial Hfin) as (Hlen & Hnth & Hsum).
  fold spreads in Hlen, Hnth, Hsum.
  destruct (Hnth 0%nat _ eq_refl) as [H0 Hneg].
  destruct (Hsum Hne) as (st & c & Hst & _ & _ & _ & _ & _ & _ & _ & Hmin & Hlow & _).
  fold s' in Hst.
  assert (E0 : nsub (ofZ 100) (ofZ 110) = ofZ (-10)) by num_decide.
  split; [exact Hlen|]. split; [now rewrite H0; f_equal|].
  split; [now rewrite <- E0; apply Hneg|].
  exists st. split; [exact Hst|].
  assert (Hin : In (ofZ (-10)) spreads).
  { apply nth_error_In with 0%nat. now rewrite H0; f_equal. }
  pose proof (Hlow _ Hin) as Hle.
  assert (Hcases : minSpread st = ofZ (-10) \/ minSpread st = ofZ 10).
  { assert (Hs : spreads = [nsub (ofZ 100) (ofZ 110); nsub (ofZ 110) (ofZ 100)])
      by reflexivity.
    rewrite Hs in Hmin. destruct Hmin as [E|[E|[]]]; [left|right]; rewrite <- E; num_decide. }
  destruct Hcases as [E|E]; [exact E|].
  rewrite E in Hle. vm_compute in Hle. discriminate Hle.
Defined.

End SpreadScenarios.

(** ** Sorting by a numeric key *)

Lemma gt_zero_Fin (a b : Qc) :
  ngtb (nsub (Fin a) (Fin b)) zero = true <-> (b < a)%Qc.
Proof.
  rewrite nsub_Fin. unfold ngtb, zero, ofZ. rewrite nltb_Fin.
  change (Q2Qc (inject_Z 0)) with (Q2Qc 0). symmetry. apply Qclt_minus_iff.
Qed.

Lemma not_gt_zero_Fin (a b : Qc) :
  ngtb (nsub (Fin a) (Fin b)) zero = false -> (a <= b)%Qc.
Proof.
  intros E. apply Qcnot_lt_le. intros Hlt.
  apply gt_zero_Fin in Hlt. rewrite Hlt in E. discriminate E.
Qed.

Lemma not_gt_zero_self (k : num) : ngtb (nsub k k) zero = false.
Proof.
  destruct k as [a| | |]; try reflexivity.
  destruct (ngtb (nsub (Fin a) (Fin a)) zero) eqn:E; [|reflexivity].
  apply gt_zero_Fin in E. exfalso. revert E. apply Qcle_not_lt, Qcle_refl.
Qed.

Section KeySort.
Context {A : Type} (key : A -> num).

Lemma insertBy_sorted (x : A) (l : list A) :
  finite (key x) -> Forall (fun e => finite (key e)) l ->
  StronglySorted (ascendingBy key) l ->
  StronglySorted (ascendingBy key) (insertBy (keyCompare key) x l).
Proof.
  intros Hx Hl Hs. induction Hs as [|y r Hr IH Hy].
  - simpl. constructor; constructor.
  - inversion Hl as [|y' r' Hfy Hfr]; subst. cbn [insertBy].
    destruct (key x) as [a| | |] eqn:Ex; try discriminate Hx.
    destruct (key y) as [b| | |] eqn:Ey; try discriminate Hfy.
    destruct (ngtb (keyCompare key x y) zero) eqn:Hgt;
      unfold keyCompare in Hgt; rewrite Ex, Ey in Hgt.
    + apply gt_zero_Fin in Hgt. constructor; [now apply IH|].
      apply (Permutation_Forall (Permutation_sym (insertBy_perm (keyCompare key) x r))).
      constructor; [|assumption].
      unfold ascendingBy. rewrite Ex, Ey. now apply nle_Fin, Qclt_le_weak.
    + apply not_gt_zero_Fin in Hgt. constructor; [now constructor|].
      constructor.
      * unfold ascendingBy. rewrite Ex, Ey. now apply nle_Fin.
      * rewrite Forall_forall in Hy, Hfr |- *. intros z Hz.
        specialize (Hy z Hz). specialize (Hfr z Hz).
        unfold ascendingBy in Hy |- *. rewrite Ex. rewrite Ey in Hy.
        destruct (key z) as [c| | |]; try discriminate Hfr.
        apply nle_Fin. apply nle_Fin in Hy. now apply Qcle_trans with b.
Qed.

(** With finite keys the sort leaves the keys in ascending order. *)
Lemma sortBy_sorted (l : list A) :
  Forall (fun e => finite (key e)) l ->
  StronglySorted (ascendingBy key) (sortBy (keyCompare key) l).
Proof.
  induction 1 as [|x r Hx Hr IH]; [constructor|].
  cbn [sortBy fold_right]. apply insertBy_sorted; [assumption| |exact IH].
  now apply (Permutation_Forall (Permutation_sym (sortBy_perm (keyCompare key) r))).
Qed.

Lemma insertBy_stable (d : num) (x : A) (l : list A) :
  filter (hasKey key d) (insertBy (keyCompare key) x l)
  = filter (hasKey key d) (x :: l).
Proof.
  induction l as [|y r IH]; [reflexivity|]. cbn [insertBy].
  destruct (ngtb (keyCompare key x y) zero) eqn:Hgt; [|reflexivity].
  cbn [filter] in IH |- *. rewrite IH.
  destruct (hasKey key d x) eqn:Px, (hasKey key d y) eqn:Py; try reflexivity.
  unfold hasKey in Px, Py. apply num_eqb_eq in Px, Py.
  unfold keyCompare in Hgt. rewrite Px, Py, not_gt_zero_self in Hgt. discriminate Hgt.
Qed.

(** The sort is stable: the elements of one key keep their order. *)
Lemma sortBy_stable (d : num) (l : list A) :
  filter (hasKey key d) (sortBy (keyCompare key) l) = filter (hasKey key d) l.
Proof.
  induction l as [|x r IH]; [reflexivity|].
  cbn [sortBy fold_right]. rewrite insertBy_stable. cbn [filter].
  fold (sortBy (keyCompare key) r). now rewrite IH.
Qed.

End KeySort.

(** ** TimeSeriesNormalizer of the return chart *)

Section NormalizerFacts.
Context `{Host}.
Import CumulativeReturn.

Lemma mapi_seq {A B : Type} (d : A) (l : list A) :
  forall (f : A -> nat -> B),
    mapi f l = map (fun k => f (nth k l d) k) (seq 0 (length l)).
Proof.
  induction l as [|x r IH]; intros f; [reflexivity|].
  rewrite mapi_cons, IH. cbn [length seq map nth].
  now rewrite (seq_from_one (fun k => f (nth k (x :: r) d) k)).
Qed.

Lemma filterBoolean_none {A : Type} (l : list (option A)) :
  (forall o, In o l -> o = None) -> filterBoolean l = [].
Proof.
  induction l as [|o r IH]; intros Hall; [reflexivity|].
  rewrite (Hall o (or_introl eq_refl)). simpl. apply IH.
  intros o' Ho'. apply Hall. now right.
Qed.

Lemma survivors_no_buys (t : trends) : buy_prices t = None -> survivors t = [].
Proof.
  intros Hb. unfold survivors. destruct (dates t) as [ds|]; [|reflexivity].
  apply filterBoolean_none. intros o Ho. apply in_map_iff in Ho.
  destruct Ho as (k & <- & _). unfold pointAt. now rewrite Hb.
Qed.

(** The array the callback builds holds the surviving points in the index
    order of the payload. *)
Lemma processedEntries_survivors (t : trends) (pe : option (list entry)) :
  processedEntries t = Done pe ->
  match pe with
  | Some l => l = survivors t
  | None => survivors t = []
  end.
Proof.
  unfold processedEntries, survivors.
  destruct (dates t) as [ds|] eqn:Ed; [|now intros [= <-]].
  destruct ds as [|d ds']; [now intros [= <-]|].
  destruct (buy_prices t) as [buys|] eqn:Eb; [|discriminate].
  intros E.
  apply (f_equal (fun a => match a with Done x => x | Threw => None end)) in E.
  cbv beta iota in E. subst pe.
  rewrite (mapi_seq ""). f_equal. apply map_ext. intros k.
  unfold pointAt, at_index. rewrite Eb.
  destruct (sell_prices t) as [sells|];
    destruct (isFinite (toNumber (nth k buys JUndefined))), (isFinite (toNumber _));
    reflexivity.
Qed.

(** What [fetchData] stores: the surviving points, sorted by date with
    the model's sort. *)
Lemma fetchData_entries (t : trends) (s : state) :
  entries (fetchData (Resolved (Some t)) s) = sortBy dateCompare (survivors t).
Proof.
  unfold fetchData, tryBody.
  destruct (processedEntries t) as [|pe] eqn:Ep.
  - rewrite survivors_no_buys; [reflexivity|].
    unfold processedEntries in Ep. destruct (dates t) as [[|d ds]|]; try discriminate Ep.
    now destruct (buy_prices t).
  - pose proof (processedEntries_survivors t pe Ep) as Hpe.
    destruct pe as [[|e l]|].
    + transitivity (sortBy dateCompare (@nil entry)); [reflexivity|now rewrite <- Hpe].
    + rewrite <- Hpe. reflexivity.
    + rewrite Hpe. reflexivity.
Qed.

(** C9, as the code has it.  The entries [fetchData] stores are a
    permutation of the surviving points.  When the dates of the surviving
    points are all valid, so that the comparator is a consistent order,
    the stored dates ascend, points of one date keep their index order,
    and the entries are the surviving points in index order when every
    point is in date order with its successor.  (With an invalid date the
    comparator returns [NaN] and the order is left to the engine; nothing
    is stated about it.) *)
Theorem normalizer_orders_by_date (t : trends) (s : state) :
  let out := entries (fetchData (Resolved (Some t)) s) in
  Permutation out (survivors t) /\
  (Forall (fun e => finite (dateTime (date e))) (survivors t) ->
   StronglySorted (fun a b => nle (dateTime (date a)) (dateTime (date b))) out /\
   (forall d,
      filter (fun e => num_eqb (dateTime (date e)) d) out
      = filter (fun e => num_eqb (dateTime (date e)) d) (survivors t)) /\
   ((forall i a b, nth_error (survivors t) i = Some a ->
                   nth_error (survivors t) (S i) = Some b -> inDateOrder a b) ->
    out = survivors t)).
Proof.
  intros out. unfold out. rewrite fetchData_entries. split.
  - apply sortBy_perm.
  - intros Hvalid. split; [|split].
    + exact (sortBy_sorted (fun e => dateTime (date e)) _ Hvalid).
    + intros d. exact (sortBy_stable (fun e => dateTime (date e)) d _).
    + intros Hadj. apply sortBy_fixed. exact Hadj.
Qed.

End NormalizerFacts.

Section NormalizerScenarios.
Import CumulativeReturn.

(** C9, as the specification states it, fails: for two dates that
    descend in the payload the stored entries are in date order, not in
    index order. *)
Lemma descending_payload_is_resorted :
  map date (survivors descendingPayload) = ["2025-01-02"; "2025-01-01"] /\
  map date (entries (fetchData (Resolved (Some descendingPayload)) initial))
  = ["2025-01-01"; "2025-01-02"] /\
  entries (fetchData (Resolved (Some descendingPayload)) initial)
  <> survivors descendingPayload.
Proof.
  split; [reflexivity|]. split; [reflexivity|].
  intros E. apply (f_equal (map date)) in E. vm_compute in E. discriminate E.
Qed.

(** A payload with ascending dates, a [null] buy price and a sell price
    that is no number: the two surviving points are stored in index
    order. *)
Lemma normalizer_ascending_scenario :
  let out := entries (fetchData (Resolved (Some ascendingPayload)) initial) in
  (Forall (fun e => finite (dateTime (date e))) (survivors ascendingPayload) /\
   (forall i a b, nth_error (survivors ascendingPayload) i = Some a ->
                  nth_error (survivors ascendingPayload) (S i) = Some b ->
                  inDateOrder a b)) /\
  map date (survivors ascendingPayload) = ["2025-01-01"; "2025-01-02"] /\
  out = survivors ascendingPayload /\
  StronglySorted (fun a b => nle (dateTime (date a)) (dateTime (date b))) out.
Proof.
  intros out.
  assert (Hvalid : Forall (fun e => finite (dateTime (date e)))
                          (survivors ascendingPayload))
    by (repeat constructor).
  assert (Hadj : forall i a b, nth_error (survivors ascendingPayload) i = Some a ->
                   nth_error (survivors ascendingPayload) (S i) = Some b ->
                   inDateOrder a b).
  { intros i a b Ha Hb. destruct i as [|[|i]].
    - injection Ha as <-. injection Hb as <-. reflexivity.
    - discriminate Hb.
    - destruct i; discriminate Ha. }
  split; [split; assumption|]. split; [reflexivity|].
  destruct (proj2 (normalizer_orders_by_date ascendingPayload initial) Hvalid)
    as (Hsorted & _ & Hfixed).
  split; [exact (Hfixed Hadj)|exact Hsorted].
Defined.

End NormalizerScenarios.

(** ** The mean of finite numbers *)

Lemma finite_list (l : list num) : Forall finite l -> exists ql, l = map Fin ql.
Proof.
  induction 1 as [|x r Hx Hr (ql & ->)]; [now exists []|].
  destruct x as [q| | |]; try discriminate Hx. now exists (q :: ql).
Qed.

Lemma total_Fin (ql : list Qc) : total (map Fin ql) = Fin (qsum ql).
Proof.
  induction ql as [|x r IH]; [reflexivity|]. cbn [map total qsum]. now rewrite IH.
Qed.

Lemma countQ_succ (n : nat) : countQ (S n) = (Q2Qc 1 + countQ n)%Qc.
Proof.
  unfold countQ, Qcplus. apply Q2Qc_eq_iff. cbn [this Q2Qc].
  rewrite !Qred_correct, Nat2Z.inj_succ. unfold Z.succ.
  rewrite inject_Z_plus. change (inject_Z 1) with 1%Q. ring.
Qed.

Lemma countQ_pos (n : nat) : (0 < n)%nat -> (Q2Qc 0 < countQ n)%Qc.
Proof.
  intros Hn. unfold countQ, Qclt. cbn [this Q2Qc]. rewrite !Qred_correct.
  unfold Qlt. simpl. lia.
Qed.

Lemma countQ_sgn (n : nat) : (0 < n)%nat -> sgn (countQ n) = Gt.
Proof. intros Hn. unfold sgn. now apply Qcgt_alt, countQ_pos. Qed.

Lemma qsum_upper (hi : Qc) (ql : list Qc) :
  (forall x, In x ql -> (x <= hi)%Qc) -> (qsum ql <= hi * countQ (length ql))%Qc.
Proof.
  induction ql as [|x r IH]; intros Hb.
  - cbn [qsum length]. replace (hi * countQ 0)%Qc with (Q2Qc 0).
    + apply Qcle_refl.
    + change (countQ 0) with (Q2Qc 0). now rewrite Qcmult_0_r.
  - cbn [qsum length]. rewrite countQ_succ, Qcmult_plus_distr_r, Qcmult_1_r.
    apply Qcplus_le_compat; [apply Hb; now left|].
    apply IH. intros y Hy. apply Hb. now right.
Qed.

Lemma qsum_lower (lo : Qc) (ql : list Qc) :
  (forall x, In x ql -> (lo <= x)%Qc) -> (lo * countQ (length ql) <= qsum ql)%Qc.
Proof.
  induction ql as [|x r IH]; intros Hb.
  - cbn [qsum length]. replace (lo * countQ 0)%Qc with (Q2Qc 0).
    + apply Qcle_refl.
    + change (countQ 0) with (Q2Qc 0). now rewrite Qcmult_0_r.
  - cbn [qsum length]. rewrite countQ_succ, Qcmult_plus_distr_r, Qcmult_1_r.
    apply Qcplus_le_compat; [apply Hb; now left|].
    apply IH. intros y Hy. apply Hb. now right.
Qed.

Lemma mean_Fin (ql : list Qc) :
  ql <> [] -> mean (map Fin ql) = Fin (qsum ql / countQ (length ql))%Qc.
Proof.
  intros Hne. unfold mean. rewrite total_Fin, length_map.
  change (ofNat (length ql)) with (Fin (countQ (length ql))).
  unfold ndiv. rewrite countQ_sgn; [reflexivity|].
  destruct ql; [contradiction|simpl; lia].
Qed.

Lemma qmean_bounds (lo hi : Qc) (ql : list Qc) :
  ql <> [] -> (forall x, In x ql -> (lo <= x)%Qc /\ (x <= hi)%Qc) ->
  (lo <= qsum ql / countQ (length ql))%Qc /\ (qsum ql / countQ (length ql) <= hi)%Qc.
Proof.
  intros Hne Hb.
  assert (Hn : (0 < length ql)%nat) by (destruct ql; [contradiction|simpl; lia]).
  pose proof (countQ_pos _ Hn) as Hpos.
  assert (Hnz : countQ (length ql) <> Q2Qc 0).
  { intros E. rewrite E in Hpos. revert Hpos. apply Qcle_not_lt, Qcle_refl. }
  assert (Hback : (qsum ql / countQ (length ql) * countQ (length ql))%Qc = qsum ql).
  { rewrite Qcmult_comm. now apply Qcmult_div_r. }
  split; apply (Qcmult_lt_0_le_reg_r _ _ (countQ (length ql)) Hpos); rewrite Hback.
  - apply qsum_lower. intros x Hx. now apply Hb.
  - apply qsum_upper. intros x Hx. now apply Hb.
Qed.

(** The mean of a non-empty array of finite numbers is finite and lies
    between any two finite bounds of the array. *)
Lemma mean_between (lo hi : num) (l : list num) :
  l <> [] -> Forall finite l -> finite lo -> finite hi ->
  (forall x, In x l -> nle lo x /\ nle x hi) ->
  finite (mean l) /\ nle lo (mean l) /\ nle (mean l) hi.
Proof.
  intros Hne Hl Hlo Hhi Hb.
  destruct (finite_list l Hl) as (ql & ->).
  destruct lo as [a| | |]; try discriminate Hlo.
  destruct hi as [b| | |]; try discriminate Hhi.
  assert (Hq : ql <> []) by (intros ->; now apply Hne).
  rewrite (mean_Fin ql Hq). split; [reflexivity|].
  rewrite !nle_Fin. apply qmean_bounds; [assumption|].
  intros x Hx. rewrite <- !nle_Fin. apply Hb. now apply in_map.
Qed.

(** ** More on [calculateMovingAverage] *)



(** ** Whole numbers *)


Lemma nsub_ofZ (a b : Z) : nsub (ofZ a) (ofZ b) = ofZ (a - b).
Proof.
  unfold ofZ. rewrite nsub_Fin. f_equal. unfold Qcplus, Qcopp.
  apply Q2Qc_eq_iff. cbn [this Q2Qc].
  rewrite !Qred_correct. unfold Z.sub. now rewrite inject_Z_plus, inject_Z_opp.
Qed.

Lemma wholeWithin_finite (bound : Z) (x : num) : wholeWithin bound x -> finite x.
Proof. intros (z & -> & _). reflexivity. Qed.

Lemma wholeWithin_all_finite (bound : Z) (v : list num) :
  Forall (wholeWithin bound) v -> Forall finite v.
Proof. apply Forall_impl. exact (wholeWithin_finite bound). Qed.

Lemma wholeWithin_nsub (bound : Z) (x y : num) :
  wholeWithin bound x -> wholeWithin bound y -> wholeWithin (2 * bound) (nsub x y).
Proof.
  intros (a & -> & Ha) (b & -> & Hb). exists (a - b).
  split; [apply nsub_ofZ|lia].
Qed.

Lemma wholeWithin_le (b1 b2 : Z) (x : num) :
  b1 <= b2 -> wholeWithin b1 x -> wholeWithin b2 x.
Proof. intros Hle (z & -> & Hz). exists z. split; [reflexivity|lia]. Qed.



(** A window of one gives the input back. *)
Theorem movingAverage_window_one (v : list num) : calculateMovingAverage v 1 = v.
Proof.
  apply (nth_ext _ _ NaN NaN); [apply movingAverage_length|].
  intros i Hi. rewrite movingAverage_length in Hi.
  rewrite movingAverage_nth by (assumption || lia).
  unfold trailing, windowStart.
  replace (Z.to_nat (Z.max 0 (Z.of_nat i - 1 + 1))) with i by lia.
  replace (S i - i)%nat with 1%nat by lia.
  cbn [seq map]. unfold mean. cbn [total length].
  now rewrite nadd_zero_r, ndiv_one.
Qed.

(** A window of zero or less leaves no value to average: every entry of
    the result is [NaN]. *)
Theorem movingAverage_empty_window (v : list num) (w : Z) (i : nat) :
  w <= 0 -> (i < length v)%nat -> nth i (calculateMovingAverage v w) NaN = NaN.
Proof.
  intros Hw Hi. rewrite movingAverage_mapi. unfold mapi.
  rewrite (mapi_from_nth _ _ _ _ _ NaN) by assumption. simpl Nat.add.
  assert (Hs : slice v (Z.max 0 (Z.of_nat i - w + 1)) (Z.of_nat i + 1) = []).
  { unfold slice.
    replace (Z.max 0 (Z.of_nat i - w + 1) <? 0) with false
      by (symmetry; apply Z.ltb_ge; lia).
    replace (Z.of_nat i + 1 <? 0) with false by (symmetry; apply Z.ltb_ge; lia).
    replace (Z.to_nat _) with 0%nat by lia. reflexivity. }
  rewrite Hs. reflexivity.
Qed.


Lemma movingAverage_empty_window_scenario :
  (0 <= 0 /\ (1 < length [ofZ 10; ofZ 20])%nat) /\
  nth 1 (calculateMovingAverage [ofZ 10; ofZ 20] 0) NaN = NaN.
Proof.
  assert (Hw : 0 <= 0) by lia.
  assert (Hi : (1 < length [ofZ 10; ofZ 20])%nat) by (simpl; lia).
  split; [split; assumption|].
  exact (movingAverage_empty_window [ofZ 10; ofZ 20] 0 1 Hw Hi).
Defined.

(** ** What survives [.map(...).filter(Boolean)] *)

Section SurvivorFacts.
Context {A B : Type}.

Lemma filterBoolean_In (l : list (option B)) (y : B) :
  In y (filterBoolean l) <-> In (Some y) l.
Proof.
  induction l as [|o r IH]; [reflexivity|].
  destruct o as [z|]; cbn [filterBoolean In]; rewrite IH; split.
  - intros [->|Hy]; [now left|now right].
  - intros [[= ->]|Hy]; [now left|now right].
  - now right.
  - intros [E|Hy]; [discriminate E|assumption].
Qed.

Lemma filterBoolean_length (l : list (option B)) :
  (length (filterBoolean l) <= length l)%nat.
Proof.
  induction l as [|[z|] r IH]; simpl; lia.
Qed.

Lemma mapi_from_In (f : A -> nat -> B) (l : list A) (y : B) :
  forall i, In y (mapi_from f i l) -> exists x k, In x l /\ y = f x k.
Proof.
  induction l as [|x r IH]; intros i Hy; [contradiction|].
  destruct Hy as [<-|Hy].
  - exists x, i. split; [now left|reflexivity].
  - destruct (IH _ Hy) as (x' & k & Hx' & E). exists x', k. split; [now right|exact E].
Qed.

End SurvivorFacts.

Lemma total_app (l1 l2 : list num) : total (l1 ++ l2) = nadd (total l1) (total l2).
Proof.
  induction l1 as [|x r IH]; cbn [app total].
  - now rewrite nadd_zero_l.
  - now rewrite IH, nadd_assoc.
Qed.

Lemma scaled_finite (x : num) : finite x -> finite (ndiv x (ofZ 1000000)).
Proof. destruct x; try discriminate. reflexivity. Qed.

Lemma finite_not_NaN (x : num) : finite x -> x <> NaN.
Proof. intros Hx ->. discriminate Hx. Qed.

(** ** More on the DeltaEngine *)

Section DeltaMore.
Context `{Host}.
Import DailyChange DailyChangeOutcomes.

Lemma entriesOf_all_finite (ds : list string) (buys : list jsval) :
  Forall (fun e => finite (buy e)) (entriesOf ds buys).
Proof.
  apply Forall_forall. intros e He. unfold entriesOf in He.
  apply filterBoolean_In in He. apply mapi_from_In in He.
  destruct He as (d & k & _ & E).
  destruct (isFinite (toNumber (at_index buys k))) eqn:Ef; cbn [negb] in E;
    [|discriminate E].
  injection E as ->. exact Ef.
Qed.

Lemma entriesOf_length (ds : list string) (buys : list jsval) :
  (length (entriesOf ds buys) <= length ds)%nat.
Proof.
  unfold entriesOf, mapi.
  match goal with
  | |- (length (filterBoolean ?l) <= _)%nat =>
      pose proof (filterBoolean_length l) as Hle
  end.
  now rewrite mapi_from_length in Hle.
Qed.

Lemma changesLoop_labels (entries : list entry) :
  length (snd (changesLoop entries)) = (length entries - 1)%nat.
Proof.
  unfold changesLoop. rewrite changesLoop_fold. cbn [snd app].
  now rewrite length_map, length_seq.
Qed.

Lemma changesLoop_length (entries : list entry) :
  length (fst (changesLoop entries)) = (length entries - 1)%nat.
Proof. rewrite changesLoop_changes. now rewrite length_map, length_seq. Qed.

Lemma changesLoop_finite (entries : list entry) :
  Forall (fun e => finite (buy e)) entries -> Forall finite (fst (changesLoop entries)).
Proof.
  intros Hfin. rewrite changesLoop_changes. apply Forall_forall. intros x Hx.
  apply in_map_iff in Hx. destruct Hx as (k & <- & Hk). apply in_seq in Hk.
  assert (Hb : forall j, (j < length entries)%nat ->
                         finite (nth j (map buy entries) NaN)).
  { intros j Hj. change NaN with (buy noEntry). rewrite map_nth.
    rewrite Forall_forall in Hfin. apply Hfin, nth_In, Hj. }
  pose proof (Hb k ltac:(lia)) as Hk0. pose proof (Hb (S k) ltac:(lia)) as Hk1.
  destruct (nth k (map buy entries) NaN); try discriminate Hk0.
  destruct (nth (S k) (map buy entries) NaN); try discriminate Hk1.
  reflexivity.
Qed.

(** The three states [fetchChangeData] can leave. *)
Lemma fetchChangeData_cases (r : response) (s : state) :
  (fetchChangeData r s = failed s /\
   (r = Rejected \/
    exists t ds, r = Resolved (Some t) /\ dates t = Some ds /\
                 (2 <= length ds)%nat /\ buy_prices t = None)) \/
  (fetchChangeData r s = cleared s /\ r <> Rejected) \/
  (exists t ds buys,
     r = Resolved (Some t) /\ dates t = Some ds /\ buy_prices t = Some buys /\
     (2 <= length (entriesOf ds buys))%nat /\
     fetchChangeData r s
     = charted (fst (changesLoop (entriesOf ds buys)))
               (snd (changesLoop (entriesOf ds buys))) s).
Proof.
  unfold fetchChangeData, tryBody.
  destruct r as [|[t|]]; [left; split; [reflexivity|now left]| |].
  2:{ right; left. split; [reflexivity|discriminate]. }
  destruct (dates t) as [ds|] eqn:Ed.
  2:{ right; left. split; [reflexivity|discriminate]. }
  destruct (length ds <? 2)%nat eqn:El.
  { right; left. split; [reflexivity|discriminate]. }
  apply Nat.ltb_ge in El.
  destruct (buy_prices t) as [buys|] eqn:Eb.
  2:{ left. split; [reflexivity|]. right. now exists t, ds. }
  destruct (length (entriesOf ds buys) <? 2)%nat eqn:Ee.
  { right; left. split; [reflexivity|discriminate]. }
  apply Nat.ltb_ge in Ee. right; right. exists t, ds, buys.
  repeat split; try assumption.
  now destruct (changesLoop (entriesOf ds buys)).
Qed.

(** For every response, [fetchChangeData] ends with [loading] off and
    writes the chart and the summary together or clears both; a chart it
    writes has at least one bar, as many labels and colours as bars, and
    no bar that is [NaN]; and no error is set beside it. *)
Theorem fetchChangeData_consistent (r : response) (s : state) :
  let s' := fetchChangeData r s in
  loading s' = false /\
  ((chartData s' = None /\ stats s' = None) \/
   (exists c st,
      chartData s' = Some c /\ stats s' = Some st /\ error s' = None /\
      (1 <= length (data c))%nat /\
      length (labels c) = length (data c) /\
      length (backgroundColor c) = length (data c) /\
      length (borderColor c) = length (data c) /\
      Forall (fun x => x <> NaN) (data c))).
Proof.
  intros s'. unfold s'.
  destruct (fetchChangeData_cases r s)
    as [[-> _]|[[-> _]|(t & ds & buys & _ & _ & _ & Hn & ->)]].
  - split; [reflexivity|left; now split].
  - split; [reflexivity|left; now split].
  - split; [reflexivity|right].
    eexists _, _. split; [reflexivity|]. split; [reflexivity|]. split; [reflexivity|].
    cbn [data labels backgroundColor borderColor chartOf].
    rewrite !length_map, changesLoop_labels, changesLoop_length.
    repeat split; try lia.
    apply Forall_forall. intros x Hx. apply in_map_iff in Hx.
    destruct Hx as (y & <- & Hy). apply finite_not_NaN, scaled_finite.
    pose proof (changesLoop_finite _ (entriesOf_all_finite ds buys)) as Hf.
    rewrite Forall_forall in Hf. now apply Hf.
Qed.

Lemma fetchChangeData_failed (r : response) (s : state) :
  r = Rejected \/
  (exists t ds, r = Resolved (Some t) /\ dates t = Some ds /\
                (2 <= length ds)%nat /\ buy_prices t = None) ->
  fetchChangeData r s = failed s.
Proof.
  intros [->|(t & ds & -> & Hd & Hl & Hb)]; [reflexivity|].
  unfold fetchChangeData, tryBody. rewrite Hd, Hb.
  replace (length ds <? 2)%nat with false by (symmetry; apply Nat.ltb_ge; lia).
  reflexivity.
Qed.

(** [fetchChangeData] sets its error message exactly when the request is
    rejected or the payload has two or more dates and no [buy_prices];
    in every other case it leaves no error, whatever error was there. *)
Theorem fetchChangeData_error (r : response) (s : state) :
  (error (fetchChangeData r s) = Some loadFailed <->
   r = Rejected \/
   exists t ds, r = Resolved (Some t) /\ dates t = Some ds /\
                (2 <= length ds)%nat /\ buy_prices t = None) /\
  (error (fetchChangeData r s) = Some loadFailed \/ error (fetchChangeData r s) = None).
Proof.
  assert (Hback : r = Rejected \/
                  (exists t ds, r = Resolved (Some t) /\ dates t = Some ds /\
                                (2 <= length ds)%nat /\ buy_prices t = None) ->
                  error (fetchChangeData r s) = Some loadFailed).
  { intros Hr. now rewrite (fetchChangeData_failed r s Hr). }
  split; [split; [|exact Hback]|].
  - destruct (fetchChangeData_cases r s)
      as [[_ Hr]|[[E _]|(t & ds & buys & _ & _ & _ & _ & E)]];
      [intros _; exact Hr| |]; rewrite E; discriminate.
  - destruct (fetchChangeData_cases r s)
      as [[E _]|[[E _]|(t & ds & buys & _ & _ & _ & _ & E)]]; rewrite E;
      [now left|now right|now right].
Qed.

Lemma fetchChangeData_finite (ds : list string) (v : list num)
      (sells : option (list jsval)) (s : state) :
  length ds = length v -> Forall finite v -> (2 <= length v)%nat ->
  exists changeLabels,
    fetchChangeData
      (Resolved
         (Some {| dates := Some ds; buy_prices := Some (map JNum v); sell_prices := sells |}))
      s
    = charted
        (map (fun k => nsub (nth (S k) v NaN) (nth k v NaN)) (seq 0 (length v - 1)))
        changeLabels s.
Proof.
  intros Hlen Hv H2.
  destruct (entriesOf_finite v ds Hlen Hv) as [Hbuy _].
  assert (Hn : length (entriesOf ds (map JNum v)) = length v).
  { rewrite <- Hbuy at 2. now rewrite length_map. }
  exists (snd (changesLoop (entriesOf ds (map JNum v)))).
  transitivity (charted (fst (changesLoop (entriesOf ds (map JNum v))))
                        (snd (changesLoop (entriesOf ds (map JNum v)))) s).
  - unfold fetchChangeData, tryBody. cbn [dates buy_prices].
    replace (length ds <? 2)%nat with false by (symmetry; apply Nat.ltb_ge; lia).
    replace (length (entriesOf ds (map JNum v)) <? 2)%nat with false
      by (symmetry; apply Nat.ltb_ge; lia).
    now destruct (changesLoop (entriesOf ds (map JNum v))).
  - now rewrite changesLoop_changes, Hbuy, Hn.
Qed.

(** The changes telescope. *)
Lemma changes_telescope (ql : list Qc) (m : nat) :
  (m < length ql)%nat ->
  total (map (fun k => nsub (nth (S k) (map Fin ql) NaN) (nth k (map Fin ql) NaN))
             (seq 0 m))
  = nsub (nth m (map Fin ql) NaN) (nth 0 (map Fin ql) NaN).
Proof.
  assert (Hnth : forall j, (j < length ql)%nat ->
                   nth j (map Fin ql) NaN = Fin (nth j ql (Q2Qc 0))).
  { intros j Hj. rewrite (nth_indep _ NaN (Fin (Q2Qc 0))) by now rewrite length_map.
    apply (map_nth Fin). }
  induction m as [|m IH]; intros Hm.
  - cbn [seq map total]. rewrite Hnth by assumption. rewrite nsub_Fin.
    unfold zero, ofZ. f_equal. symmetry. apply Qcplus_opp_r.
  - rewrite seq_S, map_app, total_app, IH by lia. cbn [map total Nat.add].
    rewrite nadd_zero_r, !Hnth by lia. rewrite !nsub_Fin. unfold nadd.
    f_equal. ring.
Qed.

(** For [n >= 2] whole-number buy prices whose differences stay within
    [exactLimit], the average change of the summary is the net change
    [v[n-1] - v[0]], a whole number within [exactLimit], divided by the
    number of steps.  (On such prices the changes and their running sum
    are exact; with fractions the rounded sum of the changes can differ
    from the net change in the last place.) *)
Theorem average_change_is_net_change (ds : list string) (v : list num)
        (sells : option (list jsval)) (s : state) (bound : Z) :
  length ds = length v -> Forall (wholeWithin bound) v ->
  2 * bound <= exactLimit -> (2 <= length v)%nat ->
  exists st,
    stats
      (fetchChangeData
         (Resolved
            (Some {| dates := Some ds; buy_prices := Some (map JNum v);
                     sell_prices := sells |}))
         s)
    = Some st /\
    averageChange st
    = ndiv (nsub (nth (length v - 1) v NaN) (nth 0 v NaN)) (ofNat (length v - 1)) /\
    wholeWithin exactLimit (nsub (nth (length v - 1) v NaN) (nth 0 v NaN)).
Proof.
  intros Hlen Hwhole Hlim H2. apply wholeWithin_all_finite in Hwhole as Hv.
  destruct (fetchChangeData_finite ds v sells s Hlen Hv H2) as (changeLabels & ->).
  eexists. split; [reflexivity|].
  cbn [averageChange summarize stats charted].
  rewrite reduce_total, length_map, length_seq.
  split.
  - destruct (finite_list v Hv) as (ql & ->). rewrite length_map in *.
    now rewrite changes_telescope by lia.
  - rewrite Forall_forall in Hwhole.
    apply (wholeWithin_le (2 * bound)); [exact Hlim|].
    apply wholeWithin_nsub; apply Hwhole, nth_In; lia.
Qed.

(** For [n >= 2] whole-number buy prices whose differences stay within
    [exactLimit], the largest drop and the largest gain of the summary
    are changes of the sequence, every change is a whole number within
    [exactLimit], and the average change lies between the largest drop
    and the largest gain.  (On such prices the running sum of the
    changes is exact and the division that follows is monotone; with
    fractions the rounded sum can carry the average past the largest gain
    in the last place.) *)
Theorem average_change_between_extremes (ds : list string) (v : list num)
        (sells : option (list jsval)) (s : state) (bound : Z) :
  length ds = length v -> Forall (wholeWithin bound) v ->
  2 * bound <= exactLimit -> (2 <= length v)%nat ->
  let changes :=
    map (fun k => nsub (nth (S k) v NaN) (nth k v NaN)) (seq 0 (length v - 1)) in
  exists st,
    stats
      (fetchChangeData
         (Resolved
            (Some {| dates := Some ds; buy_prices := Some (map JNum v);
                     sell_prices := sells |}))
         s)
    = Some st /\
    Forall (wholeWithin exactLimit) changes /\
    In (maxDrop st) changes /\ In (maxGain st) changes /\
    nle (maxDrop st) (averageChange st) /\ nle (averageChange st) (maxGain st).
Proof.
  intros Hlen Hwhole Hlim H2 changes. apply wholeWithin_all_finite in Hwhole as Hv.
  destruct (fetchChangeData_finite ds v sells s Hlen Hv H2) as (changeLabels & ->).
  fold changes. eexists. split; [reflexivity|].
  cbn [averageChange maxDrop maxGain summarize stats charted].
  split.
  { apply Forall_forall. intros x Hx. unfold changes in Hx.
    apply in_map_iff in Hx. destruct Hx as (k & <- & Hk). apply in_seq in Hk.
    rewrite Forall_forall in Hwhole.
    apply (wholeWithin_le (2 * bound)); [exact Hlim|].
    apply wholeWithin_nsub; apply Hwhole, nth_In; lia. }
  assert (Hne : changes <> []).
  { intros E. apply (f_equal (@length num)) in E. unfold changes in E.
    rewrite length_map, length_seq in E. simpl in E. lia. }
  assert (Hfin : Forall finite changes).
  { destruct (finite_list v Hv) as (ql & Eq). apply Forall_forall. intros x Hx.
    unfold changes in Hx. apply in_map_iff in Hx. destruct Hx as (k & <- & Hk).
    apply in_seq in Hk. rewrite Eq. rewrite Eq, length_map in Hk.
    rewrite !(nth_indep (map Fin ql) NaN (Fin (Q2Qc 0))) by (rewrite length_map; lia).
    rewrite !(map_nth Fin). reflexivity. }
  destruct (mathMax_spec changes Hne Hfin) as [Hmi Hmu].
  destruct (mathMin_spec changes Hne Hfin) as [Hni Hnl].
  split; [exact Hni|]. split; [exact Hmi|].
  rewrite reduce_total. fold (mean changes).
  rewrite Forall_forall in Hfin.
  apply (mean_between (mathMin changes) (mathMax changes) changes Hne).
  - now apply Forall_forall.
  - now apply Hfin.
  - now apply Hfin.
  - intros x Hx. split; [now apply Hnl|now apply Hmu].
Qed.

End DeltaMore.

(** ** More on the SpreadEngine *)

Lemma lastElement_In {A : Type} (l : list A) :
  l <> [] -> exists x, lastElement l = Some x /\ In x l.
Proof.
  intros Hne. unfold lastElement.
  destruct (nth_error l (length l - 1)) as [x|] eqn:E.
  - exists x. split; [reflexivity|]. now apply nth_error_In with (length l - 1)%nat.
  - apply nth_error_None in E. destruct l; [contradiction|simpl in E; lia].
Qed.

Section SpreadMore.
Context `{Host}.
Import SpreadTrend SpreadTrendOutcomes.

Lemma combinedOf_all_finite (ds : list string) (buys sells : list jsval) :
  Forall (fun e => finite (spread e)) (combinedOf ds buys sells).
Proof.
  apply Forall_forall. intros e He. unfold combinedOf in He.
  apply filterBoolean_In in He. apply mapi_from_In in He.
  destruct He as (d & k & _ & E).
  destruct (toNumber (at_index buys k)) as [b| | |]; cbn [isFinite negb orb] in E;
    try discriminate E.
  destruct (toNumber (at_index sells k)) as [a| | |]; cbn [isFinite negb orb] in E;
    try discriminate E.
  injection E as ->. reflexivity.
Qed.

Lemma spreadsOf_finite (ds : list string) (buys sells : list jsval) :
  Forall finite (spreadsOf (combinedOf ds buys sells)).
Proof.
  unfold spreadsOf. apply Forall_forall. intros x Hx. apply in_map_iff in Hx.
  destruct Hx as (e & <- & He).
  pose proof (combinedOf_all_finite ds buys sells) as Hf.
  rewrite Forall_forall in Hf. now apply Hf.
Qed.

(** The three states [fetchSpreadData] can leave. *)
Lemma fetchSpreadData_cases (r : response) (s : state) :
  (fetchSpreadData r s = failed s /\
   (r = Rejected \/
    exists t ds, r = Resolved (Some t) /\ dates t = Some ds /\ ds <> [] /\
                 (buy_prices t = None \/ sell_prices t = None))) \/
  (fetchSpreadData r s = cleared s /\ r <> Rejected) \/
  (exists t ds buys sells,
     r = Resolved (Some t) /\ dates t = Some ds /\
     buy_prices t = Some buys /\ sell_prices t = Some sells /\
     combinedOf ds buys sells <> [] /\
     fetchSpreadData r s = charted (combinedOf ds buys sells) s).
Proof.
  unfold fetchSpreadData, tryBody.
  destruct r as [|[t|]]; [left; split; [reflexivity|now left]| |].
  2:{ right; left. split; [reflexivity|discriminate]. }
  destruct (dates t) as [[|d ds]|] eqn:Ed.
  1,3: right; left; split; [reflexivity|discriminate].
  destruct (buy_prices t) as [buys|] eqn:Eb.
  2:{ left. split; [reflexivity|]. right. exists t, (d :: ds).
      repeat split; try assumption; [discriminate|now left]. }
  destruct (sell_prices t) as [sells|] eqn:Es.
  2:{ left. split; [reflexivity|]. right. exists t, (d :: ds).
      repeat split; try assumption; [discriminate|now right]. }
  destruct (length (combinedOf (d :: ds) buys sells) =? 0)%nat eqn:El.
  { right; left. split; [reflexivity|discriminate]. }
  apply Nat.eqb_neq in El. right; right. exists t, (d :: ds), buys, sells.
  repeat split; try assumption.
  intros E. rewrite E in El. now apply El.
Qed.

Lemma fetchSpreadData_failed (r : response) (s : state) :
  r = Rejected \/
  (exists t ds, r = Resolved (Some t) /\ dates t = Some ds /\ ds <> [] /\
                (buy_prices t = None \/ sell_prices t = None)) ->
  fetchSpreadData r s = failed s.
Proof.
  intros [->|(t & ds & -> & Hd & Hne & Hmiss)]; [reflexivity|].
  unfold fetchSpreadData, tryBody. rewrite Hd.
  destruct ds as [|d ds]; [contradiction|].
  destruct Hmiss as [Hb|Hs].
  - now rewrite Hb.
  - rewrite Hs. now destruct (buy_prices t).
Qed.

(** For every response, [fetchSpreadData] ends with [loading] off and
    writes the chart and the summary together or clears both; a chart it
    writes has at least one point, as many labels as points, and no
    point that is [NaN]; and no error is set beside it. *)
Theorem fetchSpreadData_consistent (r : response) (s : state) :
  let s' := fetchSpreadData r s in
  loading s' = false /\
  ((chartData s' = None /\ stats s' = None) \/
   (exists c st,
      chartData s' = Some c /\ stats s' = Some st /\ error s' = None /\
      (1 <= length (data c))%nat /\
      length (labels c) = length (data c) /\
      Forall (fun x => x <> NaN) (data c))).
Proof.
  intros s'. unfold s'.
  destruct (fetchSpreadData_cases r s)
    as [[-> _]|[[-> _]|(t & ds & buys & sells & _ & _ & _ & _ & Hn & ->)]].
  - split; [reflexivity|left; now split].
  - split; [reflexivity|left; now split].
  - split; [reflexivity|right].
    eexists _, _. split; [reflexivity|]. split; [reflexivity|]. split; [reflexivity|].
    cbn [data labels chartOf]. unfold spreadsOf. rewrite !length_map.
    repeat split.
    + destruct (combinedOf ds buys sells); [contradiction|simpl; lia].
    + apply Forall_forall. intros x Hx. apply in_map_iff in Hx.
      destruct Hx as (y & <- & Hy). apply finite_not_NaN, scaled_finite.
      pose proof (spreadsOf_finite ds buys sells) as Hf.
      rewrite Forall_forall in Hf. now apply Hf.
Qed.

(** Every summary [fetchSpreadData] leaves has a current spread, zero
    included, and the current spread lies between the minimum and the
    maximum of the summary. *)
Theorem spread_summary_ordered (r : response) (s : state) (st : summary) :
  stats (fetchSpreadData r s) = Some st ->
  exists x,
    currentSpread st = Some x /\
    nle (minSpread st) x /\ nle x (maxSpread st).
Proof.
  destruct (fetchSpreadData_cases r s)
    as [[-> _]|[[-> _]|(t & ds & buys & sells & _ & _ & _ & _ & Hn & ->)]];
    try discriminate.
  intros [= <-]. cbn [currentSpread minSpread maxSpread averageSpread summarize].
  set (spreads := spreadsOf (combinedOf ds buys sells)).
  pose proof (spreadsOf_finite ds buys sells) as Hfin. fold spreads in Hfin.
  assert (Hne : spreads <> []).
  { unfold spreads, spreadsOf. destruct (combinedOf ds buys sells);
      [contradiction|discriminate]. }
  destruct (mathMax_spec spreads Hne Hfin) as [Hmi Hmu].
  destruct (mathMin_spec spreads Hne Hfin) as [Hni Hnl].
  destruct (lastElement_In spreads Hne) as (x & Hx & Hin).
  exists x. split; [exact Hx|]. split; [now apply Hnl|now apply Hmu].
Qed.

(** [fetchSpreadData] sets its error message exactly when the request is
    rejected or the payload has a date and lacks [buy_prices] or
    [sell_prices]; in every other case it leaves no error. *)
Theorem fetchSpreadData_error (r : response) (s : state) :
  (error (fetchSpreadData r s) = Some loadFailed <->
   r = Rejected \/
   exists t ds, r = Resolved (Some t) /\ dates t = Some ds /\ ds <> [] /\
                (buy_prices t = None \/ sell_prices t = None)) /\
  (error (fetchSpreadData r s) = Some loadFailed \/ error (fetchSpreadData r s) = None).
Proof.
  assert (Hback : r = Rejected \/
                  (exists t ds, r = Resolved (Some t) /\ dates t = Some ds /\ ds <> [] /\
                                (buy_prices t = None \/ sell_prices t = None)) ->
                  error (fetchSpreadData r s) = Some loadFailed).
  { intros Hr. now rewrite (fetchSpreadData_failed r s Hr). }
  split; [split; [|exact Hback]|].
  - destruct (fetchSpreadData_cases r s)
      as [[_ Hr]|[[E _]|(t & ds & buys & sells & _ & _ & _ & _ & _ & E)]];
      [intros _; exact Hr| |]; rewrite E; discriminate.
  - destruct (fetchSpreadData_cases r s)
      as [[E _]|[[E _]|(t & ds & buys & sells & _ & _ & _ & _ & _ & E)]]; rewrite E;
      [now left|now right|now right].
Qed.

Lemma fetchSpreadData_points (points : list PricePoint) (s : state) :
  Forall (fun p => finitePoint p = true) points -> points <> [] ->
  fetchSpreadData (Resolved (Some (payloadOf points))) s
  = charted
      (map (fun p => {| date := pdate p; spread := nsub (psell p) (pbuy p) |}) points) s.
Proof.
  intros Hfin Hne. rewrite <- (combinedOf_points points Hfin).
  unfold fetchSpreadData, tryBody, payloadOf. cbn [dates buy_prices sell_prices].
  destruct points as [|p r] eqn:Ep; [contradiction|]. rewrite <- Ep in *.
  assert (Hlen : length (combinedOf (map pdate points)
                                    (map (fun p => JNum (pbuy p)) points)
                                    (map (fun p => JNum (psell p)) points))
                 = length points).
  { rewrite combinedOf_points by assumption. apply length_map. }
  replace (map pdate points) with (pdate p :: map pdate r) at 1 by now rewrite Ep.
  rewrite Hlen. rewrite Ep at 1. reflexivity.
Qed.

(** When no point of a non-empty series of finite price points has its
    sell price below its buy price, the minimum spread of the summary is
    not negative. *)
Theorem spread_never_negative (points : list PricePoint) (s : state) :
  Forall (fun p => finitePoint p = true) points -> points <> [] ->
  (forall p, In p points -> nle (pbuy p) (psell p)) ->
  exists st,
    stats (fetchSpreadData (Resolved (Some (payloadOf points))) s) = Some st /\
    nle zero (minSpread st).
Proof.
  intros Hfin Hne Hord. rewrite (fetchSpreadData_points points s Hfin Hne).
  eexists. split; [reflexivity|].
  cbn [minSpread summarize stats charted]. unfold spreadsOf. rewrite map_map.
  cbn [spread].
  set (spreads := map (fun p => nsub (psell p) (pbuy p)) points).
  assert (Hsf : Forall finite spreads).
  { apply Forall_forall. intros x Hx. apply in_map_iff in Hx.
    destruct Hx as (p & <- & Hp). apply spread_finite.
    rewrite Forall_forall in Hfin. now apply Hfin. }
  assert (Hsn : spreads <> []).
  { unfold spreads. destruct points; [contradiction|discriminate]. }
  destruct (mathMin_spec spreads Hsn Hsf) as [Hin _].
  apply in_map_iff in Hin. destruct Hin as (p & <- & Hp).
  specialize (Hord p Hp). rewrite Forall_forall in Hfin. specialize (Hfin p Hp).
  unfold finitePoint in Hfin.
  destruct (pbuy p) as [b| | |], (psell p) as [a| | |]; try discriminate Hfin.
  rewrite nsub_Fin. unfold zero, ofZ. apply nle_Fin. apply nle_Fin in Hord.
  change (Q2Qc (inject_Z 0)) with (Q2Qc 0).
  apply Qcle_minus_iff in Hord. exact Hord.
Qed.

End SpreadMore.

(** ** More on the order of numbers and on the sort *)

Lemma nltb_irrefl (x : num) : nltb x x = false.
Proof.
  destruct x as [a| | |]; try reflexivity. unfold nltb.
  now rewrite (proj1 (Qceq_alt a a) eq_refl).
Qed.

Lemma nleb_not_gt (x y : num) : nleb x y = true -> nltb y x = false.
Proof.
  destruct x as [a| | |], y as [b| | |]; try reflexivity; try discriminate.
  intros Hle. apply nle_Fin in Hle.
  destruct (nltb (Fin b) (Fin a)) eqn:E; [|reflexivity].
  apply nltb_Fin in E. exfalso. revert E. now apply Qcle_not_lt.
Qed.

Section SortedFacts.
Context {A : Type} (key : A -> num).

Lemma sorted_neighbours (l : list A) :
  StronglySorted (ascendingBy key) l ->
  forall i a b, nth_error l i = Some a -> nth_error l (S i) = Some b ->
                ngtb (keyCompare key a b) zero = false.
Proof.
  induction 1 as [|x r Hr IH Hx]; intros i a b Ha Hb.
  - destruct i; discriminate Ha.
  - destruct i as [|i].
    + injection Ha as <-.
      rewrite Forall_forall in Hx. apply (nth_error_In r 0%nat) in Hb.
      specialize (Hx b Hb).
      unfold ascendingBy, nle in Hx. unfold keyCompare.
      destruct (key x) as [p| | |], (key b) as [q| | |]; try discriminate Hx;
        try reflexivity.
      apply nle_Fin in Hx.
      destruct (ngtb (nsub (Fin p) (Fin q)) zero) eqn:E; [|reflexivity].
      apply gt_zero_Fin in E. exfalso. revert E. now apply Qcle_not_lt.
    + now apply (IH i).
Qed.

(** With finite keys, sorting a sorted array changes nothing. *)
Lemma sortBy_idempotent (l : list A) :
  Forall (fun e => finite (key e)) l ->
  sortBy (keyCompare key) (sortBy (keyCompare key) l) = sortBy (keyCompare key) l.
Proof.
  intros Hfin. apply sortBy_fixed. apply sorted_neighbours.
  now apply sortBy_sorted.
Qed.

(** In a sorted array an earlier index has the smaller key. *)
Lemma sorted_indices (l : list A) :
  StronglySorted (ascendingBy key) l ->
  forall i j a b, (i < j)%nat -> nth_error l i = Some a -> nth_error l j = Some b ->
                  nle (key a) (key b).
Proof.
  induction 1 as [|x r Hr IH Hx]; intros i j a b Hij Ha Hb.
  - destruct i; discriminate Ha.
  - destruct j as [|j]; [lia|]. cbn [nth_error] in Hb. destruct i as [|i].
    + injection Ha as <-. rewrite Forall_forall in Hx.
      apply Hx. now apply nth_error_In with j.
    + apply (IH i j); [lia|assumption|assumption].
Qed.

End SortedFacts.

(** ** [fetchData] of the return chart and the effect after it *)

Section FetchFacts.
Context `{Host}.
Import CumulativeReturn.

(** The effect decides, with an error or a result, whenever both dates
    are non-empty and carried by the series. *)
Lemma returnEffect_decides (s : state) :
  buyDate s <> "" -> sellDate s <> "" ->
  (exists e, In e (entries s) /\ date e = buyDate s) ->
  (exists e, In e (entries s) /\ date e = sellDate s) ->
  (exists msg, returnEffect s = aborted msg s /\
               (msg = rangeOrder \/ msg = sellUnavailable)) \/
  (exists w first last, returnEffect s = succeeded w first last s).
Proof.
  intros Hb Hs Hbin Hsin.
  destruct (indexOfDate_present _ _ Hbin) as [bi Hbi].
  destruct (indexOfDate_present _ _ Hsin) as [si Hsi].
  destruct (Nat.le_gt_cases bi si) as [Hle|Hlt].
  - rewrite (returnEffect_in_range s bi si Hb Hs Hbi Hsi Hle). cbv zeta.
    destruct (usableCost _).
    + right. eexists _, _, _. reflexivity.
    + left. exists sellUnavailable. split; [reflexivity|now right].
  - left. exists rangeOrder. split; [|now left].
    now apply (returnEffect_reversed s bi si).
Qed.

Lemma keepIfPresent_member (sortedEntries : list entry) (fallback previous : string) :
  (exists e, In e sortedEntries /\ date e = fallback) ->
  exists e, In e sortedEntries /\ date e = keepIfPresent sortedEntries fallback previous.
Proof.
  intros Hfb. unfold keepIfPresent.
  destruct (negb (isEmpty previous)); cbn [andb]; [|exact Hfb].
  destruct (existsb _ sortedEntries) eqn:Ee; [|exact Hfb].
  apply existsb_exists in Ee. destruct Ee as (e & He & Hd).
  exists e. split; [exact He|]. now apply String.eqb_eq.
Qed.

(** The state [fetchData] leaves on a payload with surviving points. *)
Lemma fetchData_stored (t : trends) (s : state) :
  survivors t <> [] ->
  let sortedEntries := sortBy dateCompare (survivors t) in
  fetchData (Resolved (Some t)) s
  = s |> setLoading true |> setError None |> setEntries [] |> setChartData None
      |> setStats None |> setActivePresetDays None
      |> setEntries sortedEntries
      |> setBuyDate (keepIfPresent sortedEntries (date (nth 0 sortedEntries noEntry)))
      |> setSellDate
           (keepIfPresent sortedEntries
              (date (nth (length sortedEntries - 1) sortedEntries noEntry)))
      |> setLoading false.
Proof.
  intros Hne sortedEntries. unfold sortedEntries.
  unfold fetchData, tryBody.
  destruct (processedEntries t) as [|pe] eqn:Ep.
  - exfalso. apply Hne, survivors_no_buys.
    unfold processedEntries in Ep. destruct (dates t) as [[|d ds]|]; try discriminate Ep.
    now destruct (buy_prices t).
  - pose proof (processedEntries_survivors t pe Ep) as Hpe.
    destruct pe as [[|e l]|].
    + exfalso. now apply Hne.
    + rewrite <- Hpe. reflexivity.
    + exfalso. now apply Hne.
Qed.

Lemma fetchData_empty (r : response) (s : state) :
  (r = Rejected \/ r = Resolved None \/ exists t, r = Resolved (Some t) /\ survivors t = []) ->
  entries (fetchData r s) = [] /\
  (error (fetchData r s) = Some noDataForType \/ error (fetchData r s) = Some loadFailed).
Proof.
  intros [->|[->|(t & -> & Hs)]].
  - split; [reflexivity|now right].
  - split; [reflexivity|now left].
  - unfold fetchData, tryBody.
    destruct (processedEntries t) as [|pe] eqn:Ep; [split; [reflexivity|now right]|].
    pose proof (processedEntries_survivors t pe Ep) as Hpe.
    destruct pe as [[|e l]|]; try (split; [reflexivity|now left]).
    rewrite Hs in Hpe. discriminate Hpe.
Qed.

Lemma fetchData_resets (r : response) (s : state) :
  loading (fetchData r s) = false /\ chartData (fetchData r s) = None /\
  stats (fetchData r s) = None /\ activePresetDays (fetchData r s) = None.
Proof.
  unfold fetchData, tryBody.
  destruct r as [|[t|]]; try destruct (processedEntries t) as [|[[|e l]|]];
    repeat split; reflexivity.
Qed.

Lemma fetchData_dichotomy (r : response) (s : state) :
  (entries (fetchData r s) = [] /\
   (error (fetchData r s) = Some noDataForType \/
    error (fetchData r s) = Some loadFailed)) \/
  (entries (fetchData r s) <> [] /\ error (fetchData r s) = None /\
   (exists e, In e (entries (fetchData r s)) /\ date e = buyDate (fetchData r s)) /\
   (exists e, In e (entries (fetchData r s)) /\ date e = sellDate (fetchData r s))).
Proof.
  assert (Hcases : (r = Rejected \/ r = Resolved None \/
                    exists t, r = Resolved (Some t) /\ survivors t = []) \/
                   (exists t, r = Resolved (Some t) /\ survivors t <> [])).
  { destruct r as [|[t|]]; [left; now left| |left; right; now left].
    destruct (survivors t) eqn:E; [left; right; right|right]; exists t;
      (split; [reflexivity|]); rewrite E; [reflexivity|discriminate]. }
  destruct Hcases as [Hr|(t & -> & Hne)]; [left; now apply fetchData_empty|].
  right. rewrite (fetchData_stored t s Hne). cbv zeta.
  set (sortedEntries := sortBy dateCompare (survivors t)).
  assert (Hsne : sortedEntries <> []).
  { intros E. apply (f_equal (@length entry)) in E. unfold sortedEntries in E.
    rewrite sortBy_length in E. destruct (survivors t); [now apply Hne|discriminate E]. }
  assert (Hlen : (0 < length sortedEntries)%nat)
    by (destruct sortedEntries; [contradiction|simpl; lia]).
  split; [exact Hsne|]. split; [reflexivity|].
  cbn [entries buyDate sellDate setLoading setSellDate setBuyDate setEntries].
  split; apply keepIfPresent_member.
  - exists (nth 0 sortedEntries noEntry). split; [now apply nth_In|reflexivity].
  - exists (nth (length sortedEntries - 1) sortedEntries noEntry).
    split; [apply nth_In; lia|reflexivity].
Qed.

(** For every response, [fetchData] ends with [loading] off and with no
    chart, summary or active preset, and either reports an error and
    stores an empty series, or reports none and stores a non-empty series
    that carries both selected dates. *)
Theorem fetchData_selects_present_dates (r : response) (s : state) :
  let s' := fetchData r s in
  loading s' = false /\ chartData s' = None /\ stats s' = None /\
  activePresetDays s' = None /\
  ((entries s' = [] /\
    (error s' = Some noDataForType \/ error s' = Some loadFailed)) \/
   (entries s' <> [] /\ error s' = None /\
    (exists e, In e (entries s') /\ date e = buyDate s') /\
    (exists e, In e (entries s') /\ date e = sellDate s'))).
Proof.
  intros s'. unfold s'.
  destruct (fetchData_resets r s) as (H1 & H2 & H3 & H4).
  repeat split; try assumption. apply fetchData_dichotomy.
Qed.

(** After a fetch that stored a series whose dates are all non-empty, the
    effect does not return silently: it sets the range-order or the
    unavailable error, or writes a result. *)
Theorem effect_after_fetch_decides (r : response) (s : state) :
  entries (fetchData r s) <> [] ->
  (forall e, In e (entries (fetchData r s)) -> date e <> "") ->
  (exists msg,
     returnEffect (fetchData r s) = aborted msg (fetchData r s) /\
     (msg = rangeOrder \/ msg = sellUnavailable)) \/
  (exists w first last,
     returnEffect (fetchData r s) = succeeded w first last (fetchData r s)).
Proof.
  intros Hne Hdates.
  destruct (fetchData_dichotomy r s) as [[He _]|(_ & _ & Hb & Hs)];
    [contradiction|].
  apply returnEffect_decides; try assumption.
  - destruct Hb as (e & He & <-). now apply Hdates.
  - destruct Hs as (e & He & <-). now apply Hdates.
Qed.

End FetchFacts.

Section FirstFetch.
Context `{Host}.
Import CumulativeReturn.


Lemma indexOfDate_head (l : list entry) :
  l <> [] -> indexOfDate (date (nth 0 l noEntry)) l = Some 0%nat.
Proof.
  destruct l as [|x r]; [contradiction|]. intros _.
  unfold indexOfDate. cbn [nth findIndex]. now rewrite String.eqb_refl.
Qed.

(** When the dates of the surviving points are all valid, the series
    [fetchData] stores is a fixed point of the sort the effect applies to
    it again. *)
Theorem stored_series_is_sorted (t : trends) (s : state) :
  Forall (fun e => finite (dateTime (date e))) (survivors t) ->
  sortBy dateCompare (entries (fetchData (Resolved (Some t)) s))
  = entries (fetchData (Resolved (Some t)) s).
Proof.
  intros Hvalid. rewrite fetchData_entries.
  exact (sortBy_idempotent (fun e => dateTime (date e)) _ Hvalid).
Qed.



End FirstFetch.

(** ** [handleQuickRange] *)

Lemma ofZ_positive (z : Z) : 0 < z -> (Q2Qc 0 < Q2Qc (inject_Z z))%Qc.
Proof.
  intros Hz. unfold Qclt. cbn [this Q2Qc]. rewrite !Qred_correct.
  unfold Qlt. simpl. lia.
Qed.

Lemma no_room_below (t c d : Qc) :
  (Q2Qc 0 < d)%Qc -> (t <= c)%Qc -> (c <= t + - d)%Qc -> False.
Proof.
  intros Hd Htc Hct.
  assert (Hle : (t <= t + - d)%Qc) by now apply Qcle_trans with c.
  apply Qcle_minus_iff in Hle.
  replace (t + - d + - t)%Qc with (- d)%Qc in Hle by ring.
  apply Qcopp_le_compat in Hle. rewrite Qcopp_involutive in Hle.
  replace (- Q2Qc 0)%Qc with (Q2Qc 0) in Hle by ring.
  revert Hd. now apply Qcle_not_lt.
Qed.

Section QuickRange.
Context `{Host}.
Import CumulativeReturn ReturnControls.

Lemma scanBack_spec (sorted : list entry) (target : num) (cand : string) (n : nat) :
  (exists i, (i < n)%nat /\
     scanBack sorted target n cand = date (nth i sorted noEntry) /\
     nleb (dateTime (date (nth i sorted noEntry))) target = true /\
     forall j, (i < j < n)%nat ->
               nleb (dateTime (date (nth j sorted noEntry))) target = false) \/
  (scanBack sorted target n cand = cand /\
   forall j, (j < n)%nat ->
             nleb (dateTime (date (nth j sorted noEntry))) target = false).
Proof.
  induction n as [|n IH].
  - right. split; [reflexivity|]. intros j Hj. lia.
  - cbn [scanBack].
    destruct (nleb (dateTime (date (nth n sorted noEntry))) target) eqn:En.
    + left. exists n. repeat split; [lia|assumption|]. intros j Hj. lia.
    + destruct IH as [(i & Hi & Hr & Hq & Hlater)|[Hr Hnone]].
      * left. exists i. repeat split; [lia|assumption|assumption|].
        intros j Hj. destruct (Nat.eq_dec j n) as [->|Hne]; [assumption|].
        apply Hlater. lia.
      * right. split; [assumption|]. intros j Hj.
        destruct (Nat.eq_dec j n) as [->|Hne]; [assumption|]. apply Hnone. lia.
Qed.

Lemma handleQuickRange_unfold (days : Z) (s : state) :
  entries s <> [] ->
  let sorted := sortBy dateCompare (entries s) in
  let latest := nth (length sorted - 1) sorted noEntry in
  let target := nsub (dateTime (date latest)) (nmul (ofZ days) MS_PER_DAY) in
  handleQuickRange days s
  = s |> setSellDate (fun _ => date latest)
      |> setBuyDate
           (fun _ => scanBack sorted target (length sorted) (date (nth 0 sorted noEntry)))
      |> setActivePresetDays (Some days).
Proof.
  intros Hne sorted latest target. unfold handleQuickRange.
  assert (Hlen : (0 < length (entries s))%nat)
    by (destruct (entries s); [contradiction|simpl; lia]).
  replace (length (entries s) =? 0)%nat with false by (symmetry; apply Nat.eqb_neq; lia).
  fold sorted. unfold lastElement.
  rewrite (nth_error_nth' sorted noEntry)
    by (unfold sorted; rewrite sortBy_length; lia).
  reflexivity.
Qed.

(** On an empty series [handleQuickRange] changes nothing.  On any other
    it records the preset, keeps the series, selects the date of the last
    point of the sorted series as exit date, and selects an entry date
    that a point of the series carries. *)
Theorem handleQuickRange_selects_present_dates (days : Z) (s : state) :
  (entries s = [] -> handleQuickRange days s = s) /\
  (entries s <> [] ->
   let s' := handleQuickRange days s in
   let sorted := sortBy dateCompare (entries s) in
   entries s' = entries s /\ activePresetDays s' = Some days /\
   sellDate s' = date (nth (length sorted - 1) sorted noEntry) /\
   (exists e, In e (entries s') /\ date e = buyDate s') /\
   (exists e, In e (entries s') /\ date e = sellDate s')).
Proof.
  split.
  - intros He. unfold handleQuickRange. now rewrite He.
  - intros Hne s' sorted. unfold s'. rewrite (handleQuickRange_unfold days s Hne).
    cbv zeta. fold sorted.
    cbn [entries activePresetDays sellDate buyDate setSellDate setBuyDate
         setActivePresetDays].
    assert (Hlen : (0 < length sorted)%nat).
    { unfold sorted. rewrite sortBy_length.
      destruct (entries s); [contradiction|simpl; lia]. }
    assert (Hmem : forall i, (i < length sorted)%nat ->
                     exists e, In e (entries s) /\ date e = date (nth i sorted noEntry)).
    { intros i Hi. exists (nth i sorted noEntry). split; [|reflexivity].
      apply (Permutation_in _ (sortBy_perm dateCompare (entries s))).
      now apply nth_In. }
    repeat split.
    + set (target := nsub _ _).
      destruct (scanBack_spec sorted target (date (nth 0 sorted noEntry)) (length sorted))
        as [(i & Hi & -> & _)|[-> _]]; now apply Hmem.
    + apply Hmem. lia.
Qed.

(** The entry date [handleQuickRange] selects is the date of the last
    point of the sorted series whose time is at most the time of the last
    point minus [days] days; when no point qualifies it is the date of
    the first point. *)
Theorem handleQuickRange_clamps (days : Z) (s : state) :
  entries s <> [] ->
  let s' := handleQuickRange days s in
  let sorted := sortBy dateCompare (entries s) in
  let time i := dateTime (date (nth i sorted noEntry)) in
  let target := nsub (time (length sorted - 1)%nat) (nmul (ofZ days) MS_PER_DAY) in
  (exists i, (i < length sorted)%nat /\
     buyDate s' = date (nth i sorted noEntry) /\
     nle (time i) target /\
     forall j, (i < j < length sorted)%nat -> nleb (time j) target = false) \/
  (buyDate s' = date (nth 0 sorted noEntry) /\
   forall j, (j < length sorted)%nat -> nleb (time j) target = false).
Proof.
  intros Hne s' sorted time target. unfold s'.
  rewrite (handleQuickRange_unfold days s Hne). cbv zeta. fold sorted.
  cbn [buyDate setSellDate setBuyDate setActivePresetDays].
  exact (scanBack_spec sorted target (date (nth 0 sorted noEntry)) (length sorted)).
Qed.

(** With valid, non-empty dates in the series and a preset of at least
    one day, the range [handleQuickRange] selects is never reversed: the
    effect after it sets no error or the unavailable error, not the
    range-order error, and does not return silently. *)
Theorem handleQuickRange_never_reversed (days : Z) (s : state) :
  entries s <> [] -> 0 < days ->
  (forall e, In e (entries s) -> finite (dateTime (date e)) /\ date e <> "") ->
  let s' := handleQuickRange days s in
  (exists w first last, returnEffect s' = succeeded w first last s') \/
  returnEffect s' = aborted sellUnavailable s'.
Proof.
  intros Hne Hdays Hdates s'.
  set (sorted := sortBy dateCompare (entries s)).
  set (latest := nth (length sorted - 1) sorted noEntry).
  set (target := nsub (dateTime (date latest)) (nmul (ofZ days) MS_PER_DAY)).
  assert (Hs' : s' = s |> setSellDate (fun _ => date latest)
                       |> setBuyDate
                            (fun _ => scanBack sorted target (length sorted)
                                               (date (nth 0 sorted noEntry)))
                       |> setActivePresetDays (Some days))
    by apply (handleQuickRange_unfold days s Hne).
  assert (Hent : entries s' = entries s) by now rewrite Hs'.
  assert (Hsell : sellDate s' = date latest) by now rewrite Hs'.
  assert (Hbuy : buyDate s' = scanBack sorted target (length sorted)
                                       (date (nth 0 sorted noEntry)))
    by now rewrite Hs'.
  assert (Hlen : (0 < length sorted)%nat).
  { unfold sorted. rewrite sortBy_length.
    destruct (entries s); [contradiction|simpl; lia]. }
  assert (Hsne : sorted <> []) by (intros E; rewrite E in Hlen; simpl in Hlen; lia).
  assert (Hin : forall i, (i < length sorted)%nat -> In (nth i sorted noEntry) (entries s)).
  { intros i Hi. apply (Permutation_in _ (sortBy_perm dateCompare (entries s))).
    now apply nth_In. }
  assert (Hvalid : Forall (fun e => finite (dateTime (date e))) (entries s)).
  { apply Forall_forall. intros e He. now apply Hdates. }
  pose proof (sortBy_sorted (fun e => dateTime (date e)) _ Hvalid) as Hsorted.
  fold sorted in Hsorted.
  assert (Hbmem : exists e, In e (entries s') /\ date e = buyDate s').
  { rewrite Hent, Hbuy.
    destruct (scanBack_spec sorted target (date (nth 0 sorted noEntry)) (length sorted))
      as [(i & Hi & -> & _)|[-> _]];
      eexists; (split; [apply Hin|reflexivity]); lia. }
  assert (Hsmem : exists e, In e (entries s') /\ date e = sellDate s').
  { rewrite Hent, Hsell. exists latest. split; [apply Hin; lia|reflexivity]. }
  assert (Hbne : buyDate s' <> "").
  { destruct Hbmem as (e & He & <-). rewrite Hent in He. now apply Hdates. }
  assert (Hsne' : sellDate s' <> "").
  { destruct Hsmem as (e & He & <-). rewrite Hent in He. now apply Hdates. }
  destruct (indexOfDate_present _ _ Hbmem) as [bi Hbi].
  destruct (indexOfDate_present _ _ Hsmem) as [si Hsi].
  rewrite Hent in Hbi, Hsi. fold sorted in Hbi, Hsi.
  assert (Hle : (bi <= si)%nat).
  { destruct (Nat.le_gt_cases bi si) as [Hok|Hrev]; [exact Hok|]. exfalso.
    destruct (findIndex_nth _ _ _ Hbi) as (b & Hb & Hbd).
    destruct (findIndex_nth _ _ _ Hsi) as (a & Ha & Had).
    apply String.eqb_eq in Hbd, Had.
    pose proof (sorted_indices (fun e => dateTime (date e)) sorted Hsorted
                               si bi a b Hrev Ha Hb) as Hab.
    cbv beta in Hab. rewrite Hbd, Had, Hsell in Hab.
    destruct (scanBack_spec sorted target (date (nth 0 sorted noEntry)) (length sorted))
      as [(i & Hi & Hr & Hq & _)|[Hr _]].
    - rewrite Hbuy, Hr in Hab.
      destruct (Hdates _ (Hin i Hi)) as [Hfi _].
      destruct (Hdates latest (Hin (length sorted - 1)%nat ltac:(lia))) as [Hfl _].
      unfold target in Hq.
      destruct (dateTime (date latest)) as [tq| | |]; try discriminate Hfl.
      destruct (dateTime (date (nth i sorted noEntry))) as [cq| | |];
        try discriminate Hfi.
      apply nle_Fin in Hab.
      change (nmul (ofZ days) MS_PER_DAY)
        with (Fin (Q2Qc (inject_Z days) * Q2Qc (inject_Z (1000 * 60 * 60 * 24)))%Qc) in Hq.
      rewrite nsub_Fin in Hq. apply nle_Fin in Hq.
      refine (no_room_below tq cq _ _ Hab Hq).
      rewrite <- (Qcmult_0_l (Q2Qc (inject_Z (1000 * 60 * 60 * 24)))).
      apply Qcmult_lt_compat_r; [now apply ofZ_positive|now apply ofZ_positive].
    - rewrite Hbuy, Hr in Hbi. rewrite (indexOfDate_head sorted Hsne) in Hbi.
      injection Hbi as <-. lia. }
  unfold sorted in Hbi, Hsi. rewrite <- Hent in Hbi, Hsi.
  rewrite (returnEffect_in_range s' bi si Hbne Hsne' Hbi Hsi Hle). cbv zeta.
  destruct (usableCost _); [left; eexists _, _, _; reflexivity|now right].
Qed.

End QuickRange.

(** ** The date controls, the two views and the presets *)

Lemma lastElement_map {A B : Type} (f : A -> B) (l : list A) :
  lastElement (map f l) = option_map f (lastElement l).
Proof.
  unfold lastElement. rewrite length_map. apply nth_error_map.
Qed.

Lemma ofZ_le (a b : Z) : (Q2Qc (inject_Z a) <= Q2Qc (inject_Z b))%Qc -> a <= b.
Proof.
  unfold Qcle. cbn [this Q2Qc]. rewrite !Qred_correct.
  unfold Qle. simpl. lia.
Qed.

Section Controls.
Context `{Host}.
Import CumulativeReturn ReturnControls.

(** After [handleBuyDateChange] and after [handleSellDateChange] the
    chosen value is selected, no preset is active and, when the other
    date was set, the exit date is not before the entry date. *)
Theorem date_handlers_keep_order (value : string) (s : state) :
  (let s' := handleBuyDateChange value s in
   buyDate s' = value /\ activePresetDays s' = None /\ entries s' = entries s /\
   (sellDate s <> "" ->
    nltb (dateTime (sellDate s')) (dateTime (buyDate s')) = false)) /\
  (let s' := handleSellDateChange value s in
   sellDate s' = value /\ activePresetDays s' = None /\ entries s' = entries s /\
   (buyDate s <> "" ->
    nltb (dateTime (sellDate s')) (dateTime (buyDate s')) = false)).
Proof.
  split; cbv zeta.
  - unfold handleBuyDateChange.
    destruct (negb (isEmpty (sellDate s))
              && ngtb (dateTime value) (dateTime (sellDate s)))%bool eqn:E.
    + repeat split. intros _. apply nltb_irrefl.
    + repeat split. intros Hs. rewrite (isEmpty_false _ Hs) in E. exact E.
  - unfold handleSellDateChange.
    destruct (negb (isEmpty (buyDate s))
              && nltb (dateTime value) (dateTime (buyDate s)))%bool eqn:E.
    + repeat split. intros _. apply nltb_irrefl.
    + repeat split. intros Hb. rewrite (isEmpty_false _ Hb) in E. exact E.
Qed.

(** The options offered for one date are points of the series, and
    choosing one of them leaves the other date as it is. *)
Theorem offered_options_keep_other_date (e : entry) (s : state) :
  (In e (buyOptions s) ->
   In e (entries s) /\ sellDate (handleBuyDateChange (date e) s) = sellDate s) /\
  (In e (sellOptions s) ->
   In e (entries s) /\ buyDate (handleSellDateChange (date e) s) = buyDate s).
Proof.
  split.
  - unfold buyOptions. destruct (length (entries s) =? 0)%nat; [intros []|].
    intros He. apply filter_In in He. destruct He as [He Hc].
    split; [exact He|]. unfold handleBuyDateChange.
    destruct (isEmpty (sellDate s)); cbn [negb andb orb] in *; [reflexivity|].
    unfold ngtb. now rewrite (nleb_not_gt _ _ Hc).
  - unfold sellOptions. destruct (length (entries s) =? 0)%nat; [intros []|].
    intros He. apply filter_In in He. destruct He as [He Hc].
    split; [exact He|]. unfold handleSellDateChange.
    destruct (isEmpty (buyDate s)); cbn [negb andb orb] in *; [reflexivity|].
    unfold ngeb in Hc. now rewrite (nleb_not_gt _ _ Hc).
Qed.

(** On a series that is in sorted order and has non-empty dates,
    [handleResetRange] selects the dates of the first and of the last
    point, and the effect after it sets no error or the unavailable
    error, not the range-order error. *)
Theorem reset_selects_full_range (s : state) :
  entries s <> [] ->
  sortBy dateCompare (entries s) = entries s ->
  (forall e, In e (entries s) -> date e <> "") ->
  let s' := handleResetRange s in
  buyDate s' = date (nth 0 (entries s) noEntry) /\
  sellDate s' = date (nth (length (entries s) - 1) (entries s) noEntry) /\
  activePresetDays s' = None /\
  ((exists w first last, returnEffect s' = succeeded w first last s') \/
   returnEffect s' = aborted sellUnavailable s').
Proof.
  intros Hne Hfix Hdates s'.
  assert (Hlen : (0 < length (entries s))%nat)
    by (destruct (entries s); [contradiction|simpl; lia]).
  assert (Hs' : s' = s |> setBuyDate (fun _ => date (nth 0 (entries s) noEntry))
                       |> setSellDate
                            (fun _ => date (nth (length (entries s) - 1) (entries s) noEntry))
                       |> setActivePresetDays None).
  { unfold s', handleResetRange.
    now replace (length (entries s) =? 0)%nat with false
      by (symmetry; apply Nat.eqb_neq; lia). }
  assert (Hent : entries s' = entries s) by now rewrite Hs'.
  assert (Hbuy : buyDate s' = date (nth 0 (entries s) noEntry)) by now rewrite Hs'.
  assert (Hsell : sellDate s' = date (nth (length (entries s) - 1) (entries s) noEntry))
    by now rewrite Hs'.
  split; [exact Hbuy|]. split; [exact Hsell|]. split; [now rewrite Hs'|].
  assert (Hbne : buyDate s' <> "") by (rewrite Hbuy; apply Hdates, nth_In; lia).
  assert (Hsne : sellDate s' <> "") by (rewrite Hsell; apply Hdates, nth_In; lia).
  assert (Hbi : indexOfDate (buyDate s') (sortBy dateCompare (entries s')) = Some 0%nat).
  { rewrite Hent, Hfix, Hbuy. now apply indexOfDate_head. }
  assert (Hsmem : exists e, In e (entries s') /\ date e = sellDate s').
  { rewrite Hent, Hsell. eexists. split; [apply nth_In|reflexivity]. lia. }
  destruct (indexOfDate_present _ _ Hsmem) as [si Hsi].
  rewrite (returnEffect_in_range s' 0 si Hbne Hsne Hbi Hsi (Nat.le_0_l si)). cbv zeta.
  destruct (usableCost _); [left; eexists _, _, _; reflexivity|now right].
Qed.

(** When the effect writes a result, the two views of the chart have the
    labels of the chart and one value per label; the last value of the
    money view is the absolute change of the summary and the last value
    of the percent view is its net return; and each percentage is the
    absolute value at the same index over the cost basis, times 100. *)
Theorem both_views_end_at_the_summary (s : state) (bi si : nat) (chartType : string) :
  buyDate s <> "" -> sellDate s <> "" ->
  indexOfDate (buyDate s) (sortBy dateCompare (entries s)) = Some bi ->
  indexOfDate (sellDate s) (sortBy dateCompare (entries s)) = Some si ->
  (bi <= si)%nat ->
  usableCost (sell (nth bi (sortBy dateCompare (entries s)) noEntry)) = true ->
  exists c st d,
    chartData (returnEffect s) = Some c /\ stats (returnEffect s) = Some st /\
    displayChartData chartType (Some c) = Some d /\
    shownLabels d = labels c /\
    length (shownData d) = length (shownLabels d) /\
    lastElement (shownData d)
    = Some (if String.eqb chartType "money" then absoluteChange st else latestReturn st) /\
    (forall k, (k < length (data c))%nat ->
       nth k (data c) NaN
       = nmul (ndiv (nth k (absoluteData c) NaN) (entryCost st)) (ofZ 100)).
Proof.
  intros Hb Hs Hbi Hsi Hle Hc.
  rewrite (returnEffect_in_range s bi si Hb Hs Hbi Hsi Hle). cbv zeta. rewrite Hc.
  set (sorted := sortBy dateCompare (entries s)).
  set (first := nth bi sorted noEntry). set (last := nth si sorted noEntry).
  set (w := closedSlice sorted bi si).
  eexists _, _, _. split; [reflexivity|]. split; [reflexivity|].
  split; [reflexivity|].
  cbn [shownLabels shownData labels data absoluteData absoluteChange latestReturn
       entryCost].
  split; [reflexivity|]. split; [|split].
  - destruct (String.eqb chartType "money"); now rewrite !length_map.
  - pose proof (closedSlice_lastElement sorted bi si Hle) as Hl. fold w last in Hl.
    destruct (String.eqb chartType "money"); rewrite lastElement_map, Hl; reflexivity.
  - intros k Hk. rewrite length_map in Hk.
    rewrite (nth_indep (map (returnPercent (sell first)) w) NaN
                       (returnPercent (sell first) noEntry))
      by now rewrite length_map.
    rewrite (nth_indep (map (fun entry => nsub (buy entry) (sell first)) w) NaN
                       (nsub (buy noEntry) (sell first)))
      by now rewrite length_map.
    rewrite (map_nth (returnPercent (sell first))).
    now rewrite (map_nth (fun entry => nsub (buy entry) (sell first))).
Qed.

(** A click without an element changes nothing.  When the effect has
    written a chart, a click on its element [k] selects as exit date the
    date behind the label at index [k], keeps the entry date and the
    series, and clears the active preset. *)
Theorem click_selects_labelled_date (s : state) (bi si k : nat) :
  buyDate s <> "" -> sellDate s <> "" ->
  indexOfDate (buyDate s) (sortBy dateCompare (entries s)) = Some bi ->
  indexOfDate (sellDate s) (sortBy dateCompare (entries s)) = Some si ->
  (bi <= si)%nat ->
  usableCost (sell (nth bi (sortBy dateCompare (entries s)) noEntry)) = true ->
  (bi + k <= si)%nat ->
  onClick None s = s /\
  exists c,
    chartData (returnEffect s) = Some c /\
    nth_error (labels c) k = Some (formatDateLabel (sellDate (onClick (Some k) s))) /\
    buyDate (onClick (Some k) s) = buyDate s /\
    entries (onClick (Some k) s) = entries s /\
    activePresetDays (onClick (Some k) s) = None.
Proof.
  intros Hb Hs Hbi Hsi Hle Hc Hk. split; [reflexivity|].
  rewrite (returnEffect_in_range s bi si Hb Hs Hbi Hsi Hle). cbv zeta. rewrite Hc.
  set (sorted := sortBy dateCompare (entries s)) in *.
  pose proof (findIndex_bound _ _ _ Hsi) as Hlen.
  assert (Hpick : onClick (Some k) s
                  = s |> setSellDate (fun _ => date (nth (bi + k) sorted noEntry))
                      |> setActivePresetDays None).
  { unfold onClick. fold sorted. unfold indexOfDate in Hbi. rewrite Hbi.
    rewrite (slice_seq noEntry) by lia.
    rewrite (nth_error_nth' _ noEntry) by (rewrite length_map, length_seq; lia).
    rewrite (nth_indep _ noEntry (nth 0 sorted noEntry))
      by (rewrite length_map, length_seq; lia).
    rewrite (map_nth (fun i => nth i sorted noEntry)), seq_nth by lia.
    reflexivity. }
  eexists. split; [reflexivity|]. rewrite Hpick.
  cbn [labels sellDate buyDate entries activePresetDays setSellDate setActivePresetDays].
  repeat split.
  rewrite (nth_error_nth' _ "") by (rewrite length_map, closedSlice_length; lia).
  f_equal.
  rewrite (nth_indep _ "" (formatDateLabel (date noEntry)))
    by (rewrite length_map, closedSlice_length; lia).
  rewrite (map_nth (fun entry => formatDateLabel (date entry))).
  now rewrite closedSlice_nth.
Qed.

(** With valid dates the active range is a finite number of days that is
    not negative; and when the effect writes a summary, its holding days
    are the active range. *)
Theorem activeRange_is_holding_days (s : state) (bi si : nat) :
  buyDate s <> "" -> sellDate s <> "" ->
  indexOfDate (buyDate s) (sortBy dateCompare (entries s)) = Some bi ->
  indexOfDate (sellDate s) (sortBy dateCompare (entries s)) = Some si ->
  (bi <= si)%nat ->
  usableCost (sell (nth bi (sortBy dateCompare (entries s)) noEntry)) = true ->
  exists st,
    stats (returnEffect s) = Some st /\
    activeRange s = Some (holdingDays st) /\
    (finite (dateTime (buyDate s)) -> finite (dateTime (sellDate s)) ->
     finite (holdingDays st) /\ nle zero (holdingDays st)).
Proof.
  intros Hb Hs Hbi Hsi Hle Hc.
  rewrite (returnEffect_in_range s bi si Hb Hs Hbi Hsi Hle). cbv zeta. rewrite Hc.
  eexists. split; [reflexivity|]. cbn [holdingDays]. split.
  - unfold activeRange. rewrite (isEmpty_false _ Hb), (isEmpty_false _ Hs). reflexivity.
  - intros Hfb Hfs.
    destruct (dateTime (buyDate s)) as [b| | |]; try discriminate Hfb.
    destruct (dateTime (sellDate s)) as [a| | |]; try discriminate Hfs.
    rewrite nsub_Fin.
    change (ofZ (1000 * 60 * 60 * 24)) with (Fin (Q2Qc (inject_Z 86400000))).
    unfold ndiv. change (sgn (Q2Qc (inject_Z 86400000))) with Gt. cbv iota.
    unfold mathRound. set (z := Qfloor _). unfold max2, zero, ofZ.
    destruct (nltb (Fin (Q2Qc (inject_Z 0))) (Fin (Q2Qc (inject_Z z)))) eqn:E.
    + split; [reflexivity|]. apply nle_Fin. apply nltb_Fin in E.
      now apply Qclt_le_weak.
    + split; [reflexivity|]. apply nle_Fin, Qcle_refl.
Qed.

(** No two presets of [QUICK_RANGE_PRESETS] are active at once, whatever
    the recorded preset and the active range are. *)
Theorem at_most_one_preset_active (activePresetDays : option Z) (range : option num)
        (p q : preset) :
  In p QUICK_RANGE_PRESETS -> In q QUICK_RANGE_PRESETS ->
  isActive activePresetDays range p = true ->
  isActive activePresetDays range q = true ->
  p = q.
Proof.
  intros Hp Hq Ap Aq.
  assert (Hwin : forall p', In p' QUICK_RANGE_PRESETS ->
            matchesRange range p' = true ->
            exists r, range = Some (Fin r) /\
              (Q2Qc (inject_Z (days p' - tolerance p')) <= r)%Qc /\
              (r <= Q2Qc (inject_Z (days p' + tolerance p')))%Qc).
  { intros p' Hp' Hm. unfold matchesRange in Hm.
    destruct range as [x|]; [|discriminate Hm].
    apply andb_prop in Hm. destruct Hm as [Hlo Hhi]. unfold ngeb in Hlo.
    assert (Elo : max2 zero (nsub (ofZ (days p')) (ofZ (tolerance p')))
                  = ofZ (days p' - tolerance p'))
      by (destruct Hp' as [<-|[<-|[<-|[<-|[]]]]]; num_decide).
    assert (Ehi : nadd (ofZ (days p')) (ofZ (tolerance p'))
                  = ofZ (days p' + tolerance p'))
      by (destruct Hp' as [<-|[<-|[<-|[<-|[]]]]]; num_decide).
    rewrite Elo in Hlo. rewrite Ehi in Hhi. unfold ofZ in Hlo, Hhi.
    destruct x as [r| | |]; try discriminate Hlo; try discriminate Hhi.
    exists r. split; [reflexivity|]. split; now apply nle_Fin. }
  assert (Hdays : days p = days q -> p = q).
  { destruct Hp as [<-|[<-|[<-|[<-|[]]]]], Hq as [<-|[<-|[<-|[<-|[]]]]];
      cbn [days]; intros E; try reflexivity; discriminate E. }
  assert (Hboth : matchesRange range p = true -> matchesRange range q = true -> p = q).
  { intros Mp Mq.
    destruct (Hwin p Hp Mp) as (r & Er & Hlo & Hhi).
    destruct (Hwin q Hq Mq) as (r' & Er' & Hlo' & Hhi').
    rewrite Er in Er'. injection Er' as <-.
    pose proof (ofZ_le _ _ (Qcle_trans _ _ _ Hlo Hhi')) as H1.
    pose proof (ofZ_le _ _ (Qcle_trans _ _ _ Hlo' Hhi)) as H2.
    destruct Hp as [<-|[<-|[<-|[<-|[]]]]], Hq as [<-|[<-|[<-|[<-|[]]]]];
      try reflexivity; exfalso; vm_compute in H1, H2;
      (now apply H1) || now apply H2. }
  unfold isActive in Ap, Aq. destruct activePresetDays as [d|]; [|now apply Hboth].
  apply orb_prop in Ap. apply orb_prop in Aq.
  destruct Ap as [Ap|Ap], Aq as [Aq|Aq].
  - apply Z.eqb_eq in Ap, Aq. apply Hdays. congruence.
  - apply Z.eqb_eq in Ap. apply andb_prop in Aq. destruct Aq as [Aq _].
    apply Z.eqb_eq in Aq. rewrite Ap in Aq. exfalso.
    destruct Hp as [<-|[<-|[<-|[<-|[]]]]]; discriminate Aq.
  - apply Z.eqb_eq in Aq. apply andb_prop in Ap. destruct Ap as [Ap _].
    apply Z.eqb_eq in Ap. rewrite Aq in Ap. exfalso.
    destruct Hq as [<-|[<-|[<-|[<-|[]]]]]; discriminate Ap.
  - apply andb_prop in Ap. apply andb_prop in Aq. apply Hboth; tauto.
Qed.

End Controls.

(** ** MovingAverageChart *)

Section MovingAverageViewFacts.
Context `{Host}.
Import MovingAverageView.

Lemma present_outcome (windowSize : Z) (entries : list entry) (s : state) :
  present windowSize entries s = Threw \/
  exists c st,
    present windowSize entries s = Done (s |> setStats (Some st) |> setChartData (Some c)) /\
    totalPoints st = length entries /\
    labels c = map (fun entry => formatDateLabel (date entry)) entries /\
    buyPrices c = map (fun entry => ndiv (buy entry) (ofZ 1000000)) entries /\
    length (movingAverageValues c) = length entries /\
    (windowComparison st = None <-> Z.of_nat (length entries) <= windowSize).
Proof.
  unfold present.
  destruct (Z.of_nat (length entries) >? windowSize) eqn:Eg.
  - destruct (nth_error entries _) as [compareEntry|]; [|now left].
    right. eexists _, _. split; [reflexivity|]. cbn.
    repeat split; try reflexivity.
    + now rewrite length_map, movingAverage_length, length_map.
    + discriminate.
    + intros Hle. rewrite Z.gtb_ltb in Eg. apply Z.ltb_lt in Eg. lia.
  - right. eexists _, _. split; [reflexivity|]. cbn.
    repeat split; try reflexivity.
    + now rewrite length_map, movingAverage_length, length_map.
    + intros _. rewrite Z.gtb_ltb in Eg. apply Z.ltb_ge in Eg. exact Eg.
Qed.

Lemma chartEntries_all_finite (t : trends) (l : list entry) :
  entriesOf t = Done (Some l) -> Forall (fun e => finite (buy e)) l.
Proof.
  unfold entriesOf. destruct (dates t) as [[|d ds]|]; try discriminate.
  - intros E.
    apply (f_equal (fun a => match a with Done (Some x) => x | _ => [] end)) in E.
    cbv beta iota in E. subst l. constructor.
  - destruct (buy_prices t) as [buys|]; [|discriminate]. intros E.
    apply (f_equal (fun a => match a with Done (Some x) => x | _ => [] end)) in E.
    cbv beta iota in E. subst l.
    apply Forall_forall. intros e He.
    apply filterBoolean_In in He. apply mapi_from_In in He.
    destruct He as (d' & k & _ & E).
    destruct (isFinite (toNumber (at_index buys k))) eqn:Ef; cbn [negb] in E;
      [|discriminate E].
    injection E as ->. exact Ef.
Qed.

(** For every window and response, [fetchData] of the moving-average
    chart ends with [loading] off, and either clears the chart and the
    summary and sets one of its two error messages, or sets no error and
    writes a summary and a chart together, with at least one point, one
    label, one price and one average per point, only finite prices, and
    a window comparison exactly when there are more points than the
    window is long. *)
Theorem movingAverageChart_consistent (windowSize : Z) (r : response) (s : state) :
  let s' := fetchData windowSize r s in
  loading s' = false /\
  ((chartData s' = None /\ stats s' = None /\
    (error s' = Some noDataForType \/ error s' = Some loadFailed)) \/
   (exists c st,
      chartData s' = Some c /\ stats s' = Some st /\ error s' = None /\
      (1 <= totalPoints st)%nat /\
      length (labels c) = totalPoints st /\
      length (buyPrices c) = totalPoints st /\
      length (movingAverageValues c) = totalPoints st /\
      Forall finite (buyPrices c) /\
      (windowComparison st = None <-> Z.of_nat (totalPoints st) <= windowSize))).
Proof.
  intros s'. unfold s', fetchData, tryBody.
  destruct r as [|[t|]].
  - split; [reflexivity|left]. repeat split. now right.
  - destruct (entriesOf t) as [|[[|e l]|]] eqn:Et.
    + split; [reflexivity|left]. repeat split. now right.
    + split; [reflexivity|left]. repeat split. now left.
    + pose proof (chartEntries_all_finite t _ Et) as Hfin.
      destruct (present_outcome windowSize (e :: l)
                                (s |> setLoading true |> setError None))
        as [->|(c & st & -> & Htp & Hl & Hb & Hm & Hw)].
      * split; [reflexivity|left]. repeat split. now right.
      * split; [reflexivity|right]. exists c, st.
        split; [reflexivity|]. split; [reflexivity|]. split; [reflexivity|].
        rewrite Htp, Hl, Hb, Hm, !length_map. repeat split; try (simpl; lia);
          try (now apply Hw).
        apply Forall_forall. intros x Hx. apply in_map_iff in Hx.
        destruct Hx as (y & <- & Hy). apply scaled_finite.
        rewrite Forall_forall in Hfin. now apply Hfin.
    + split; [reflexivity|left]. repeat split. now left.
  - split; [reflexivity|left]. repeat split. now left.
Qed.

End MovingAverageViewFacts.

(** ** The further properties on scenarios *)

Section DeltaMoreScenarios.
Import DailyChange.

Lemma fetchChangeData_error_scenario :
  (@Rejected = Rejected) /\ error (fetchChangeData Rejected initial) = Some loadFailed.
Proof.
  split; [reflexivity|].
  apply (proj2 (proj1 (fetchChangeData_error Rejected initial))). now left.
Defined.

Lemma average_change_scenario :
  let ds := ["2025-01-01"; "2025-01-02"; "2025-01-03"] in
  let v := [ofZ 100; ofZ 105; ofZ 120] in
  (length ds = length v /\ Forall (wholeWithin 120) v /\ 2 * 120 <= exactLimit /\
   (2 <= length v)%nat) /\
  exists st,
    stats
      (fetchChangeData
         (Resolved
            (Some {| dates := Some ds; buy_prices := Some (map JNum v);
                     sell_prices := None |}))
         initial)
    = Some st /\
    averageChange st = ofZ 10.
Proof.
  intros ds v.
  assert (Hlen : length ds = length v) by reflexivity.
  assert (Hv : Forall (wholeWithin 120) v).
  { repeat constructor; [exists 100|exists 105|exists 120]; (split; [reflexivity|lia]). }
  assert (Hb : 2 * 120 <= exactLimit) by (vm_compute; discriminate).
  assert (H2 : (2 <= length v)%nat) by (simpl; lia).
  split; [split; [exact Hlen|split; [exact Hv|split; [exact Hb|exact H2]]]|].
  destruct (average_change_is_net_change ds v None initial 120 Hlen Hv Hb H2)
    as (st & Hst & Ha & _).
  exists st. split; [exact Hst|]. rewrite Ha. num_decide.
Defined.

Lemma average_change_between_extremes_scenario :
  let ds := ["2025-01-01"; "2025-01-02"; "2025-01-03"] in
  let v := [ofZ 100; ofZ 105; ofZ 120] in
  (length ds = length v /\ Forall (wholeWithin 120) v /\ 2 * 120 <= exactLimit /\
   (2 <= length v)%nat) /\
  exists st,
    stats
      (fetchChangeData
         (Resolved
            (Some {| dates := Some ds; buy_prices := Some (map JNum v);
                     sell_prices := None |}))
         initial)
    = Some st /\
    nle (maxDrop st) (averageChange st) /\ nle (averageChange st) (maxGain st).
Proof.
  intros ds v.
  assert (Hlen : length ds = length v) by reflexivity.
  assert (Hv : Forall (wholeWithin 120) v).
  { repeat constructor; [exists 100|exists 105|exists 120]; (split; [reflexivity|lia]). }
  assert (Hb : 2 * 120 <= exactLimit) by (vm_compute; discriminate).
  assert (H2 : (2 <= length v)%nat) by (simpl; lia).
  split; [split; [exact Hlen|split; [exact Hv|split; [exact Hb|exact H2]]]|].
  destruct (average_change_between_extremes ds v None initial 120 Hlen Hv Hb H2)
    as (st & Hst & _ & _ & _ & Hlo & Hhi).
  exists st. split; [exact Hst|]. split; [exact Hlo|exact Hhi].
Defined.

End DeltaMoreScenarios.

Section SpreadMoreScenarios.
Import SpreadTrend.

Lemma spread_summary_ordered_scenario :
  exists st,
    stats (fetchSpreadData (Resolved (Some (payloadOf invertedMarket))) initial) = Some st /\
    exists x,
      currentSpread st = Some x /\
      nle (minSpread st) x /\ nle x (maxSpread st).
Proof.
  eexists. split; [reflexivity|].
  exact (spread_summary_ordered
           (Resolved (Some (payloadOf invertedMarket))) initial _ eq_refl).
Defined.

Lemma fetchSpreadData_error_scenario :
  (@Rejected = Rejected) /\ error (fetchSpreadData Rejected initial) = Some loadFailed.
Proof.
  split; [reflexivity|].
  apply (proj2 (proj1 (fetchSpreadData_error Rejected initial))). now left.
Defined.

Lemma spread_never_negative_scenario :
  (Forall (fun p => finitePoint p = true) normalMarket /\ normalMarket <> [] /\
   forall p, In p normalMarket -> nle (pbuy p) (psell p)) /\
  exists st,
    stats (fetchSpreadData (Resolved (Some (payloadOf normalMarket))) initial) = Some st /\
    nle zero (minSpread st).
Proof.
  assert (Hfin : Forall (fun p => finitePoint p = true) normalMarket)
    by (repeat constructor).
  assert (Hne : normalMarket <> []) by closed_neq.
  assert (Hord : forall p, In p normalMarket -> nle (pbuy p) (psell p)).
  { intros p [<-|[<-|[]]]; reflexivity. }
  split; [split; [exact Hfin|split; [exact Hne|exact Hord]]|].
  exact (spread_never_negative normalMarket initial Hfin Hne Hord).
Defined.

End SpreadMoreScenarios.

Section ReturnMoreScenarios.
Import CumulativeReturn ReturnControls.

Lemma scenario_dates (e : entry) :
  In e scenarioSeries -> finite (dateTime (date e)) /\ date e <> "".
Proof.
  intros [<-|[<-|[<-|[]]]]; (split; [reflexivity|closed_neq]).
Defined.

Lemma effect_after_fetch_scenario :
  let s1 := fetchData (Resolved (Some scenarioTrends)) initial in
  (entries s1 <> [] /\ forall e, In e (entries s1) -> date e <> "") /\
  ((exists msg, returnEffect s1 = aborted msg s1 /\
                (msg = rangeOrder \/ msg = sellUnavailable)) \/
   (exists w first last, returnEffect s1 = succeeded w first last s1)).
Proof.
  intros s1.
  assert (Hne : entries s1 <> []) by closed_neq.
  assert (Hd : forall e, In e (entries s1) -> date e <> "").
  { intros e He. vm_compute in He.
    destruct He as [<-|[<-|[<-|[]]]]; closed_neq. }
  split; [split; [exact Hne|exact Hd]|].
  exact (effect_after_fetch_decides (Resolved (Some scenarioTrends)) initial Hne Hd).
Defined.

Lemma stored_series_scenario :
  Forall (fun e => finite (dateTime (date e))) (survivors descendingPayload) /\
  sortBy dateCompare (entries (fetchData (Resolved (Some descendingPayload)) initial))
  = entries (fetchData (Resolved (Some descendingPayload)) initial).
Proof.
  assert (Hv : Forall (fun e => finite (dateTime (date e))) (survivors descendingPayload))
    by (repeat constructor).
  split; [exact Hv|].
  exact (stored_series_is_sorted descendingPayload initial Hv).
Defined.


Lemma quick_range_scenario :
  let s := scenarioState "2025-01-01" "2025-01-03" in
  entries s <> [] /\
  entries (handleQuickRange 7 s) = entries s /\
  activePresetDays (handleQuickRange 7 s) = Some 7 /\
  sellDate (handleQuickRange 7 s) = "2025-01-03".
Proof.
  intros s.
  assert (Hne : entries s <> []) by closed_neq.
  split; [exact Hne|].
  destruct (proj2 (handleQuickRange_selects_present_dates 7 s) Hne)
    as (He & Ha & Hs & _).
  split; [exact He|]. split; [exact Ha|]. exact (eq_trans Hs eq_refl).
Defined.

(** A preset of seven days on three days of history falls back to the
    first date. *)
Lemma quick_range_clamps_scenario :
  let s := scenarioState "2025-01-02" "2025-01-03" in
  entries s <> [] /\ buyDate (handleQuickRange 7 s) = "2025-01-01".
Proof.
  intros s.
  assert (Hne : entries s <> []) by closed_neq.
  split; [exact Hne|].
  destruct (handleQuickRange_clamps 7 s Hne) as [(i & Hi & _ & Hq & _)|[Hb _]].
  - exfalso. assert (Hi3 : (i < 3)%nat) by exact Hi.
    destruct i as [|[|[|i]]]; [| | |lia]; vm_compute in Hq; discriminate Hq.
  - exact (eq_trans Hb eq_refl).
Defined.

Lemma quick_range_never_reversed_scenario :
  let s := scenarioState "2025-01-03" "2025-01-01" in
  (entries s <> [] /\ 0 < 7 /\
   forall e, In e (entries s) -> finite (dateTime (date e)) /\ date e <> "") /\
  ((exists w first last,
      returnEffect (handleQuickRange 7 s) = succeeded w first last (handleQuickRange 7 s)) \/
   returnEffect (handleQuickRange 7 s) = aborted sellUnavailable (handleQuickRange 7 s)).
Proof.
  intros s.
  assert (Hne : entries s <> []) by closed_neq.
  assert (Hd : 0 < 7) by lia.
  split; [split; [exact Hne|split; [exact Hd|exact scenario_dates]]|].
  exact (handleQuickRange_never_reversed 7 s Hne Hd scenario_dates).
Defined.

(** An entry date after the exit date pulls the exit date along. *)
Lemma date_handlers_scenario :
  let s := scenarioState "2025-01-01" "2025-01-02" in
  let s' := handleBuyDateChange "2025-01-03" s in
  sellDate s <> "" /\
  buyDate s' = "2025-01-03" /\
  nltb (dateTime (sellDate s')) (dateTime (buyDate s')) = false.
Proof.
  intros s s'.
  assert (Hs : sellDate s <> "") by closed_neq.
  split; [exact Hs|].
  destruct (proj1 (date_handlers_keep_order "2025-01-03" s)) as (Hb & _ & _ & Ho).
  split; [exact Hb|exact (Ho Hs)].
Defined.

Lemma offered_options_scenario :
  let s := scenarioState "2025-01-01" "2025-01-03" in
  let e := scenarioPoint "2025-01-02" 105 115 in
  In e (buyOptions s) /\
  sellDate (handleBuyDateChange (date e) s) = sellDate s.
Proof.
  intros s e.
  assert (He : In e (buyOptions s)) by (vm_compute; right; left; reflexivity).
  split; [exact He|].
  exact (proj2 (proj1 (offered_options_keep_other_date e s) He)).
Defined.

Lemma reset_scenario :
  let s := scenarioState "2025-01-02" "2025-01-02" in
  (entries s <> [] /\ sortBy dateCompare (entries s) = entries s /\
   forall e, In e (entries s) -> date e <> "") /\
  buyDate (handleResetRange s) = "2025-01-01" /\
  sellDate (handleResetRange s) = "2025-01-03".
Proof.
  intros s.
  assert (Hne : entries s <> []) by closed_neq.
  assert (Hfix : sortBy dateCompare (entries s) = entries s) by reflexivity.
  assert (Hd : forall e, In e (entries s) -> date e <> "")
    by (intros e He; now apply scenario_dates).
  split; [split; [exact Hne|split; [exact Hfix|exact Hd]]|].
  destruct (reset_selects_full_range s Hne Hfix Hd) as (Hb & Hs & _).
  split; [exact (eq_trans Hb eq_refl)|exact (eq_trans Hs eq_refl)].
Defined.

Lemma scenario_in_range :
  let s := scenarioState "2025-01-01" "2025-01-03" in
  buyDate s <> "" /\ sellDate s <> "" /\
  indexOfDate (buyDate s) (sortBy dateCompare (entries s)) = Some 0%nat /\
  indexOfDate (sellDate s) (sortBy dateCompare (entries s)) = Some 2%nat /\
  (0 <= 2)%nat /\
  usableCost (sell (nth 0 (sortBy dateCompare (entries s)) noEntry)) = true.
Proof.
  intros s. split; [closed_neq|]. split; [closed_neq|].
  split; [reflexivity|]. split; [reflexivity|]. split; [lia|reflexivity].
Defined.

Lemma both_views_scenario :
  let s := scenarioState "2025-01-01" "2025-01-03" in
  exists c st d,
    chartData (returnEffect s) = Some c /\ stats (returnEffect s) = Some st /\
    displayChartData "money" (Some c) = Some d /\
    length (shownData d) = length (shownLabels d) /\
    lastElement (shownData d) = Some (absoluteChange st).
Proof.
  intros s. destruct scenario_in_range as (Hb & Hs & Hbi & Hsi & Hle & Hc).
  destruct (both_views_end_at_the_summary s 0 2 "money" Hb Hs Hbi Hsi Hle Hc)
    as (c & st & d & H1 & H2 & H3 & _ & H5 & H6 & _).
  exists c, st, d.
  split; [exact H1|]. split; [exact H2|]. split; [exact H3|].
  split; [exact H5|exact H6].
Defined.

Lemma click_scenario :
  let s := scenarioState "2025-01-01" "2025-01-03" in
  exists c,
    chartData (returnEffect s) = Some c /\
    nth_error (labels c) 1 = Some (formatDateLabel (sellDate (onClick (Some 1%nat) s))) /\
    buyDate (onClick (Some 1%nat) s) = buyDate s.
Proof.
  intros s. destruct scenario_in_range as (Hb & Hs & Hbi & Hsi & Hle & Hc).
  assert (Hk : (0 + 1 <= 2)%nat) by lia.
  destruct (click_selects_labelled_date s 0 2 1 Hb Hs Hbi Hsi Hle Hc Hk)
    as (_ & c & H1 & H2 & H3 & _).
  exists c. split; [exact H1|]. split; [exact H2|exact H3].
Defined.

Lemma activeRange_scenario :
  let s := scenarioState "2025-01-01" "2025-01-03" in
  exists st,
    stats (returnEffect s) = Some st /\
    activeRange s = Some (holdingDays st) /\
    nle zero (holdingDays st).
Proof.
  intros s. destruct scenario_in_range as (Hb & Hs & Hbi & Hsi & Hle & Hc).
  destruct (activeRange_is_holding_days s 0 2 Hb Hs Hbi Hsi Hle Hc)
    as (st & H1 & H2 & H3).
  exists st. split; [exact H1|]. split; [exact H2|].
  exact (proj2 (H3 eq_refl eq_refl)).
Defined.

(** A range of eight days highlights the seven-day preset only. *)
Lemma preset_scenario :
  (In sevenDays QUICK_RANGE_PRESETS /\
   isActive None (Some (ofZ 8)) sevenDays = true) /\
  forall q, In q QUICK_RANGE_PRESETS ->
            isActive None (Some (ofZ 8)) q = true -> sevenDays = q.
Proof.
  assert (Hin : In sevenDays QUICK_RANGE_PRESETS) by (left; reflexivity).
  assert (Hact : isActive None (Some (ofZ 8)) sevenDays = true) by reflexivity.
  split; [split; assumption|].
  intros q Hq Aq.
  exact (at_most_one_preset_active None (Some (ofZ 8)) sevenDays q Hin Hq Hact Aq).
Defined.

End ReturnMoreScenarios.

Section MovingAverageViewScenarios.
Import MovingAverageView.

Lemma movingAverageChart_scenario :
  exists c st,
    chartData (fetchData 2 (Resolved (Some scenarioTrends)) initial) = Some c /\
    stats (fetchData 2 (Resolved (Some scenarioTrends)) initial) = Some st /\
    length (movingAverageValues c) = totalPoints st /\
    windowComparison st <> None.
Proof.
  destruct (movingAverageChart_consistent 2 (Resolved (Some scenarioTrends)) initial)
    as (_ & [(Hc & _)|(c & st & Hc & Hs & _ & _ & _ & _ & Hm & _ & Hw)]).
  - exfalso. vm_compute in Hc. discriminate Hc.
  - exists c, st. split; [exact Hc|]. split; [exact Hs|]. split; [exact Hm|].
    intros E. apply Hw in E.
    assert (Ht : totalPoints st = 3%nat).
    { assert (E3 : option_map totalPoints
                     (stats (fetchData 2 (Resolved (Some scenarioTrends)) initial))
                   = Some 3%nat) by reflexivity.
      rewrite Hs in E3. now injection E3. }
    rewrite Ht in E. simpl in E. lia.
Defined.

End MovingAverageViewScenarios.
